(** * Shape, wiring and range properties of the pix2pix network modules

    The development follows [model_modules.py]: the two convolutional blocks
    ([EncoderBlock], [DecoderBlock]), the U-Net [Generator] and the two patch
    discriminators ([Discriminator], [Discriminator286]).

    - Tensors live in a store and are passed around by handle, as Python
      passes them by reference: [nn.LeakyReLU(0.2, True)] rewrites its
      argument in place, and the generator reads the rewritten encoder
      outputs again in its skip connections.
    - Constructors and calls return a [result]: an exception of the
      library or of the modules ends the computation.
    - The tensor library below the modules is described by its documented
      shape rules and argument checks.  The arithmetic of the parameterised
      layers (convolution weights, normalisation statistics, dropout masks)
      is carried by each layer as an uninterpreted map; the elementwise
      nonlinearities are defined.
    - Tensor entries are real numbers: rounding and non-numbers are outside
      the model. *)

From Stdlib Require Import ZArith QArith Reals Lra Lia String.
From stdpp Require Import base list.

Local Open Scope string_scope.
Local Open Scope list_scope.
Local Open Scope Z_scope.

(** ** Exceptions and results *)

Inductive exn : Type :=
| NotImplementedError (msg : string)
| ValueError (msg : string)
| RuntimeError (msg : string)
| AttributeError (msg : string).

Inductive result (A : Type) : Type :=
| Ok (a : A)
| Raise (e : exn).
Arguments Ok {A} a.
Arguments Raise {A} e.

Definition result_bind {A B} (r : result A) (k : A -> result B) : result B :=
  match r with
  | Ok a => k a
  | Raise e => Raise e
  end.

(** ** Tensors *)

(** A 4-dimensional activation: (batch, channels, height, width). *)
Record shape4 : Type := Shape { dimN : Z; dimC : Z; dimH : Z; dimW : Z }.

Definition values : Type := Z -> Z -> Z -> Z -> R.

Record tensor : Type := Tensor { size : shape4; data : values }.

Definition pointwise (f : R -> R) (x : tensor) : tensor :=
  Tensor (size x) (fun n c h w => f (data x n c h w)).

(** Every entry (inside the tensor's shape) lies between [lo] and [hi]. *)
Definition in_range (lo hi : R) (x : tensor) : Prop :=
  forall n c h w,
    0 <= n < dimN (size x) -> 0 <= c < dimC (size x) ->
    0 <= h < dimH (size x) -> 0 <= w < dimW (size x) ->
    (lo <= data x n c h w <= hi)%R.

(** Two tensors agree when they have the same shape and the same entries
    at every index inside it. *)
Definition tensor_eq (x y : tensor) : Prop :=
  size x = size y /\
  forall n c h w,
    0 <= n < dimN (size x) -> 0 <= c < dimC (size x) ->
    0 <= h < dimH (size x) -> 0 <= w < dimW (size x) ->
    data x n c h w = data y n c h w.

(** The channel slice [x[:, start : start+len]] ([torch.narrow] on axis 1),
    used to observe what a concatenation put where. *)
Definition narrow_channels (x : tensor) (start len : Z) : tensor :=
  Tensor (Shape (dimN (size x)) len (dimH (size x)) (dimW (size x)))
         (fun n c h w => data x n (start + c) h w).

(** ** The store of tensor objects

    Python passes tensors by reference.  A handle is an index into the
    list of tensor objects created so far; an in-place operation overwrites
    the object it is given, every other operation creates a new object. *)

Abbreviation handle := nat (only parsing).
Abbreviation store := (list tensor) (only parsing).
Definition M (A : Type) : Type := store -> result (A * store).

Definition ret {A} (a : A) : M A := fun st => Ok (a, st).

Definition bind {A B} (m : M A) (k : A -> M B) : M B :=
  fun st =>
    match m st with
    | Ok (a, st') => k a st'
    | Raise e => Raise e
    end.

Definition raise {A} (e : exn) : M A := fun _ => Raise e.

Definition lift {A} (r : result A) : M A :=
  fun st =>
    match r with
    | Ok a => Ok (a, st)
    | Raise e => Raise e
    end.

(** Create a new tensor object. *)
Definition new (x : tensor) : M handle := fun st => Ok (length st, st ++ [x]).

(** Read the tensor object behind a reference. *)
Definition get (r : handle) : M tensor :=
  fun st =>
    match st !! r with
    | Some x => Ok (x, st)
    | None => Raise (RuntimeError "no such tensor")
    end.

(** Overwrite the tensor object behind a reference. *)
Definition put (r : handle) (x : tensor) : M unit := fun st => Ok (tt, <[r := x]> st).

Declare Scope store_scope.
Delimit Scope store_scope with store.
Notation "x <- m ;; k" := (bind m (fun x => k))
  (at level 100, m at next level, right associativity) : store_scope.

Declare Scope result_scope.
Delimit Scope result_scope with result.
Notation "x <- m ;; k" := (result_bind m (fun x => k))
  (at level 100, m at next level, right associativity) : result_scope.

(** The arithmetic a parameterised layer performs on its input at its current
    parameters.  The modules never look inside it. *)
Definition arith : Type := tensor -> values.

(** Where a constructor takes the initial parameters of its layers from,
    keyed by attribute path as in a state dict. *)
Definition params : Type := string -> arith.

Definition sub (theta : params) (prefix : string) : params :=
  fun key => theta (String.append prefix (String.append "." key)).

(** ** The tensor library: [torch.nn] layers and [torch.cat]

    Each layer has a shape rule [out_shape] (with the argument checks of the
    library), a pure reading [apply] (the result tensor) and a [forward] that
    says which tensor object the result is stored in.  Layers are modelled in
    the mode their constructor leaves them in (training); the modules never
    switch it. *)

Module nn.

(** [nn.Conv2d(in_channels, out_channels, kernel_size, stride, padding,
    dilation, groups, bias)]. *)
Module Conv2d.
Record t : Type := Build {
  in_channels : Z; out_channels : Z; kernel_size : Z; stride : Z;
  padding : Z; dilation : Z; groups : Z; bias : bool;
  compute : arith
}.

(** The constructor wants a positive group count that divides both channel
    counts, and allocates a weight, whose extents are taken to be positive. *)
Definition __init__ (w : arith)
    (in_channels out_channels kernel_size stride padding dilation groups : Z)
    (bias : bool) : result t :=
  if (groups <=? 0) then Raise (ValueError "groups must be a positive integer")
  else if negb (in_channels mod groups =? 0)
  then Raise (ValueError "in_channels must be divisible by groups")
  else if negb (out_channels mod groups =? 0)
  then Raise (ValueError "out_channels must be divisible by groups")
  else if (in_channels <=? 0) || (out_channels <=? 0) || (kernel_size <=? 0)
  then Raise (RuntimeError "invalid weight shape")
  else Ok (Build in_channels out_channels kernel_size stride padding dilation
                 groups bias w).

(** Output extent along one spatial axis:
    floor((h + 2 padding - dilation (kernel_size - 1) - 1) / stride) + 1. *)
Definition out_size (self : t) (h : Z) : Z :=
  (h + 2 * padding self - dilation self * (kernel_size self - 1) - 1) / stride self + 1.

(** The padded input has to hold the dilated kernel. *)
Definition fits (self : t) (h : Z) : bool :=
  dilation self * (kernel_size self - 1) + 1 <=? h + 2 * padding self.

Definition out_shape (self : t) (s : shape4) : result shape4 :=
  if negb (dimC s =? in_channels self)
  then Raise (RuntimeError "input channels do not match the weight")
  else if (stride self <=? 0) || (padding self <? 0) || (dilation self <=? 0)
  then Raise (RuntimeError "unsupported stride, padding or dilation")
  else if negb (fits self (dimH s) && fits self (dimW s))
  then Raise (RuntimeError "kernel size can't be greater than actual input size")
  else Ok (Shape (dimN s) (out_channels self)
                 (out_size self (dimH s)) (out_size self (dimW s))).

Definition apply (self : t) (x : tensor) : result tensor :=
  (s <- out_shape self (size x) ;; Ok (Tensor s (compute self x)))%result.

Definition forward (self : t) (x : handle) : M handle :=
  (v <- get x ;; y <- lift (apply self v) ;; new y)%store.
End Conv2d.

(** [nn.ConvTranspose2d(in_channels, out_channels, kernel_size, stride,
    padding, bias)]. *)
Module ConvTranspose2d.
Record t : Type := Build {
  in_channels : Z; out_channels : Z; kernel_size : Z; stride : Z;
  padding : Z; bias : bool;
  compute : arith
}.

Definition __init__ (w : arith)
    (in_channels out_channels kernel_size stride padding : Z) (bias : bool)
    : result t :=
  if (in_channels <=? 0) || (out_channels <=? 0) || (kernel_size <=? 0)
  then Raise (RuntimeError "invalid weight shape")
  else Ok (Build in_channels out_channels kernel_size stride padding bias w).

(** Output extent along one spatial axis:
    (h - 1) stride - 2 padding + dilation (kernel_size - 1) + output_padding + 1
    at dilation 1 and output padding 0, the defaults, which the modules
    never override. *)
Definition out_size (self : t) (h : Z) : Z :=
  (h - 1) * stride self - 2 * padding self + (kernel_size self - 1) + 1.

Definition out_shape (self : t) (s : shape4) : result shape4 :=
  if negb (dimC s =? in_channels self)
  then Raise (RuntimeError "input channels do not match the weight")
  else if (stride self <=? 0) || (padding self <? 0)
  then Raise (RuntimeError "unsupported stride or padding")
  else if (out_size self (dimH s) <=? 0) || (out_size self (dimW s) <=? 0)
  then Raise (RuntimeError "output size is too small")
  else Ok (Shape (dimN s) (out_channels self)
                 (out_size self (dimH s)) (out_size self (dimW s))).

Definition apply (self : t) (x : tensor) : result tensor :=
  (s <- out_shape self (size x) ;; Ok (Tensor s (compute self x)))%result.

Definition forward (self : t) (x : handle) : M handle :=
  (v <- get x ;; y <- lift (apply self v) ;; new y)%store.
End ConvTranspose2d.

(** [nn.BatchNorm2d(num_features)]: keeps the shape; in training mode the
    batch statistics need more than one value per channel. *)
Module BatchNorm2d.
Record t : Type := Build { num_features : Z; compute : arith }.

Definition __init__ (w : arith) (num_features : Z) : t := Build num_features w.

Definition out_shape (self : t) (s : shape4) : result shape4 :=
  if negb (dimC s =? num_features self)
  then Raise (RuntimeError "running_mean should contain num_features elements")
  else if dimN s * dimH s * dimW s =? 1
  then Raise (ValueError "Expected more than 1 value per channel when training")
  else Ok s.

Definition apply (self : t) (x : tensor) : result tensor :=
  (s <- out_shape self (size x) ;; Ok (Tensor s (compute self x)))%result.

Definition forward (self : t) (x : handle) : M handle :=
  (v <- get x ;; y <- lift (apply self v) ;; new y)%store.
End BatchNorm2d.

(** [nn.InstanceNorm2d(num_features)]: keeps the shape; the statistics of
    an instance need more than one spatial element. *)
Module InstanceNorm2d.
Record t : Type := Build { num_features : Z; compute : arith }.

Definition __init__ (w : arith) (num_features : Z) : t := Build num_features w.

Definition out_shape (self : t) (s : shape4) : result shape4 :=
  if dimH s * dimW s =? 1
  then Raise (ValueError "Expected more than 1 spatial element when training")
  else Ok s.

Definition apply (self : t) (x : tensor) : result tensor :=
  (s <- out_shape self (size x) ;; Ok (Tensor s (compute self x)))%result.

Definition forward (self : t) (x : handle) : M handle :=
  (v <- get x ;; y <- lift (apply self v) ;; new y)%store.
End InstanceNorm2d.

(** [nn.Dropout2d(p)]: keeps the shape; the constructor checks the
    probability. *)
Module Dropout2d.
Record t : Type := Build { p : Q; compute : arith }.

Definition __init__ (w : arith) (p : Q) : result t :=
  if negb (Qle_bool 0 p && Qle_bool p 1)
  then Raise (ValueError "dropout probability has to be between 0 and 1")
  else Ok (Build p w).

Definition apply (self : t) (x : tensor) : tensor :=
  Tensor (size x) (compute self x).

Definition forward (self : t) (x : handle) : M handle :=
  (v <- get x ;; new (apply self v))%store.
End Dropout2d.

(** [nn.LeakyReLU(negative_slope, inplace)]:
    max(0, v) + negative_slope * min(0, v) on every entry. *)
Module LeakyReLU.
Record t : Type := Build { negative_slope : Q; inplace : bool }.

Definition __init__ (negative_slope : Q) (inplace : bool) : t :=
  Build negative_slope inplace.

Definition f (slope : Q) (v : R) : R := (Rmax 0 v + Q2R slope * Rmin 0 v)%R.

Definition apply (self : t) (x : tensor) : tensor :=
  pointwise (f (negative_slope self)) x.

(** With [inplace] the argument object itself is overwritten and returned. *)
Definition forward (self : t) (x : handle) : M handle :=
  (v <- get x ;;
   if inplace self
   then (_ <- put x (apply self v) ;; ret x)
   else new (apply self v))%store.
End LeakyReLU.

(** [nn.ReLU()]: max(0, v) on every entry, not in place by default. *)
Module ReLU.
Record t : Type := Build { inplace : bool }.

Definition __init__ : t := Build false.

Definition f (v : R) : R := Rmax 0 v.

Definition apply (self : t) (x : tensor) : tensor := pointwise f x.

Definition forward (self : t) (x : handle) : M handle :=
  (v <- get x ;;
   if inplace self
   then (_ <- put x (apply self v) ;; ret x)
   else new (apply self v))%store.
End ReLU.

(** [nn.Tanh()] and [nn.Sigmoid()]: stateless, on every entry. *)
Module Tanh.
Definition apply (x : tensor) : tensor := pointwise tanh x.
Definition forward (x : handle) : M handle := (v <- get x ;; new (apply v))%store.
End Tanh.

Module Sigmoid.
Definition f (v : R) : R := (1 / (1 + exp (- v)))%R.
Definition apply (x : tensor) : tensor := pointwise f x.
Definition forward (x : handle) : M handle := (v <- get x ;; new (apply v))%store.
End Sigmoid.

End nn.

(** The normalisation layer a block holds in its [norm] attribute. *)
Inductive norm_layer : Type :=
| BatchNorm (l : nn.BatchNorm2d.t)
| InstanceNorm (l : nn.InstanceNorm2d.t).

Definition norm_shape (l : norm_layer) (s : shape4) : result shape4 :=
  match l with
  | BatchNorm b => nn.BatchNorm2d.out_shape b s
  | InstanceNorm i => nn.InstanceNorm2d.out_shape i s
  end.

Definition norm_compute (l : norm_layer) : arith :=
  match l with
  | BatchNorm b => nn.BatchNorm2d.compute b
  | InstanceNorm i => nn.InstanceNorm2d.compute i
  end.

Definition norm_apply (l : norm_layer) (x : tensor) : result tensor :=
  match l with
  | BatchNorm b => nn.BatchNorm2d.apply b x
  | InstanceNorm i => nn.InstanceNorm2d.apply i x
  end.

Definition norm_forward (l : norm_layer) (x : handle) : M handle :=
  match l with
  | BatchNorm b => nn.BatchNorm2d.forward b x
  | InstanceNorm i => nn.InstanceNorm2d.forward i x
  end.

Module torch.

(** [torch.cat([a, b], 1)]: the tensors must agree on every axis but the
    channel axis; the channels of the first come first. *)
Definition cat_shape (s t : shape4) : result shape4 :=
  if negb ((dimN s =? dimN t) && (dimH s =? dimH t) && (dimW s =? dimW t))
  then Raise (RuntimeError "Sizes of tensors must match except in dimension 1")
  else Ok (Shape (dimN s) (dimC s + dimC t) (dimH s) (dimW s)).

Definition cat_data (a b : tensor) : values :=
  fun n c h w =>
    if c <? dimC (size a) then data a n c h w
    else data b n (c - dimC (size a)) h w.

Definition cat2 (a b : tensor) : result tensor :=
  (s <- cat_shape (size a) (size b) ;; Ok (Tensor s (cat_data a b)))%result.

Fixpoint cat_channels (xs : list tensor) : result tensor :=
  match xs with
  | [] => Raise (RuntimeError "torch.cat(): expected a non-empty list of Tensors")
  | [x] => Ok x
  | x :: rest => (r <- cat_channels rest ;; cat2 x r)%result
  end.

Fixpoint get_all (xs : list handle) : M (list tensor) :=
  match xs with
  | [] => ret []
  | r :: rest => (v <- get r ;; vs <- get_all rest ;; ret (v :: vs))%store
  end.

(** [torch.cat(xs, dim)]; the modules only ever join along axis 1. *)
Definition cat (xs : list handle) (dim : Z) : M handle :=
  (if negb (dim =? 1)
   then raise (NotImplementedError "only the channel axis is modelled")
   else vs <- get_all xs ;; y <- lift (cat_channels vs) ;; new y)%store.

End torch.

(** ** [class EncoderBlock] *)

Module EncoderBlock.

(** The [norm] attribute only exists when [do_norm] was set. *)
Record t : Type := Build {
  conv : nn.Conv2d.t;
  leakyRelu : nn.LeakyReLU.t;
  do_norm : bool;
  do_activation : bool;
  norm : option norm_layer
}.

(** Defaults: [kernel_size=4, stride=2, padding=1, dilation=1, groups=1,
    bias=False, do_norm=True, norm='batch', do_activation=True]. *)
Definition __init__ (theta : params)
    (in_channels out_channels kernel_size stride padding dilation groups : Z)
    (bias do_norm : bool) (norm : string) (do_activation : bool) : result t :=
  (conv <- nn.Conv2d.__init__ (theta "conv") in_channels out_channels kernel_size
                              stride padding dilation groups bias ;;
   let leakyRelu := nn.LeakyReLU.__init__ (2 # 10) true in
   if do_norm then
     if String.eqb norm "batch" then
       Ok (Build conv leakyRelu do_norm do_activation
                 (Some (BatchNorm (nn.BatchNorm2d.__init__ (theta "norm") out_channels))))
     else if String.eqb norm "instance" then
       Ok (Build conv leakyRelu do_norm do_activation
                 (Some (InstanceNorm (nn.InstanceNorm2d.__init__ (theta "norm") out_channels))))
     else Raise (NotImplementedError "norm error")
   else Ok (Build conv leakyRelu do_norm do_activation None))%result.

Definition forward (self : t) (x : handle) : M handle :=
  (x <- (if do_activation self then nn.LeakyReLU.forward (leakyRelu self) x else ret x) ;;
   x <- nn.Conv2d.forward (conv self) x ;;
   x <- (if do_norm self then
           match norm self with
           | Some l => norm_forward l x
           | None => raise (AttributeError "norm")
           end
         else ret x) ;;
   ret x)%store.

End EncoderBlock.

(** ** [class DecoderBlock] *)

Module DecoderBlock.

Record t : Type := Build {
  convT : nn.ConvTranspose2d.t;
  relu : nn.ReLU.t;
  dropout_prob : Q;
  drop : nn.Dropout2d.t;
  do_norm : bool;
  do_activation : bool;
  norm : option norm_layer
}.

(** Defaults: [kernel_size=4, stride=2, padding=1, bias=False, do_norm=True,
    norm='batch', do_activation=True, dropout_prob=0.0]. *)
Definition __init__ (theta : params)
    (in_channels out_channels kernel_size stride padding : Z)
    (bias do_norm : bool) (norm : string) (do_activation : bool)
    (dropout_prob : Q) : result t :=
  (convT <- nn.ConvTranspose2d.__init__ (theta "convT") in_channels out_channels
                                        kernel_size stride padding bias ;;
   let relu := nn.ReLU.__init__ in
   drop <- nn.Dropout2d.__init__ (theta "drop") dropout_prob ;;
   if do_norm then
     if String.eqb norm "batch" then
       Ok (Build convT relu dropout_prob drop do_norm do_activation
                 (Some (BatchNorm (nn.BatchNorm2d.__init__ (theta "norm") out_channels))))
     else if String.eqb norm "instance" then
       Ok (Build convT relu dropout_prob drop do_norm do_activation
                 (Some (InstanceNorm (nn.InstanceNorm2d.__init__ (theta "norm") out_channels))))
     else Raise (NotImplementedError "norm error")
   else Ok (Build convT relu dropout_prob drop do_norm do_activation None))%result.

Definition forward (self : t) (x : handle) : M handle :=
  (x <- (if do_activation self then nn.ReLU.forward (relu self) x else ret x) ;;
   x <- nn.ConvTranspose2d.forward (convT self) x ;;
   x <- (if do_norm self then
           match norm self with
           | Some l => norm_forward l x
           | None => raise (AttributeError "norm")
           end
         else ret x) ;;
   x <- (if negb (Qeq_bool (dropout_prob self) 0)
         then nn.Dropout2d.forward (drop self) x else ret x) ;;
   ret x)%store.

End DecoderBlock.

(** ** [class Generator] *)

Module Generator.

Record t : Type := Build {
  encoder1 : EncoderBlock.t; encoder2 : EncoderBlock.t;
  encoder3 : EncoderBlock.t; encoder4 : EncoderBlock.t;
  encoder5 : EncoderBlock.t; encoder6 : EncoderBlock.t;
  encoder7 : EncoderBlock.t; encoder8 : EncoderBlock.t;
  decoder1 : DecoderBlock.t; decoder2 : DecoderBlock.t;
  decoder3 : DecoderBlock.t; decoder4 : DecoderBlock.t;
  decoder5 : DecoderBlock.t; decoder6 : DecoderBlock.t;
  decoder7 : DecoderBlock.t; decoder8 : DecoderBlock.t
}.

(** Defaults: [in_channels=3, out_channels=3, bias=False, dropout_prob=0.5,
    norm='batch']. *)
Definition __init__ (theta : params) (in_channels out_channels : Z) (bias : bool)
    (dropout_prob : Q) (norm : string) : result t :=
  ((* 8-step encoder *)
   encoder1 <- EncoderBlock.__init__ (sub theta "encoder1") in_channels 64 4 2 1 1 1 bias false "batch" false ;;
   encoder2 <- EncoderBlock.__init__ (sub theta "encoder2") 64 128 4 2 1 1 1 bias true norm true ;;
   encoder3 <- EncoderBlock.__init__ (sub theta "encoder3") 128 256 4 2 1 1 1 bias true norm true ;;
   encoder4 <- EncoderBlock.__init__ (sub theta "encoder4") 256 512 4 2 1 1 1 bias true norm true ;;
   encoder5 <- EncoderBlock.__init__ (sub theta "encoder5") 512 512 4 2 1 1 1 bias true norm true ;;
   encoder6 <- EncoderBlock.__init__ (sub theta "encoder6") 512 512 4 2 1 1 1 bias true norm true ;;
   encoder7 <- EncoderBlock.__init__ (sub theta "encoder7") 512 512 4 2 1 1 1 bias true norm true ;;
   encoder8 <- EncoderBlock.__init__ (sub theta "encoder8") 512 512 4 2 1 1 1 bias false "batch" true ;;
   (* 8-step UNet decoder *)
   decoder1 <- DecoderBlock.__init__ (sub theta "decoder1") 512 512 4 2 1 bias true norm true 0 ;;
   decoder2 <- DecoderBlock.__init__ (sub theta "decoder2") 1024 512 4 2 1 bias true norm true dropout_prob ;;
   decoder3 <- DecoderBlock.__init__ (sub theta "decoder3") 1024 512 4 2 1 bias true norm true dropout_prob ;;
   decoder4 <- DecoderBlock.__init__ (sub theta "decoder4") 1024 512 4 2 1 bias true norm true dropout_prob ;;
   decoder5 <- DecoderBlock.__init__ (sub theta "decoder5") 1024 256 4 2 1 bias true norm true 0 ;;
   decoder6 <- DecoderBlock.__init__ (sub theta "decoder6") 512 128 4 2 1 bias true norm true 0 ;;
   decoder7 <- DecoderBlock.__init__ (sub theta "decoder7") 256 64 4 2 1 bias true norm true 0 ;;
   decoder8 <- DecoderBlock.__init__ (sub theta "decoder8") 128 out_channels 4 2 1 bias false "batch" true 0 ;;
   Ok (Build encoder1 encoder2 encoder3 encoder4 encoder5 encoder6 encoder7 encoder8
             decoder1 decoder2 decoder3 decoder4 decoder5 decoder6 decoder7 decoder8))%result.

(** The local variables of [forward]. *)
Record locals : Type := Locals {
  encode1 : handle; encode2 : handle; encode3 : handle; encode4 : handle;
  encode5 : handle; encode6 : handle; encode7 : handle; encode8 : handle;
  decode1 : handle; decode2 : handle; decode3 : handle; decode4 : handle;
  decode5 : handle; decode6 : handle; decode7 : handle; decode8 : handle;
  final : handle
}.

Definition body (self : t) (x : handle) : M locals :=
  ((* 8-step encoder *)
   encode1 <- EncoderBlock.forward (encoder1 self) x ;;
   encode2 <- EncoderBlock.forward (encoder2 self) encode1 ;;
   encode3 <- EncoderBlock.forward (encoder3 self) encode2 ;;
   encode4 <- EncoderBlock.forward (encoder4 self) encode3 ;;
   encode5 <- EncoderBlock.forward (encoder5 self) encode4 ;;
   encode6 <- EncoderBlock.forward (encoder6 self) encode5 ;;
   encode7 <- EncoderBlock.forward (encoder7 self) encode6 ;;
   encode8 <- EncoderBlock.forward (encoder8 self) encode7 ;;
   (* 8-step UNet decoder *)
   d <- DecoderBlock.forward (decoder1 self) encode8 ;;
   decode1 <- torch.cat [d; encode7] 1 ;;
   d <- DecoderBlock.forward (decoder2 self) decode1 ;;
   decode2 <- torch.cat [d; encode6] 1 ;;
   d <- DecoderBlock.forward (decoder3 self) decode2 ;;
   decode3 <- torch.cat [d; encode5] 1 ;;
   d <- DecoderBlock.forward (decoder4 self) decode3 ;;
   decode4 <- torch.cat [d; encode4] 1 ;;
   d <- DecoderBlock.forward (decoder5 self) decode4 ;;
   decode5 <- torch.cat [d; encode3] 1 ;;
   d <- DecoderBlock.forward (decoder6 self) decode5 ;;
   decode6 <- torch.cat [d; encode2] 1 ;;
   d <- DecoderBlock.forward (decoder7 self) decode6 ;;
   decode7 <- torch.cat [d; encode1] 1 ;;
   decode8 <- DecoderBlock.forward (decoder8 self) decode7 ;;
   final <- nn.Tanh.forward decode8 ;;
   ret (Locals encode1 encode2 encode3 encode4 encode5 encode6 encode7 encode8
               decode1 decode2 decode3 decode4 decode5 decode6 decode7 decode8
               final))%store.

Definition forward (self : t) (x : handle) : M handle :=
  (l <- body self x ;; ret (final l))%store.

End Generator.

(** ** [class Discriminator] *)

Module Discriminator.

Record t : Type := Build {
  disc1 : EncoderBlock.t; disc2 : EncoderBlock.t; disc3 : EncoderBlock.t;
  disc4 : EncoderBlock.t; disc5 : EncoderBlock.t
}.

(** Defaults: [in_channels=3, out_channels=1, bias=False, norm='batch']. *)
Definition __init__ (theta : params) (in_channels out_channels : Z) (bias : bool)
    (norm : string) : result t :=
  ((* 70x70 discriminator *)
   disc1 <- EncoderBlock.__init__ (sub theta "disc1") (in_channels * 2) 64 4 2 1 1 1 bias false "batch" false ;;
   disc2 <- EncoderBlock.__init__ (sub theta "disc2") 64 128 4 2 1 1 1 bias true norm true ;;
   disc3 <- EncoderBlock.__init__ (sub theta "disc3") 128 256 4 2 1 1 1 bias true norm true ;;
   disc4 <- EncoderBlock.__init__ (sub theta "disc4") 256 512 4 1 1 1 1 bias true norm true ;;
   disc5 <- EncoderBlock.__init__ (sub theta "disc5") 512 out_channels 4 1 1 1 1 bias false "batch" true ;;
   Ok (Build disc1 disc2 disc3 disc4 disc5))%result.

Definition forward (self : t) (x ref : handle) : M handle :=
  (c <- torch.cat [x; ref] 1 ;;
   d1 <- EncoderBlock.forward (disc1 self) c ;;
   d2 <- EncoderBlock.forward (disc2 self) d1 ;;
   d3 <- EncoderBlock.forward (disc3 self) d2 ;;
   d4 <- EncoderBlock.forward (disc4 self) d3 ;;
   d5 <- EncoderBlock.forward (disc5 self) d4 ;;
   final <- nn.Sigmoid.forward d5 ;;
   ret final)%store.

End Discriminator.

(** ** [class Discriminator286] *)

Module Discriminator286.

Record t : Type := Build {
  disc1 : EncoderBlock.t; disc2 : EncoderBlock.t; disc3 : EncoderBlock.t;
  disc4 : EncoderBlock.t; disc5 : EncoderBlock.t; disc6 : EncoderBlock.t;
  disc7 : EncoderBlock.t
}.

(** Defaults: [in_channels=3, out_channels=1, bias=False, norm='batch']. *)
Definition __init__ (theta : params) (in_channels out_channels : Z) (bias : bool)
    (norm : string) : result t :=
  ((* 286x286 discriminator *)
   disc1 <- EncoderBlock.__init__ (sub theta "disc1") (in_channels * 2) 64 4 2 1 1 1 bias false "batch" false ;;
   disc2 <- EncoderBlock.__init__ (sub theta "disc2") 64 128 4 2 1 1 1 bias true norm true ;;
   disc3 <- EncoderBlock.__init__ (sub theta "disc3") 128 256 4 2 1 1 1 bias true norm true ;;
   disc4 <- EncoderBlock.__init__ (sub theta "disc4") 256 512 4 2 1 1 1 bias true norm true ;;
   disc5 <- EncoderBlock.__init__ (sub theta "disc5") 512 512 4 2 1 1 1 bias true norm true ;;
   disc6 <- EncoderBlock.__init__ (sub theta "disc6") 512 512 4 1 1 1 1 bias true norm true ;;
   disc7 <- EncoderBlock.__init__ (sub theta "disc7") 512 out_channels 4 1 1 1 1 bias false "batch" true ;;
   Ok (Build disc1 disc2 disc3 disc4 disc5 disc6 disc7))%result.

Definition forward (self : t) (x ref : handle) : M handle :=
  (c <- torch.cat [x; ref] 1 ;;
   d1 <- EncoderBlock.forward (disc1 self) c ;;
   d2 <- EncoderBlock.forward (disc2 self) d1 ;;
   d3 <- EncoderBlock.forward (disc3 self) d2 ;;
   d4 <- EncoderBlock.forward (disc4 self) d3 ;;
   d5 <- EncoderBlock.forward (disc5 self) d4 ;;
   d6 <- EncoderBlock.forward (disc6 self) d5 ;;
   d7 <- EncoderBlock.forward (disc7 self) d6 ;;
   final <- nn.Sigmoid.forward d7 ;;
   ret final)%store.

End Discriminator286.

(** ** Calling a module on tensors

    A call creates the argument objects, runs [forward] and reads the object
    the returned reference points to. *)

Definition fetch (m : M handle) (st : store) : result tensor :=
  match m st with
  | Ok (r, st') =>
      match st' !! r with
      | Some y => Ok y
      | None => Raise (RuntimeError "no such tensor")
      end
  | Raise e => Raise e
  end.

Definition call1 (forward : handle -> M handle) (x : tensor) : result tensor :=
  fetch (forward 0%nat) [x].

Definition call2 (forward : handle -> handle -> M handle) (x y : tensor) : result tensor :=
  fetch (forward 0%nat 1%nat) [x; y].

(** [m] started in [st] returns [a] and leaves the store [st']. *)
Definition runs {A} (m : M A) (st : store) (a : A) (st' : store) : Prop :=
  m st = Ok (a, st').

(** [m] started in [st] returns, leaving a result and a store that satisfy
    [Q]. *)
Definition after {A} (m : M A) (st : store) (Q : A -> store -> Prop) : Prop :=
  exists a st', runs m st a st' /\ Q a st'.

(** ** The pipelines as the specification words them

    Section 4.1: leaky rectification with negative slope 0.2 when activation
    is enabled, then the convolution, then the configured normalisation when
    normalisation is enabled. *)
Definition encoder_pipeline (activation : bool) (conv : nn.Conv2d.t)
    (normalization : option norm_layer) (x : tensor) : result tensor :=
  (let x1 := if activation then pointwise (nn.LeakyReLU.f (2 # 10)) x else x in
   x2 <- nn.Conv2d.apply conv x1 ;;
   match normalization with
   | Some l => norm_apply l x2
   | None => Ok x2
   end)%result.

(** Section 4.2: plain rectification when activation is enabled, then the
    transposed convolution, then normalisation when enabled, then dropout
    when its probability is nonzero. *)
Definition decoder_pipeline (activation : bool) (convT : nn.ConvTranspose2d.t)
    (normalization : option norm_layer) (dropout : option nn.Dropout2d.t)
    (x : tensor) : result tensor :=
  (let x1 := if activation then pointwise (Rmax 0) x else x in
   x2 <- nn.ConvTranspose2d.apply convT x1 ;;
   x3 <- match normalization with
         | Some l => norm_apply l x2
         | None => Ok x2
         end ;;
   Ok match dropout with
      | Some d => nn.Dropout2d.apply d x3
      | None => x3
      end)%result.

(** A block read as a function on tensors. *)
Definition block_pipeline (b : EncoderBlock.t) : tensor -> result tensor :=
  encoder_pipeline (EncoderBlock.do_activation b) (EncoderBlock.conv b)
    (if EncoderBlock.do_norm b then EncoderBlock.norm b else None).

Definition chain (blocks : list EncoderBlock.t) (x : tensor) : result tensor :=
  fold_left (fun acc b => (a <- acc ;; block_pipeline b a)%result) blocks (Ok x).

(** Sections 4.4 and 4.5: the two images are concatenated along the channel
    axis, candidate first, the blocks are applied in order and the result
    goes through a sigmoid. *)
Definition discriminator_pipeline (blocks : list EncoderBlock.t)
    (candidate reference : tensor) : result tensor :=
  (c <- torch.cat2 candidate reference ;;
   d <- chain blocks c ;;
   Ok (nn.Sigmoid.apply d))%result.

(** ** What a block leaves in the store

    The tensor objects an [EncoderBlock] call creates, given the shape [s]
    its convolution produces: the convolution result and, with
    normalisation, the normalised result.  With activation the argument
    object is overwritten first. *)

Definition enc_in (b : EncoderBlock.t) (x : tensor) : tensor :=
  if EncoderBlock.do_activation b
  then nn.LeakyReLU.apply (EncoderBlock.leakyRelu b) x else x.

Definition enc_conv (b : EncoderBlock.t) (x : tensor) (s : shape4) : tensor :=
  Tensor s (nn.Conv2d.compute (EncoderBlock.conv b) (enc_in b x)).

Definition enc_result (b : EncoderBlock.t) (x : tensor) (s : shape4) : tensor :=
  if EncoderBlock.do_norm b then
    match EncoderBlock.norm b with
    | Some l => Tensor s (norm_compute l (enc_conv b x s))
    | None => enc_conv b x s
    end
  else enc_conv b x s.

Definition enc_norm_ok (b : EncoderBlock.t) (s : shape4) : Prop :=
  if EncoderBlock.do_norm b then
    match EncoderBlock.norm b with
    | Some l => norm_shape l s = Ok s
    | None => False
    end
  else True.

Definition enc_handle (b : EncoderBlock.t) (st : store) : handle :=
  if EncoderBlock.do_norm b then S (length st) else length st.

Definition enc_store (b : EncoderBlock.t) (r : handle) (x : tensor) (s : shape4)
    (st : store) : store :=
  (if EncoderBlock.do_activation b then <[r := enc_in b x]> st else st)
    ++ (if EncoderBlock.do_norm b then [enc_conv b x s] else [])
    ++ [enc_result b x s].

(** The same for a [DecoderBlock] call; its rectification is not in place. *)

Definition dec_in (b : DecoderBlock.t) (x : tensor) : tensor :=
  if DecoderBlock.do_activation b
  then nn.ReLU.apply (DecoderBlock.relu b) x else x.

Definition dec_conv (b : DecoderBlock.t) (x : tensor) (s : shape4) : tensor :=
  Tensor s (nn.ConvTranspose2d.compute (DecoderBlock.convT b) (dec_in b x)).

Definition dec_normed (b : DecoderBlock.t) (x : tensor) (s : shape4) : tensor :=
  if DecoderBlock.do_norm b then
    match DecoderBlock.norm b with
    | Some l => Tensor s (norm_compute l (dec_conv b x s))
    | None => dec_conv b x s
    end
  else dec_conv b x s.

Definition dec_drops (b : DecoderBlock.t) : bool :=
  negb (Qeq_bool (DecoderBlock.dropout_prob b) 0).

Definition dec_result (b : DecoderBlock.t) (x : tensor) (s : shape4) : tensor :=
  if dec_drops b then nn.Dropout2d.apply (DecoderBlock.drop b) (dec_normed b x s)
  else dec_normed b x s.

Definition dec_norm_ok (b : DecoderBlock.t) (s : shape4) : Prop :=
  if DecoderBlock.do_norm b then
    match DecoderBlock.norm b with
    | Some l => norm_shape l s = Ok s
    | None => False
    end
  else True.

Definition dec_news (b : DecoderBlock.t) (x : tensor) (s : shape4) : list tensor :=
  (if DecoderBlock.do_activation b then [dec_in b x] else [])
    ++ (if DecoderBlock.do_norm b || dec_drops b then [dec_conv b x s] else [])
    ++ (if DecoderBlock.do_norm b && dec_drops b then [dec_normed b x s] else [])
    ++ [dec_result b x s].

Definition dec_handle (b : DecoderBlock.t) (x : tensor) (s : shape4) (st : store) : handle :=
  Nat.pred (length st + length (dec_news b x s)).

Definition dec_store (b : DecoderBlock.t) (x : tensor) (s : shape4) (st : store) : store :=
  st ++ dec_news b x s.

(** ** Readings of the constructors *)

Definition recognized (norm : string) : bool :=
  String.eqb norm "batch" || String.eqb norm "instance".

(** The normalisation layer a constructor builds for a recognised mode. *)
Definition make_norm (w : arith) (norm : string) (num_features : Z) : norm_layer :=
  if String.eqb norm "batch"
  then BatchNorm (nn.BatchNorm2d.__init__ w num_features)
  else InstanceNorm (nn.InstanceNorm2d.__init__ w num_features).

(** What the library's convolution constructor insists on. *)
Definition conv_accepts (in_channels out_channels kernel_size groups : Z) : bool :=
  (0 <? groups) && (in_channels mod groups =? 0) && (out_channels mod groups =? 0)
  && (0 <? in_channels) && (0 <? out_channels) && (0 <? kernel_size).

(** What the library's dropout constructor insists on. *)
Definition dropout_accepts (p : Q) : bool := Qle_bool 0 p && Qle_bool p 1.

(** The objects the constructors return when nothing is raised. *)

Definition built_encoder (theta : params)
    (in_channels out_channels kernel_size stride padding dilation groups : Z)
    (bias do_norm : bool) (norm : string) (do_activation : bool) : EncoderBlock.t :=
  EncoderBlock.Build
    (nn.Conv2d.Build in_channels out_channels kernel_size stride padding dilation
                     groups bias (theta "conv"))
    (nn.LeakyReLU.Build (2 # 10) true) do_norm do_activation
    (if do_norm then Some (make_norm (theta "norm") norm out_channels) else None).

Definition built_decoder (theta : params)
    (in_channels out_channels kernel_size stride padding : Z)
    (bias do_norm : bool) (norm : string) (do_activation : bool)
    (dropout_prob : Q) : DecoderBlock.t :=
  DecoderBlock.Build
    (nn.ConvTranspose2d.Build in_channels out_channels kernel_size stride padding
                              bias (theta "convT"))
    (nn.ReLU.Build false) dropout_prob (nn.Dropout2d.Build dropout_prob (theta "drop"))
    do_norm do_activation
    (if do_norm then Some (make_norm (theta "norm") norm out_channels) else None).

Definition built_discriminator (theta : params) (in_channels out_channels : Z)
    (bias : bool) (norm : string) : Discriminator.t :=
  Discriminator.Build
    (built_encoder (sub theta "disc1") (in_channels * 2) 64 4 2 1 1 1 bias false "batch" false)
    (built_encoder (sub theta "disc2") 64 128 4 2 1 1 1 bias true norm true)
    (built_encoder (sub theta "disc3") 128 256 4 2 1 1 1 bias true norm true)
    (built_encoder (sub theta "disc4") 256 512 4 1 1 1 1 bias true norm true)
    (built_encoder (sub theta "disc5") 512 out_channels 4 1 1 1 1 bias false "batch" true).

Definition built_discriminator286 (theta : params) (in_channels out_channels : Z)
    (bias : bool) (norm : string) : Discriminator286.t :=
  Discriminator286.Build
    (built_encoder (sub theta "disc1") (in_channels * 2) 64 4 2 1 1 1 bias false "batch" false)
    (built_encoder (sub theta "disc2") 64 128 4 2 1 1 1 bias true norm true)
    (built_encoder (sub theta "disc3") 128 256 4 2 1 1 1 bias true norm true)
    (built_encoder (sub theta "disc4") 256 512 4 2 1 1 1 bias true norm true)
    (built_encoder (sub theta "disc5") 512 512 4 2 1 1 1 bias true norm true)
    (built_encoder (sub theta "disc6") 512 512 4 1 1 1 1 bias true norm true)
    (built_encoder (sub theta "disc7") 512 out_channels 4 1 1 1 1 bias false "batch" true).

Definition built_generator (theta : params) (in_channels out_channels : Z)
    (bias : bool) (dropout_prob : Q) (norm : string) : Generator.t :=
  Generator.Build
    (built_encoder (sub theta "encoder1") in_channels 64 4 2 1 1 1 bias false "batch" false)
    (built_encoder (sub theta "encoder2") 64 128 4 2 1 1 1 bias true norm true)
    (built_encoder (sub theta "encoder3") 128 256 4 2 1 1 1 bias true norm true)
    (built_encoder (sub theta "encoder4") 256 512 4 2 1 1 1 bias true norm true)
    (built_encoder (sub theta "encoder5") 512 512 4 2 1 1 1 bias true norm true)
    (built_encoder (sub theta "encoder6") 512 512 4 2 1 1 1 bias true norm true)
    (built_encoder (sub theta "encoder7") 512 512 4 2 1 1 1 bias true norm true)
    (built_encoder (sub theta "encoder8") 512 512 4 2 1 1 1 bias false "batch" true)
    (built_decoder (sub theta "decoder1") 512 512 4 2 1 bias true norm true 0)
    (built_decoder (sub theta "decoder2") 1024 512 4 2 1 bias true norm true dropout_prob)
    (built_decoder (sub theta "decoder3") 1024 512 4 2 1 bias true norm true dropout_prob)
    (built_decoder (sub theta "decoder4") 1024 512 4 2 1 bias true norm true dropout_prob)
    (built_decoder (sub theta "decoder5") 1024 256 4 2 1 bias true norm true 0)
    (built_decoder (sub theta "decoder6") 512 128 4 2 1 bias true norm true 0)
    (built_decoder (sub theta "decoder7") 256 64 4 2 1 bias true norm true 0)
    (built_decoder (sub theta "decoder8") 128 out_channels 4 2 1 bias false "batch" true 0).

(** What the block constructors establish about the layers they create. *)
Definition enc_wf (b : EncoderBlock.t) : Prop :=
  nn.LeakyReLU.inplace (EncoderBlock.leakyRelu b) = true
  /\ nn.LeakyReLU.negative_slope (EncoderBlock.leakyRelu b) = 2 # 10
  /\ (EncoderBlock.do_norm b = true -> EncoderBlock.norm b <> None).

Definition dec_wf (b : DecoderBlock.t) : Prop :=
  nn.ReLU.inplace (DecoderBlock.relu b) = false
  /\ (DecoderBlock.do_norm b = true -> DecoderBlock.norm b <> None).

(** A decoder block read as a function on tensors. *)
Definition dec_pipeline (b : DecoderBlock.t) : tensor -> result tensor :=
  decoder_pipeline (DecoderBlock.do_activation b) (DecoderBlock.convT b)
    (if DecoderBlock.do_norm b then DecoderBlock.norm b else None)
    (if dec_drops b then Some (DecoderBlock.drop b) else None).

(** The normalisation layers (in training mode) refuse an input with a
    single value to take statistics over: per channel for batch statistics,
    per channel and sample for instance statistics. *)
Definition norm_fed (norm : string) (n h w : Z) : Prop :=
  if String.eqb norm "batch" then n * h * w <> 1 else h * w <> 1.

(** ** Observing a composite model *)

Definition Discriminator_blocks (self : Discriminator.t) : list EncoderBlock.t :=
  [Discriminator.disc1 self; Discriminator.disc2 self; Discriminator.disc3 self;
   Discriminator.disc4 self; Discriminator.disc5 self].

Definition Discriminator286_blocks (self : Discriminator286.t) : list EncoderBlock.t :=
  [Discriminator286.disc1 self; Discriminator286.disc2 self;
   Discriminator286.disc3 self; Discriminator286.disc4 self;
   Discriminator286.disc5 self; Discriminator286.disc6 self;
   Discriminator286.disc7 self].

(** Input and output channel counts of a block's convolution. *)
Definition channels (b : EncoderBlock.t) : Z * Z :=
  (nn.Conv2d.in_channels (EncoderBlock.conv b),
   nn.Conv2d.out_channels (EncoderBlock.conv b)).

Definition block_stride (b : EncoderBlock.t) : Z :=
  nn.Conv2d.stride (EncoderBlock.conv b).

(** Side length of the input patch one output unit of a stack of
    convolutions sees (the "70x70" and "286x286" of the source comments). *)
Definition receptive_field (blocks : list EncoderBlock.t) : Z :=
  fold_right
    (fun b rf =>
       let c := EncoderBlock.conv b in
       (rf - 1) * nn.Conv2d.stride c
       + nn.Conv2d.dilation c * (nn.Conv2d.kernel_size c - 1) + 1)
    1 blocks.

(** ** Observing the generator's skip connections *)

(** What the in-place [LeakyReLU(0.2, True)] of the next encoder leaves in
    an encoder's output object. *)
Definition rectified (x : tensor) : tensor := pointwise (nn.LeakyReLU.f (2 # 10)) x.

(** The tensors a stack of encoder blocks returns, one after the other. *)
Fixpoint encoder_outputs (blocks : list EncoderBlock.t) (x : tensor)
    : result (list tensor) :=
  match blocks with
  | [] => Ok []
  | b :: rest =>
      (y <- block_pipeline b x ;;
       ys <- encoder_outputs rest y ;;
       Ok (y :: ys))%result
  end.

(** In store [st], the object [joined] is the channel concatenation of what
    decoder block [dec] makes of the object [input] (first) and the object
    [skip] (second): its leading channels are the decoder output and the
    remaining channels are the skip tensor. *)
Definition skip_joined (st : store) (dec : DecoderBlock.t)
    (input joined skip : handle) : Prop :=
  exists v d e j,
    st !! input = Some v
    /\ dec_pipeline dec v = Ok d
    /\ st !! skip = Some e
    /\ st !! joined = Some j
    /\ torch.cat2 d e = Ok j
    /\ dimC (size j) = dimC (size d) + dimC (size e)
    /\ tensor_eq (narrow_channels j 0 (dimC (size d))) d
    /\ tensor_eq (narrow_channels j (dimC (size d)) (dimC (size e))) e.

(** ** Fixtures for concrete runs *)

Definition zero_params : params := fun _ _ _ _ _ _ => 0%R.

Definition zeros (s : shape4) : tensor := Tensor s (fun _ _ _ _ => 0%R).

(** ** Observing the generator's blocks *)

Definition Generator_encoders (self : Generator.t) : list EncoderBlock.t :=
  [Generator.encoder1 self; Generator.encoder2 self; Generator.encoder3 self;
   Generator.encoder4 self; Generator.encoder5 self; Generator.encoder6 self;
   Generator.encoder7 self; Generator.encoder8 self].

Definition Generator_decoders (self : Generator.t) : list DecoderBlock.t :=
  [Generator.decoder1 self; Generator.decoder2 self; Generator.decoder3 self;
   Generator.decoder4 self; Generator.decoder5 self; Generator.decoder6 self;
   Generator.decoder7 self; Generator.decoder8 self].

(** Input and output channel counts of a decoder block's convolution. *)
Definition dec_channels (b : DecoderBlock.t) : Z * Z :=
  (nn.ConvTranspose2d.in_channels (DecoderBlock.convT b),
   nn.ConvTranspose2d.out_channels (DecoderBlock.convT b)).

(** Kernel size, stride and padding of a block's convolution. *)
Definition enc_geometry (b : EncoderBlock.t) : Z * Z * Z :=
  (nn.Conv2d.kernel_size (EncoderBlock.conv b), nn.Conv2d.stride (EncoderBlock.conv b),
   nn.Conv2d.padding (EncoderBlock.conv b)).

Definition dec_geometry (b : DecoderBlock.t) : Z * Z * Z :=
  (nn.ConvTranspose2d.kernel_size (DecoderBlock.convT b),
   nn.ConvTranspose2d.stride (DecoderBlock.convT b),
   nn.ConvTranspose2d.padding (DecoderBlock.convT b)).

(** ** Comparing the store before and after a call *)


(** ** Exceptions of the normalisation layers *)

(** The exception a normalisation layer raises when it is given a single
    value to take statistics over. *)
Definition starved (norm : string) : exn :=
  if String.eqb norm "batch"
  then ValueError "Expected more than 1 value per channel when training"
  else ValueError "Expected more than 1 spatial element when training".

(** * Properties *)

(** ** Running store computations *)

Lemma runs_ret {A} (a : A) st : runs (ret a) st a st.
Proof. reflexivity. Qed.

Lemma runs_bind {A B} (m : M A) (k : A -> M B) st a st1 b st2 :
  runs m st a st1 -> runs (k a) st1 b st2 -> runs (bind m k) st b st2.
Proof. unfold runs, bind. intros -> Hk. exact Hk. Qed.

Lemma runs_get st r x : st !! r = Some x -> runs (get r) st x st.
Proof. unfold runs, get. intros ->. reflexivity. Qed.

Lemma runs_new st x : runs (new x) st (length st) (st ++ [x]).
Proof. reflexivity. Qed.

Lemma runs_put st r x : runs (put r x) st tt (<[r := x]> st).
Proof. reflexivity. Qed.

Lemma runs_lift {A} (r : result A) a st : r = Ok a -> runs (lift r) st a st.
Proof. intros ->. reflexivity. Qed.

Lemma runs_inv_bind {A B} (m : M A) (k : A -> M B) st b st2 :
  runs (bind m k) st b st2 ->
  exists a st1, runs m st a st1 /\ runs (k a) st1 b st2.
Proof.
  unfold runs, bind. destruct (m st) as [[a st1]|e]; [|discriminate].
  intros Hk. exists a, st1. split; [reflexivity | exact Hk].
Qed.

Lemma runs_functional {A} (m : M A) st a st1 a' st2 :
  runs m st a st1 -> runs m st a' st2 -> a = a' /\ st1 = st2.
Proof. unfold runs. intros H1 H2. rewrite H1 in H2. injection H2. auto. Qed.

Lemma bind_runs {A B} (m : M A) (k : A -> M B) st a st1 :
  runs m st a st1 -> bind m k st = k a st1.
Proof. unfold runs, bind. intros ->. reflexivity. Qed.

(** A new object is stored behind the reference [new] returns. *)
Lemma lookup_new (st : store) (x : tensor) : (st ++ [x]) !! length st = Some x.
Proof. rewrite lookup_app_r by lia. rewrite Nat.sub_diag. reflexivity. Qed.

Lemma after_ret {A} (a : A) st (Q : A -> store -> Prop) : Q a st -> after (ret a) st Q.
Proof. intros H. exists a, st. split; [reflexivity | exact H]. Qed.

Lemma after_bind {A B} (m : M A) (k : A -> M B) st (Q : B -> store -> Prop) :
  after m st (fun a st1 => after (k a) st1 Q) -> after (bind m k) st Q.
Proof.
  intros (a & st1 & Hm & b & st2 & Hk & HQ). exists b, st2.
  split; [eapply runs_bind; eassumption | exact HQ].
Qed.

Lemma fetch_ret_new (st : store) y : fetch (ret (length st)) (st ++ [y]) = Ok y.
Proof. unfold fetch, ret. rewrite lookup_new. reflexivity. Qed.

Lemma fetch_bind_runs {A} (m : M A) (k : A -> M handle) st a st1 :
  runs m st a st1 -> fetch (bind m k) st = fetch (k a) st1.
Proof. intros H. unfold fetch. rewrite (bind_runs _ _ _ _ _ H). reflexivity. Qed.

Lemma fetch_bind_raise {A} (m : M A) (k : A -> M handle) st e :
  m st = Raise e -> fetch (bind m k) st = Raise e.
Proof. intros H. unfold fetch, bind. rewrite H. reflexivity. Qed.

(** ** Layers *)

Lemma runs_Conv2d self st r x s :
  st !! r = Some x ->
  nn.Conv2d.out_shape self (size x) = Ok s ->
  runs (nn.Conv2d.forward self r) st (length st)
       (st ++ [Tensor s (nn.Conv2d.compute self x)]).
Proof.
  intros Hx Hs. unfold nn.Conv2d.forward.
  eapply runs_bind; [apply runs_get; exact Hx|].
  eapply runs_bind; [apply runs_lift; unfold nn.Conv2d.apply; rewrite Hs; reflexivity|].
  apply runs_new.
Qed.

Lemma runs_ConvTranspose2d self st r x s :
  st !! r = Some x ->
  nn.ConvTranspose2d.out_shape self (size x) = Ok s ->
  runs (nn.ConvTranspose2d.forward self r) st (length st)
       (st ++ [Tensor s (nn.ConvTranspose2d.compute self x)]).
Proof.
  intros Hx Hs. unfold nn.ConvTranspose2d.forward.
  eapply runs_bind; [apply runs_get; exact Hx|].
  eapply runs_bind;
    [apply runs_lift; unfold nn.ConvTranspose2d.apply; rewrite Hs; reflexivity|].
  apply runs_new.
Qed.

Lemma runs_norm l st r x s :
  st !! r = Some x ->
  size x = s ->
  norm_shape l s = Ok s ->
  runs (norm_forward l r) st (length st) (st ++ [Tensor s (norm_compute l x)]).
Proof.
  intros Hx <- Hs.
  destruct l as [b|i]; cbn in *.
  - unfold nn.BatchNorm2d.forward.
    eapply runs_bind; [apply runs_get; exact Hx|].
    eapply runs_bind;
      [apply runs_lift; unfold nn.BatchNorm2d.apply; rewrite Hs; reflexivity|].
    apply runs_new.
  - unfold nn.InstanceNorm2d.forward.
    eapply runs_bind; [apply runs_get; exact Hx|].
    eapply runs_bind;
      [apply runs_lift; unfold nn.InstanceNorm2d.apply; rewrite Hs; reflexivity|].
    apply runs_new.
Qed.

Lemma runs_Dropout2d self st r x :
  st !! r = Some x ->
  runs (nn.Dropout2d.forward self r) st (length st) (st ++ [nn.Dropout2d.apply self x]).
Proof.
  intros Hx. unfold nn.Dropout2d.forward.
  eapply runs_bind; [apply runs_get; exact Hx|]. apply runs_new.
Qed.

Lemma runs_LeakyReLU_inplace self st r x :
  st !! r = Some x ->
  nn.LeakyReLU.inplace self = true ->
  runs (nn.LeakyReLU.forward self r) st r (<[r := nn.LeakyReLU.apply self x]> st).
Proof.
  intros Hx Hi. unfold nn.LeakyReLU.forward.
  eapply runs_bind; [apply runs_get; exact Hx|]. rewrite Hi.
  eapply runs_bind; [apply runs_put|]. apply runs_ret.
Qed.

Lemma runs_ReLU_fresh self st r x :
  st !! r = Some x ->
  nn.ReLU.inplace self = false ->
  runs (nn.ReLU.forward self r) st (length st) (st ++ [nn.ReLU.apply self x]).
Proof.
  intros Hx Hi. unfold nn.ReLU.forward.
  eapply runs_bind; [apply runs_get; exact Hx|]. rewrite Hi. apply runs_new.
Qed.

Lemma runs_Tanh st r x :
  st !! r = Some x ->
  runs (nn.Tanh.forward r) st (length st) (st ++ [nn.Tanh.apply x]).
Proof.
  intros Hx. unfold nn.Tanh.forward.
  eapply runs_bind; [apply runs_get; exact Hx|]. apply runs_new.
Qed.

Lemma runs_Sigmoid st r x :
  st !! r = Some x ->
  runs (nn.Sigmoid.forward r) st (length st) (st ++ [nn.Sigmoid.apply x]).
Proof.
  intros Hx. unfold nn.Sigmoid.forward.
  eapply runs_bind; [apply runs_get; exact Hx|]. apply runs_new.
Qed.

Lemma runs_cat st a b x y s :
  st !! a = Some x ->
  st !! b = Some y ->
  torch.cat_shape (size x) (size y) = Ok s ->
  runs (torch.cat [a; b] 1) st (length st) (st ++ [Tensor s (torch.cat_data x y)]).
Proof.
  intros Hx Hy Hs. unfold torch.cat. cbn [Z.eqb Pos.eqb negb].
  eapply runs_bind.
  { cbn [torch.get_all].
    eapply runs_bind; [apply runs_get; exact Hx|].
    eapply runs_bind;
      [eapply runs_bind; [apply runs_get; exact Hy|];
       eapply runs_bind; [apply runs_ret|]; apply runs_ret|].
    apply runs_ret. }
  eapply runs_bind.
  { apply runs_lift. cbn [torch.cat_channels result_bind].
    unfold torch.cat2. rewrite Hs. reflexivity. }
  apply runs_new.
Qed.

Lemma after_cat st a b x y s (Q : handle -> store -> Prop) :
  st !! a = Some x ->
  st !! b = Some y ->
  torch.cat_shape (size x) (size y) = Ok s ->
  Q (length st) (st ++ [Tensor s (torch.cat_data x y)]) ->
  after (torch.cat [a; b] 1) st Q.
Proof.
  intros Hx Hy Hs HQ. eexists. eexists.
  split; [apply runs_cat; eassumption | exact HQ].
Qed.

Lemma after_Tanh st r x (Q : handle -> store -> Prop) :
  st !! r = Some x ->
  Q (length st) (st ++ [nn.Tanh.apply x]) ->
  after (nn.Tanh.forward r) st Q.
Proof.
  intros Hx HQ. eexists. eexists.
  split; [apply runs_Tanh; eassumption | exact HQ].
Qed.

Lemma fresh_layer_run (f : tensor -> result tensor) (st : store) r x :
  st !! r = Some x ->
  bind (get r) (fun v => bind (lift (f v)) (fun y => new y)) st
  = match f x with
    | Ok y => Ok (length st, st ++ [y])
    | Raise e => Raise e
    end.
Proof.
  intros Hx. rewrite (bind_runs _ _ _ _ _ (runs_get _ _ _ Hx)).
  unfold bind, lift, new. destruct (f x); reflexivity.
Qed.

Lemma norm_forward_run l (st : store) r x :
  st !! r = Some x ->
  norm_forward l r st
  = match norm_apply l x with
    | Ok y => Ok (length st, st ++ [y])
    | Raise e => Raise e
    end.
Proof.
  intros Hx. destruct l; cbn [norm_forward norm_apply];
    [unfold nn.BatchNorm2d.forward | unfold nn.InstanceNorm2d.forward];
    apply fresh_layer_run; exact Hx.
Qed.

Lemma cat_total (st : store) a b x y :
  st !! a = Some x ->
  st !! b = Some y ->
  torch.cat [a; b] 1 st
  = match torch.cat2 x y with
    | Ok c => Ok (length st, st ++ [c])
    | Raise e => Raise e
    end.
Proof.
  intros Hx Hy. unfold torch.cat. cbn [Z.eqb Pos.eqb negb torch.get_all].
  unfold bind at 1.
  rewrite (bind_runs _ _ _ _ _ (runs_get _ _ _ Hx)).
  unfold bind at 1.
  rewrite (bind_runs _ _ _ _ _ (runs_get _ _ _ Hy)).
  unfold bind, ret, lift, new.
  cbn [torch.cat_channels result_bind].
  destruct (torch.cat2 x y); reflexivity.
Qed.

Lemma cat_runs_inv (st : store) a b x y r' st' :
  st !! a = Some x ->
  st !! b = Some y ->
  runs (torch.cat [a; b] 1) st r' st' ->
  exists c, torch.cat2 x y = Ok c /\ r' = length st /\ st' = st ++ [c].
Proof.
  intros Hx Hy Hrun. unfold runs in Hrun.
  rewrite (cat_total st a b x y Hx Hy) in Hrun.
  destruct (torch.cat2 x y) as [c|e]; [|discriminate].
  injection Hrun as <- <-. exists c. auto.
Qed.

Lemma Tanh_runs_inv (st : store) r x r' st' :
  st !! r = Some x ->
  runs (nn.Tanh.forward r) st r' st' ->
  r' = length st /\ st' = st ++ [nn.Tanh.apply x].
Proof.
  intros Hx Hrun. apply (runs_functional _ _ _ _ _ _ Hrun).
  apply runs_Tanh. exact Hx.
Qed.

Lemma fetch_Sigmoid (st : store) r x :
  st !! r = Some x ->
  fetch (bind (nn.Sigmoid.forward r) (fun final => ret final)) st
  = Ok (nn.Sigmoid.apply x).
Proof.
  intros Hx. rewrite (fetch_bind_runs _ _ _ _ _ (runs_Sigmoid _ _ _ Hx)).
  apply fetch_ret_new.
Qed.

Lemma fetch_bind_cat (k : handle -> M handle) (st : store) a b x y :
  st !! a = Some x ->
  st !! b = Some y ->
  match torch.cat2 x y with
  | Ok c => fetch (bind (torch.cat [a; b] 1) k) st = fetch (k (length st)) (st ++ [c])
  | Raise e => fetch (bind (torch.cat [a; b] 1) k) st = Raise e
  end.
Proof.
  intros Hx Hy. pose proof (cat_total st a b x y Hx Hy) as H.
  destruct (torch.cat2 x y) as [c|e].
  - apply fetch_bind_runs. exact H.
  - apply fetch_bind_raise. exact H.
Qed.

Lemma norm_shape_same l s s' : norm_shape l s = Ok s' -> s' = s.
Proof.
  destruct l as [b|i]; cbn [norm_shape];
    unfold nn.BatchNorm2d.out_shape, nn.InstanceNorm2d.out_shape;
    repeat match goal with |- context [if ?c then _ else _] => destruct c end;
    intros H; inversion H; reflexivity.
Qed.

Lemma norm_apply_inv l x y :
  norm_apply l x = Ok y ->
  norm_shape l (size x) = Ok (size x) /\ y = Tensor (size x) (norm_compute l x).
Proof.
  destruct l as [b|i]; cbn [norm_apply norm_shape norm_compute];
    unfold nn.BatchNorm2d.apply, nn.InstanceNorm2d.apply;
    [destruct (nn.BatchNorm2d.out_shape b (size x)) as [s|e] eqn:Hs
    |destruct (nn.InstanceNorm2d.out_shape i (size x)) as [s|e] eqn:Hs];
    cbn [result_bind]; intros H; inversion H; subst;
    [pose proof (norm_shape_same (BatchNorm b) _ _ Hs)
    |pose proof (norm_shape_same (InstanceNorm i) _ _ Hs)];
    subst; auto.
Qed.

Lemma ConvTranspose2d_out_channels c s s' :
  nn.ConvTranspose2d.out_shape c s = Ok s' ->
  dimC s' = nn.ConvTranspose2d.out_channels c.
Proof.
  unfold nn.ConvTranspose2d.out_shape.
  repeat match goal with |- context [if ?c then _ else _] => destruct c end;
    intros H; inversion H; reflexivity.
Qed.

(** ** The bounding nonlinearities *)

Lemma sigmoid_range v : (0 <= nn.Sigmoid.f v <= 1)%R.
Proof.
  unfold nn.Sigmoid.f. pose proof (exp_pos (- v)) as He.
  assert (Hd : (0 < 1 + exp (- v))%R) by lra.
  split.
  - left. apply Rdiv_lt_0_compat; lra.
  - apply (Rmult_le_reg_r (1 + exp (- v))); [exact Hd|].
    unfold Rdiv. rewrite Rmult_assoc, Rinv_l by lra. lra.
Qed.

Lemma tanh_range v : (-1 <= tanh v <= 1)%R.
Proof.
  unfold tanh, sinh, cosh.
  pose proof (exp_pos v) as Ha. pose proof (exp_pos (- v)) as Hb.
  set (a := exp v) in *. set (b := exp (- v)) in *.
  assert (Hd : (0 < (a + b) / 2)%R) by lra.
  split.
  - apply (Rmult_le_reg_r ((a + b) / 2)); [exact Hd|].
    unfold Rdiv at 2. rewrite Rmult_assoc, Rinv_l by lra. lra.
  - apply (Rmult_le_reg_r ((a + b) / 2)); [exact Hd|].
    unfold Rdiv at 1. rewrite Rmult_assoc, Rinv_l by lra. lra.
Qed.

Lemma Sigmoid_in_range x : in_range 0 1 (nn.Sigmoid.apply x).
Proof. intros n c h w _ _ _ _. apply sigmoid_range. Qed.

Lemma Tanh_in_range x : in_range (-1) 1 (nn.Tanh.apply x).
Proof. intros n c h w _ _ _ _. apply tanh_range. Qed.

(** ** Concatenation along the channel axis *)

(** [torch.cat2] puts the first tensor's channels first. *)
Lemma cat2_slices a b c :
  torch.cat2 a b = Ok c ->
  0 <= dimC (size a) ->
  size c = Shape (dimN (size a)) (dimC (size a) + dimC (size b))
                 (dimH (size a)) (dimW (size a))
  /\ size (narrow_channels c 0 (dimC (size a))) = size a
  /\ (forall n ch h w,
         0 <= ch < dimC (size a) ->
         data (narrow_channels c 0 (dimC (size a))) n ch h w = data a n ch h w)
  /\ size (narrow_channels c (dimC (size a)) (dimC (size b))) = size b
  /\ (forall n ch h w,
         0 <= ch < dimC (size b) ->
         data (narrow_channels c (dimC (size a)) (dimC (size b))) n ch h w
         = data b n ch h w).
Proof.
  unfold torch.cat2, torch.cat_shape. intros H Ha.
  destruct (negb _) eqn:E; [discriminate|].
  cbn [result_bind] in H. injection H as <-.
  apply negb_false_iff in E.
  apply andb_prop in E. destruct E as [E EW].
  apply andb_prop in E. destruct E as [EN EH].
  apply Z.eqb_eq in EN, EH, EW.
  destruct a as [[na ca ha wa] da], b as [[nb cb hb wb] db].
  unfold narrow_channels, torch.cat_data.
  cbn [size data dimN dimC dimH dimW] in *.
  subst nb hb wb.
  split; [reflexivity|]. split; [reflexivity|]. split.
  - intros n ch h w Hch. replace (0 + ch <? ca) with true by lia. reflexivity.
  - split; [reflexivity|].
    intros n ch h w Hch. replace (ca + ch <? ca) with false by lia.
    f_equal. lia.
Qed.

Lemma cat2_tensor_eq a b c :
  torch.cat2 a b = Ok c ->
  0 <= dimC (size a) ->
  tensor_eq (narrow_channels c 0 (dimC (size a))) a
  /\ tensor_eq (narrow_channels c (dimC (size a)) (dimC (size b))) b.
Proof.
  intros H Ha.
  destruct (cat2_slices a b c H Ha) as (_ & S1 & D1 & S2 & D2).
  split; (split; [assumption|]); intros n ch h w _ Hc _ _.
  - apply D1. rewrite S1 in Hc. exact Hc.
  - apply D2. rewrite S2 in Hc. exact Hc.
Qed.

(** ** Constructors *)

Lemma Conv2d_init_ok w i o k s p d g bias :
  conv_accepts i o k g = true ->
  nn.Conv2d.__init__ w i o k s p d g bias = Ok (nn.Conv2d.Build i o k s p d g bias w).
Proof.
  unfold conv_accepts, nn.Conv2d.__init__. intros H.
  repeat (apply andb_prop in H; destruct H as [H ?]).
  replace (g <=? 0) with false by lia.
  replace (i mod g =? 0) with true by lia.
  replace (o mod g =? 0) with true by lia.
  replace (i <=? 0) with false by lia.
  replace (o <=? 0) with false by lia.
  replace (k <=? 0) with false by lia.
  reflexivity.
Qed.

Lemma ConvTranspose2d_init_ok w i o k s p bias :
  conv_accepts i o k 1 = true ->
  nn.ConvTranspose2d.__init__ w i o k s p bias
  = Ok (nn.ConvTranspose2d.Build i o k s p bias w).
Proof.
  unfold conv_accepts, nn.ConvTranspose2d.__init__. intros H.
  repeat (apply andb_prop in H; destruct H as [H ?]).
  replace (i <=? 0) with false by lia.
  replace (o <=? 0) with false by lia.
  replace (k <=? 0) with false by lia.
  reflexivity.
Qed.

Lemma Dropout2d_init_ok w p :
  dropout_accepts p = true ->
  nn.Dropout2d.__init__ w p = Ok (nn.Dropout2d.Build p w).
Proof. unfold dropout_accepts, nn.Dropout2d.__init__. intros ->. reflexivity. Qed.

Lemma conv_accepts_plain i o k :
  0 < i -> 0 < o -> 0 < k -> conv_accepts i o k 1 = true.
Proof.
  intros Hi Ho Hk. unfold conv_accepts. rewrite !Z.mod_1_r.
  replace (0 <? i) with true by lia.
  replace (0 <? o) with true by lia.
  replace (0 <? k) with true by lia.
  reflexivity.
Qed.

Lemma recognized_cases norm :
  recognized norm = true -> norm = "batch" \/ norm = "instance".
Proof.
  unfold recognized. intros H. apply orb_prop in H.
  destruct H as [H|H]; apply String.eqb_eq in H; auto.
Qed.

Lemma recognized_false_eqb norm :
  recognized norm = false ->
  String.eqb norm "batch" = false /\ String.eqb norm "instance" = false.
Proof. unfold recognized. intros H. apply orb_false_elim in H. exact H. Qed.

Lemma EncoderBlock_init_ok theta i o k s p d g bias do_norm norm act :
  conv_accepts i o k g = true ->
  (do_norm = true -> recognized norm = true) ->
  EncoderBlock.__init__ theta i o k s p d g bias do_norm norm act
  = Ok (built_encoder theta i o k s p d g bias do_norm norm act).
Proof.
  intros Hc Hn. unfold EncoderBlock.__init__, built_encoder.
  rewrite (Conv2d_init_ok _ _ _ _ _ _ _ _ _ Hc). cbn [result_bind].
  destruct do_norm; [|reflexivity].
  unfold make_norm.
  destruct (recognized_cases norm (Hn eq_refl)) as [-> | ->]; reflexivity.
Qed.

Lemma DecoderBlock_init_ok theta i o k s p bias do_norm norm act q :
  conv_accepts i o k 1 = true ->
  dropout_accepts q = true ->
  (do_norm = true -> recognized norm = true) ->
  DecoderBlock.__init__ theta i o k s p bias do_norm norm act q
  = Ok (built_decoder theta i o k s p bias do_norm norm act q).
Proof.
  intros Hc Hq Hn. unfold DecoderBlock.__init__, built_decoder.
  rewrite (ConvTranspose2d_init_ok _ _ _ _ _ _ _ Hc). cbn [result_bind].
  rewrite (Dropout2d_init_ok _ _ Hq). cbn [result_bind].
  destruct do_norm; [|reflexivity].
  unfold make_norm.
  destruct (recognized_cases norm (Hn eq_refl)) as [-> | ->]; reflexivity.
Qed.

Lemma Conv2d_init_inv w i o k s p d g bias c :
  nn.Conv2d.__init__ w i o k s p d g bias = Ok c ->
  c = nn.Conv2d.Build i o k s p d g bias w.
Proof.
  unfold nn.Conv2d.__init__.
  repeat match goal with |- context [if ?c then _ else _] => destruct c end;
    intros H; inversion H; reflexivity.
Qed.

Lemma EncoderBlock_init_inv theta i o k s p d g bias do_norm norm act b :
  EncoderBlock.__init__ theta i o k s p d g bias do_norm norm act = Ok b ->
  b = built_encoder theta i o k s p d g bias do_norm norm act.
Proof.
  unfold EncoderBlock.__init__, built_encoder, make_norm.
  destruct (nn.Conv2d.__init__ _ _ _ _ _ _ _ _ _) as [c|e] eqn:Hc;
    cbn [result_bind]; [|discriminate].
  apply Conv2d_init_inv in Hc. subst c.
  destruct do_norm; [|intros H; inversion H; reflexivity].
  destruct (String.eqb norm "batch"); [intros H; inversion H; reflexivity|].
  destruct (String.eqb norm "instance"); intros H; inversion H; reflexivity.
Qed.

Lemma DecoderBlock_init_inv theta i o k s p bias do_norm norm act q b :
  DecoderBlock.__init__ theta i o k s p bias do_norm norm act q = Ok b ->
  b = built_decoder theta i o k s p bias do_norm norm act q.
Proof.
  unfold DecoderBlock.__init__, built_decoder, make_norm.
  unfold nn.ConvTranspose2d.__init__, nn.Dropout2d.__init__.
  destruct (_ || _); cbn [result_bind]; [discriminate|].
  destruct (negb _); cbn [result_bind]; [discriminate|].
  destruct do_norm; [|intros H; inversion H; reflexivity].
  destruct (String.eqb norm "batch"); [intros H; inversion H; reflexivity|].
  destruct (String.eqb norm "instance"); intros H; inversion H; reflexivity.
Qed.

Lemma EncoderBlock_init_unrecognized theta i o k s p d g bias norm act :
  recognized norm = false ->
  conv_accepts i o k g = true ->
  EncoderBlock.__init__ theta i o k s p d g bias true norm act
  = Raise (NotImplementedError "norm error").
Proof.
  intros Hn Hc. destruct (recognized_false_eqb norm Hn) as [Hb Hi].
  unfold EncoderBlock.__init__.
  rewrite (Conv2d_init_ok _ _ _ _ _ _ _ _ _ Hc). cbn [result_bind].
  rewrite Hb, Hi. reflexivity.
Qed.

Lemma EncoderBlock_init_raises theta i o k s p d g bias norm act :
  recognized norm = false ->
  exists e, EncoderBlock.__init__ theta i o k s p d g bias true norm act = Raise e.
Proof.
  intros Hn. destruct (recognized_false_eqb norm Hn) as [Hb Hi].
  unfold EncoderBlock.__init__.
  destruct (nn.Conv2d.__init__ _ _ _ _ _ _ _ _ _) as [c|e]; cbn [result_bind];
    [rewrite Hb, Hi|]; eexists; reflexivity.
Qed.

Lemma DecoderBlock_init_unrecognized theta i o k s p bias norm act q :
  recognized norm = false ->
  conv_accepts i o k 1 = true ->
  dropout_accepts q = true ->
  DecoderBlock.__init__ theta i o k s p bias true norm act q
  = Raise (NotImplementedError "norm error").
Proof.
  intros Hn Hc Hq. destruct (recognized_false_eqb norm Hn) as [Hb Hi].
  unfold DecoderBlock.__init__.
  rewrite (ConvTranspose2d_init_ok _ _ _ _ _ _ _ Hc). cbn [result_bind].
  rewrite (Dropout2d_init_ok _ _ Hq). cbn [result_bind].
  rewrite Hb, Hi. reflexivity.
Qed.

Lemma DecoderBlock_init_raises theta i o k s p bias norm act q :
  recognized norm = false ->
  exists e, DecoderBlock.__init__ theta i o k s p bias true norm act q = Raise e.
Proof.
  intros Hn. destruct (recognized_false_eqb norm Hn) as [Hb Hi].
  unfold DecoderBlock.__init__.
  destruct (nn.ConvTranspose2d.__init__ _ _ _ _ _ _ _) as [c|e]; cbn [result_bind];
    [|eexists; reflexivity].
  destruct (nn.Dropout2d.__init__ _ _) as [dr|e]; cbn [result_bind];
    [rewrite Hb, Hi|]; eexists; reflexivity.
Qed.

Lemma built_enc_wf theta i o k s p d g bias do_norm norm act :
  enc_wf (built_encoder theta i o k s p d g bias do_norm norm act).
Proof.
  split; [reflexivity|]. split; [reflexivity|].
  cbn. intros ->. discriminate.
Qed.

Lemma built_dec_wf theta i o k s p bias do_norm norm act q :
  dec_wf (built_decoder theta i o k s p bias do_norm norm act q).
Proof. split; [reflexivity|]. cbn. intros ->. discriminate. Qed.

(** ** What a block call leaves in the store *)

Lemma size_enc_in b x : size (enc_in b x) = size x.
Proof. unfold enc_in. destruct (EncoderBlock.do_activation b); reflexivity. Qed.

Lemma size_enc_result b x s : size (enc_result b x s) = s.
Proof.
  unfold enc_result.
  destruct (EncoderBlock.do_norm b); [destruct (EncoderBlock.norm b)|]; reflexivity.
Qed.

Lemma size_dec_in b x : size (dec_in b x) = size x.
Proof. unfold dec_in. destruct (DecoderBlock.do_activation b); reflexivity. Qed.

Lemma size_dec_normed b x s : size (dec_normed b x s) = s.
Proof.
  unfold dec_normed.
  destruct (DecoderBlock.do_norm b); [destruct (DecoderBlock.norm b)|]; reflexivity.
Qed.

Lemma size_dec_result b x s : size (dec_result b x s) = s.
Proof.
  unfold dec_result. destruct (dec_drops b); [cbn|]; apply size_dec_normed.
Qed.

(** An [EncoderBlock] call: the argument object is rectified in place (when
    activation is on), and the result is the last object created. *)
Lemma runs_EncoderBlock b st r x s :
  st !! r = Some x ->
  nn.LeakyReLU.inplace (EncoderBlock.leakyRelu b) = true ->
  nn.Conv2d.out_shape (EncoderBlock.conv b) (size x) = Ok s ->
  enc_norm_ok b s ->
  runs (EncoderBlock.forward b r) st (enc_handle b st) (enc_store b r x s st).
Proof.
  intros Hx Hin Hs Hn.
  assert (Hr : (r < length st)%nat) by (eapply lookup_lt_Some; exact Hx).
  unfold EncoderBlock.forward, enc_handle, enc_store, enc_result, enc_conv, enc_in,
    enc_norm_ok in *.
  destruct (EncoderBlock.do_activation b).
  - eapply runs_bind; [apply runs_LeakyReLU_inplace; eassumption|].
    set (x' := nn.LeakyReLU.apply _ x).
    assert (Hx' : <[r := x']> st !! r = Some x')
      by (apply list_lookup_insert_eq; exact Hr).
    eapply runs_bind; [eapply runs_Conv2d; [exact Hx' | exact Hs]|].
    rewrite length_insert.
    destruct (EncoderBlock.do_norm b).
    + destruct (EncoderBlock.norm b) as [l|]; [|contradiction].
      eapply runs_bind.
      { eapply runs_norm;
          [rewrite <- (length_insert st r x'); apply lookup_new
          |reflexivity|exact Hn]. }
      rewrite length_app, length_insert. cbn [length].
      replace (length st + 1)%nat with (S (length st)) by lia.
      rewrite <- app_assoc. apply runs_ret.
    + eapply runs_bind; apply runs_ret.
  - eapply runs_bind; [apply runs_ret|].
    eapply runs_bind; [eapply runs_Conv2d; [exact Hx | exact Hs]|].
    destruct (EncoderBlock.do_norm b).
    + destruct (EncoderBlock.norm b) as [l|]; [|contradiction].
      eapply runs_bind.
      { eapply runs_norm; [apply lookup_new|reflexivity|exact Hn]. }
      rewrite length_app. cbn [length].
      replace (length st + 1)%nat with (S (length st)) by lia.
      rewrite <- app_assoc. apply runs_ret.
    + eapply runs_bind; apply runs_ret.
Qed.

(** The object an [EncoderBlock] call returns. *)
Lemma lookup_enc_result b r x s (st : store) :
  enc_store b r x s st !! enc_handle b st = Some (enc_result b x s).
Proof.
  unfold enc_store, enc_handle.
  rewrite !app_assoc.
  match goal with
  | |- (?l ++ [_]) !! ?i = _ => replace i with (length l)
  end; [apply lookup_new|].
  rewrite length_app.
  destruct (EncoderBlock.do_activation b), (EncoderBlock.do_norm b);
    rewrite ?length_insert; cbn [length]; lia.
Qed.

(** The argument object after an [EncoderBlock] call. *)
Lemma lookup_enc_arg b r x s (st : store) :
  st !! r = Some x ->
  enc_store b r x s st !! r = Some (enc_in b x).
Proof.
  intros Hx.
  assert (Hr : (r < length st)%nat) by (eapply lookup_lt_Some; exact Hx).
  unfold enc_store, enc_in.
  destruct (EncoderBlock.do_activation b).
  - rewrite lookup_app_l by (rewrite length_insert; exact Hr).
    apply list_lookup_insert_eq. exact Hr.
  - rewrite lookup_app_l by exact Hr. exact Hx.
Qed.

(** A [DecoderBlock] call never touches an existing object. *)
Lemma runs_DecoderBlock b st r x s :
  st !! r = Some x ->
  nn.ReLU.inplace (DecoderBlock.relu b) = false ->
  nn.ConvTranspose2d.out_shape (DecoderBlock.convT b) (size x) = Ok s ->
  dec_norm_ok b s ->
  runs (DecoderBlock.forward b r) st (dec_handle b x s st) (dec_store b x s st).
Proof.
  intros Hx Hin Hs Hn.
  unfold DecoderBlock.forward, dec_handle, dec_store, dec_news, dec_result,
    dec_normed, dec_conv, dec_in, dec_norm_ok in *.
  fold (dec_drops b).
  destruct (DecoderBlock.do_activation b), (DecoderBlock.do_norm b) eqn:Hd;
    try (destruct (DecoderBlock.norm b) as [l|]; [|contradiction]);
    destruct (dec_drops b);
    repeat first
      [ apply runs_ret
      | eapply runs_bind;
        [ first
            [ apply runs_ret
            | apply runs_ReLU_fresh; eassumption
            | eapply runs_ConvTranspose2d; [first [apply lookup_new | eassumption] | exact Hs]
            | eapply runs_norm; [apply lookup_new | reflexivity | exact Hn]
            | apply runs_Dropout2d; apply lookup_new ] | ] ].
  all: cbn [app length orb andb]; rewrite <- ?app_assoc; cbn [app];
    rewrite ?length_app; cbn [length size];
    unfold runs, ret; do 2 f_equal; lia.
Qed.

(** The object a [DecoderBlock] call returns. *)
Lemma lookup_dec_result b x s (st : store) :
  dec_store b x s st !! dec_handle b x s st = Some (dec_result b x s).
Proof.
  unfold dec_store, dec_handle, dec_news.
  rewrite !app_assoc.
  match goal with
  | |- (?l ++ [_]) !! _ = _ =>
      replace (Nat.pred (length st + _)) with (length l)
        by (rewrite !length_app; cbn [length]; lia)
  end.
  apply lookup_new.
Qed.

(** The argument object after a [DecoderBlock] call is what it was. *)
Lemma lookup_dec_arg b r x x0 s (st : store) :
  st !! r = Some x0 ->
  dec_store b x s st !! r = Some x0.
Proof.
  intros Hx. unfold dec_store.
  rewrite lookup_app_l by (eapply lookup_lt_Some; exact Hx). exact Hx.
Qed.

Lemma after_EncoderBlock b st r x s (Q : handle -> store -> Prop) :
  st !! r = Some x ->
  nn.LeakyReLU.inplace (EncoderBlock.leakyRelu b) = true ->
  nn.Conv2d.out_shape (EncoderBlock.conv b) (size x) = Ok s ->
  enc_norm_ok b s ->
  Q (enc_handle b st) (enc_store b r x s st) ->
  after (EncoderBlock.forward b r) st Q.
Proof.
  intros Hx Hi Hs Hn HQ. eexists. eexists.
  split; [apply runs_EncoderBlock; eassumption | exact HQ].
Qed.

Lemma after_DecoderBlock b st r x s (Q : handle -> store -> Prop) :
  st !! r = Some x ->
  nn.ReLU.inplace (DecoderBlock.relu b) = false ->
  nn.ConvTranspose2d.out_shape (DecoderBlock.convT b) (size x) = Ok s ->
  dec_norm_ok b s ->
  Q (dec_handle b x s st) (dec_store b x s st) ->
  after (DecoderBlock.forward b r) st Q.
Proof.
  intros Hx Hi Hs Hn HQ. eexists. eexists.
  split; [apply runs_DecoderBlock; eassumption | exact HQ].
Qed.

(** ** Block calls and the pure pipelines, errors included *)

Lemma encoder_pipeline_result b x s :
  nn.LeakyReLU.negative_slope (EncoderBlock.leakyRelu b) = 2 # 10 ->
  nn.Conv2d.out_shape (EncoderBlock.conv b) (size x) = Ok s ->
  enc_norm_ok b s ->
  encoder_pipeline (EncoderBlock.do_activation b) (EncoderBlock.conv b)
    (if EncoderBlock.do_norm b then EncoderBlock.norm b else None) x
  = Ok (enc_result b x s).
Proof.
  intros Hsl Hs Hn.
  unfold encoder_pipeline, enc_result, enc_conv, enc_in, enc_norm_ok,
    nn.Conv2d.apply, nn.LeakyReLU.apply in *.
  rewrite Hsl.
  assert (Hsz : size (if EncoderBlock.do_activation b
                      then pointwise (nn.LeakyReLU.f (2 # 10)) x else x) = size x)
    by (destruct (EncoderBlock.do_activation b); reflexivity).
  rewrite Hsz, Hs. cbn [result_bind].
  destruct (EncoderBlock.do_norm b); [|reflexivity].
  destruct (EncoderBlock.norm b) as [[l|l]|]; [| |contradiction];
    cbn [norm_apply norm_shape norm_compute] in *;
    unfold nn.BatchNorm2d.apply, nn.InstanceNorm2d.apply; cbn [size];
    rewrite Hn; reflexivity.
Qed.

Lemma decoder_pipeline_result b x s :
  nn.ConvTranspose2d.out_shape (DecoderBlock.convT b) (size x) = Ok s ->
  dec_norm_ok b s ->
  decoder_pipeline (DecoderBlock.do_activation b) (DecoderBlock.convT b)
    (if DecoderBlock.do_norm b then DecoderBlock.norm b else None)
    (if dec_drops b then Some (DecoderBlock.drop b) else None) x
  = Ok (dec_result b x s).
Proof.
  intros Hs Hn.
  unfold decoder_pipeline, dec_result, dec_normed, dec_conv, dec_in, dec_norm_ok,
    nn.ConvTranspose2d.apply, nn.ReLU.apply, nn.ReLU.f in *.
  assert (Hsz : size (if DecoderBlock.do_activation b
                      then pointwise (Rmax 0) x else x) = size x)
    by (destruct (DecoderBlock.do_activation b); reflexivity).
  rewrite Hsz, Hs. cbn [result_bind].
  destruct (DecoderBlock.do_norm b).
  - destruct (DecoderBlock.norm b) as [[l|l]|]; [| |contradiction];
      cbn [norm_apply norm_shape norm_compute] in *;
      unfold nn.BatchNorm2d.apply, nn.InstanceNorm2d.apply; cbn [size];
      rewrite Hn; cbn [result_bind]; destruct (dec_drops b); reflexivity.
  - cbn [result_bind]. destruct (dec_drops b); reflexivity.
Qed.

Lemma block_pipeline_result b x s :
  nn.LeakyReLU.negative_slope (EncoderBlock.leakyRelu b) = 2 # 10 ->
  nn.Conv2d.out_shape (EncoderBlock.conv b) (size x) = Ok s ->
  enc_norm_ok b s ->
  block_pipeline b x = Ok (enc_result b x s).
Proof. apply encoder_pipeline_result. Qed.

Lemma dec_pipeline_result b x s :
  nn.ConvTranspose2d.out_shape (DecoderBlock.convT b) (size x) = Ok s ->
  dec_norm_ok b s ->
  dec_pipeline b x = Ok (dec_result b x s).
Proof. apply decoder_pipeline_result. Qed.

Lemma block_pipeline_inv b x y :
  enc_wf b ->
  block_pipeline b x = Ok y ->
  exists s,
    nn.Conv2d.out_shape (EncoderBlock.conv b) (size x) = Ok s
    /\ enc_norm_ok b s
    /\ y = enc_result b x s.
Proof.
  intros (_ & Hsl & Hnorm).
  unfold block_pipeline, encoder_pipeline, nn.Conv2d.apply, enc_norm_ok,
    enc_result, enc_conv, enc_in, nn.LeakyReLU.apply.
  rewrite Hsl.
  assert (Hsz : size (if EncoderBlock.do_activation b
                      then pointwise (nn.LeakyReLU.f (2 # 10)) x else x) = size x)
    by (destruct (EncoderBlock.do_activation b); reflexivity).
  rewrite Hsz.
  destruct (nn.Conv2d.out_shape _ _) as [s|e]; cbn [result_bind]; [|discriminate].
  intros H. exists s. split; [reflexivity|].
  destruct (EncoderBlock.do_norm b).
  - destruct (EncoderBlock.norm b) as [l|]; [|exfalso; apply Hnorm; reflexivity].
    apply norm_apply_inv in H. cbn [size] in H. destruct H as [H ->]. auto.
  - injection H as <-. auto.
Qed.

Lemma dec_pipeline_inv b x y :
  dec_wf b ->
  dec_pipeline b x = Ok y ->
  exists s,
    nn.ConvTranspose2d.out_shape (DecoderBlock.convT b) (size x) = Ok s
    /\ dec_norm_ok b s
    /\ y = dec_result b x s.
Proof.
  intros (_ & Hnorm).
  unfold dec_pipeline, decoder_pipeline, nn.ConvTranspose2d.apply, dec_norm_ok,
    dec_result, dec_normed, dec_conv, dec_in, nn.ReLU.apply, nn.ReLU.f.
  assert (Hsz : size (if DecoderBlock.do_activation b
                      then pointwise (Rmax 0) x else x) = size x)
    by (destruct (DecoderBlock.do_activation b); reflexivity).
  rewrite Hsz.
  destruct (nn.ConvTranspose2d.out_shape _ _) as [s|e]; cbn [result_bind];
    [|discriminate].
  intros H. exists s. split; [reflexivity|].
  destruct (DecoderBlock.do_norm b).
  - destruct (DecoderBlock.norm b) as [l|]; [|exfalso; apply Hnorm; reflexivity].
    destruct (norm_apply l _) as [n|e] eqn:Hn; cbn [result_bind] in H;
      [|discriminate].
    apply norm_apply_inv in Hn. cbn [size] in Hn. destruct Hn as [Hn ->].
    injection H as <-. split; [exact Hn|]. destruct (dec_drops b); reflexivity.
  - cbn [result_bind] in H. injection H as <-. split; [exact I|].
    destruct (dec_drops b); reflexivity.
Qed.

(** A block call goes wrong exactly when its pipeline does, with the same
    exception; otherwise it returns a reference to the pipeline's result. *)
Lemma EncoderBlock_total b (st : store) r x :
  enc_wf b ->
  st !! r = Some x ->
  match block_pipeline b x with
  | Ok y => exists r' st', runs (EncoderBlock.forward b r) st r' st' /\ st' !! r' = Some y
  | Raise e => EncoderBlock.forward b r st = Raise e
  end.
Proof.
  intros (Hin & Hsl & Hnorm) Hx.
  assert (Hr : (r < length st)%nat) by (eapply lookup_lt_Some; exact Hx).
  unfold runs. remember (EncoderBlock.forward b r st) as res eqn:Hres.
  unfold EncoderBlock.forward in Hres.
  unfold block_pipeline, encoder_pipeline.
  assert (Hstep : exists st0 x0,
             (if EncoderBlock.do_activation b
              then nn.LeakyReLU.forward (EncoderBlock.leakyRelu b) r
              else ret r) st = Ok (r, st0)
             /\ st0 !! r = Some x0
             /\ x0 = (if EncoderBlock.do_activation b
                      then pointwise (nn.LeakyReLU.f (2 # 10)) x else x)).
  { destruct (EncoderBlock.do_activation b).
    - eexists; eexists; split; [apply runs_LeakyReLU_inplace; eassumption|].
      split; [apply list_lookup_insert_eq; exact Hr|].
      unfold nn.LeakyReLU.apply. rewrite Hsl. reflexivity.
    - exists st, x. split; [reflexivity|]. split; [exact Hx | reflexivity]. }
  destruct Hstep as (st0 & x0 & Hrun & Hx0 & ->).
  rewrite (bind_runs _ _ _ _ _ Hrun) in Hres.
  unfold nn.Conv2d.forward in Hres. unfold bind at 1 in Hres.
  rewrite (fresh_layer_run _ _ _ _ Hx0) in Hres.
  destruct (nn.Conv2d.apply _ _) as [c|e]; cbn [result_bind]; [|exact Hres].
  destruct (EncoderBlock.do_norm b).
  - destruct (EncoderBlock.norm b) as [l|]; [|exfalso; apply Hnorm; reflexivity].
    unfold bind at 1 in Hres.
    rewrite (norm_forward_run l _ _ c (lookup_new _ _)) in Hres.
    destruct (norm_apply l c) as [y|e]; [|exact Hres].
    eexists; eexists; split; [exact Hres | apply lookup_new].
  - eexists; eexists; split; [exact Hres | apply lookup_new].
Qed.

Lemma DecoderBlock_total b (st : store) r x :
  dec_wf b ->
  st !! r = Some x ->
  match dec_pipeline b x with
  | Ok y => exists r' st', runs (DecoderBlock.forward b r) st r' st' /\ st' !! r' = Some y
  | Raise e => DecoderBlock.forward b r st = Raise e
  end.
Proof.
  intros (Hin & Hnorm) Hx.
  unfold runs. remember (DecoderBlock.forward b r st) as res eqn:Hres.
  unfold DecoderBlock.forward in Hres. fold (dec_drops b) in Hres.
  unfold dec_pipeline, decoder_pipeline.
  assert (Hstep : exists r0 st0 x0,
             (if DecoderBlock.do_activation b
              then nn.ReLU.forward (DecoderBlock.relu b) r
              else ret r) st = Ok (r0, st0)
             /\ st0 !! r0 = Some x0
             /\ x0 = (if DecoderBlock.do_activation b
                      then pointwise (Rmax 0) x else x)).
  { destruct (DecoderBlock.do_activation b).
    - eexists; eexists; eexists; split; [apply runs_ReLU_fresh; eassumption|].
      split; [apply lookup_new | reflexivity].
    - exists r, st, x. split; [reflexivity|]. split; [exact Hx | reflexivity]. }
  destruct Hstep as (r0 & st0 & x0 & Hrun & Hx0 & ->).
  rewrite (bind_runs _ _ _ _ _ Hrun) in Hres.
  unfold nn.ConvTranspose2d.forward in Hres. unfold bind at 1 in Hres.
  rewrite (fresh_layer_run _ _ _ _ Hx0) in Hres.
  destruct (nn.ConvTranspose2d.apply _ _) as [c|e]; cbn [result_bind]; [|exact Hres].
  assert (Hdrop : forall (st1 : store) y,
             exists r' st',
               bind (if dec_drops b
                     then nn.Dropout2d.forward (DecoderBlock.drop b) (length st1)
                     else ret (length st1)) (fun x1 => ret x1) (st1 ++ [y])
               = Ok (r', st')
               /\ st' !! r' = Some (if dec_drops b
                                    then nn.Dropout2d.apply (DecoderBlock.drop b) y
                                    else y)).
  { intros st1 y. destruct (dec_drops b).
    - eexists; eexists.
      rewrite (bind_runs _ _ _ _ _ (runs_Dropout2d _ _ _ _ (lookup_new _ _))).
      split; [reflexivity | apply lookup_new].
    - eexists; eexists. split; [reflexivity | apply lookup_new]. }
  destruct (DecoderBlock.do_norm b).
  - destruct (DecoderBlock.norm b) as [l|]; [|exfalso; apply Hnorm; reflexivity].
    unfold bind at 1 in Hres.
    rewrite (norm_forward_run l _ _ c (lookup_new _ _)) in Hres.
    destruct (norm_apply l c) as [y|e]; cbn [result_bind]; [|exact Hres].
    destruct (Hdrop (st0 ++ [c]) y) as (r' & st' & Hd & Hy).
    rewrite Hd in Hres. exists r', st'. split; [exact Hres|].
    rewrite Hy. destruct (dec_drops b); reflexivity.
  - unfold bind at 1 in Hres. unfold ret at 1 in Hres. cbn [result_bind].
    destruct (Hdrop st0 c) as (r' & st' & Hd & Hy).
    rewrite Hd in Hres. exists r', st'. split; [exact Hres|].
    rewrite Hy. destruct (dec_drops b); reflexivity.
Qed.

Lemma EncoderBlock_fetch b (st : store) r x :
  enc_wf b ->
  st !! r = Some x ->
  fetch (EncoderBlock.forward b r) st = block_pipeline b x.
Proof.
  intros Hwf Hx. pose proof (EncoderBlock_total b st r x Hwf Hx) as H.
  unfold fetch. destruct (block_pipeline b x) as [y|e].
  - destruct H as (r' & st' & Hrun & Hy). unfold runs in Hrun.
    rewrite Hrun, Hy. reflexivity.
  - rewrite H. reflexivity.
Qed.

Lemma DecoderBlock_fetch b (st : store) r x :
  dec_wf b ->
  st !! r = Some x ->
  fetch (DecoderBlock.forward b r) st = dec_pipeline b x.
Proof.
  intros Hwf Hx. pose proof (DecoderBlock_total b st r x Hwf Hx) as H.
  unfold fetch. destruct (dec_pipeline b x) as [y|e].
  - destruct H as (r' & st' & Hrun & Hy). unfold runs in Hrun.
    rewrite Hrun, Hy. reflexivity.
  - rewrite H. reflexivity.
Qed.

(** One block of a sequence: either the rest runs on the pipeline's result,
    or the whole call raises the pipeline's exception. *)
Lemma fetch_bind_block b (k : handle -> M handle) (st : store) r x :
  enc_wf b ->
  st !! r = Some x ->
  match block_pipeline b x with
  | Ok y => exists r' st',
      st' !! r' = Some y
      /\ fetch (bind (EncoderBlock.forward b r) k) st = fetch (k r') st'
  | Raise e => fetch (bind (EncoderBlock.forward b r) k) st = Raise e
  end.
Proof.
  intros Hwf Hx. pose proof (EncoderBlock_total b st r x Hwf Hx) as H.
  destruct (block_pipeline b x) as [y|e].
  - destruct H as (r' & st' & Hrun & Hy). exists r', st'.
    split; [exact Hy | apply fetch_bind_runs; exact Hrun].
  - apply fetch_bind_raise. exact H.
Qed.

(** A completed [EncoderBlock] call determines the store it leaves. *)
Lemma EncoderBlock_runs_inv b (st : store) r x r' st' :
  enc_wf b ->
  st !! r = Some x ->
  runs (EncoderBlock.forward b r) st r' st' ->
  exists s,
    nn.Conv2d.out_shape (EncoderBlock.conv b) (size x) = Ok s
    /\ enc_norm_ok b s
    /\ r' = enc_handle b st
    /\ st' = enc_store b r x s st.
Proof.
  intros Hwf Hx Hrun.
  pose proof (EncoderBlock_total b st r x Hwf Hx) as Ht.
  destruct (block_pipeline b x) as [y|e] eqn:Hp.
  - destruct (block_pipeline_inv b x y Hwf Hp) as (s & Hs & Hn & _).
    exists s. split; [exact Hs|]. split; [exact Hn|].
    destruct Hwf as (Hin & _).
    apply (runs_functional _ _ _ _ _ _ Hrun).
    apply runs_EncoderBlock; assumption.
  - unfold runs in Hrun. rewrite Hrun in Ht. discriminate.
Qed.

(** A completed [DecoderBlock] call determines the store it leaves. *)
Lemma DecoderBlock_runs_inv b (st : store) r x r' st' :
  dec_wf b ->
  st !! r = Some x ->
  runs (DecoderBlock.forward b r) st r' st' ->
  exists s,
    nn.ConvTranspose2d.out_shape (DecoderBlock.convT b) (size x) = Ok s
    /\ dec_norm_ok b s
    /\ r' = dec_handle b x s st
    /\ st' = dec_store b x s st.
Proof.
  intros Hwf Hx Hrun.
  pose proof (DecoderBlock_total b st r x Hwf Hx) as Ht.
  destruct (dec_pipeline b x) as [y|e] eqn:Hp.
  - destruct (dec_pipeline_inv b x y Hwf Hp) as (s & Hs & Hn & _).
    exists s. split; [exact Hs|]. split; [exact Hn|].
    destruct Hwf as (Hin & _).
    apply (runs_functional _ _ _ _ _ _ Hrun).
    apply runs_DecoderBlock; assumption.
  - unfold runs in Hrun. rewrite Hrun in Ht. discriminate.
Qed.

(** ** Shape rules at the blocks' default geometry *)

(** Kernel 4, stride 2, padding 1, dilation 1 halves an even extent. *)
Lemma Conv2d_halves w i o g bias n h wd :
  0 < h -> 0 < wd -> h mod 2 = 0 -> wd mod 2 = 0 ->
  nn.Conv2d.out_shape (nn.Conv2d.Build i o 4 2 1 1 g bias w) (Shape n i h wd)
  = Ok (Shape n o (h / 2) (wd / 2)).
Proof.
  intros Hh Hw Eh Ew.
  unfold nn.Conv2d.out_shape, nn.Conv2d.fits, nn.Conv2d.out_size.
  cbn [dimN dimC dimH dimW nn.Conv2d.in_channels nn.Conv2d.out_channels
       nn.Conv2d.kernel_size nn.Conv2d.stride nn.Conv2d.padding nn.Conv2d.dilation].
  rewrite Z.eqb_refl. cbn [negb orb Z.leb Z.ltb Z.compare].
  assert (h = 2 * (h / 2)) by (apply Z.div_exact; lia).
  assert (wd = 2 * (wd / 2)) by (apply Z.div_exact; lia).
  replace (1 * (4 - 1) + 1 <=? h + 2 * 1) with true by lia.
  replace (1 * (4 - 1) + 1 <=? wd + 2 * 1) with true by lia.
  cbn [andb negb].
  replace ((h + 2 * 1 - 1 * (4 - 1) - 1) / 2 + 1) with (h / 2)
    by (replace (h + 2 * 1 - 1 * (4 - 1) - 1) with ((h / 2 - 1) * 2) by lia;
        rewrite Z.div_mul by lia; lia).
  replace ((wd + 2 * 1 - 1 * (4 - 1) - 1) / 2 + 1) with (wd / 2)
    by (replace (wd + 2 * 1 - 1 * (4 - 1) - 1) with ((wd / 2 - 1) * 2) by lia;
        rewrite Z.div_mul by lia; lia).
  reflexivity.
Qed.

(** Kernel 4, stride 2, padding 1 doubles an extent under transposition. *)
Lemma ConvTranspose2d_doubles w i o bias n h wd :
  0 < h -> 0 < wd ->
  nn.ConvTranspose2d.out_shape (nn.ConvTranspose2d.Build i o 4 2 1 bias w) (Shape n i h wd)
  = Ok (Shape n o (h * 2) (wd * 2)).
Proof.
  intros Hh Hw.
  unfold nn.ConvTranspose2d.out_shape, nn.ConvTranspose2d.out_size.
  cbn [dimN dimC dimH dimW nn.ConvTranspose2d.in_channels
       nn.ConvTranspose2d.out_channels nn.ConvTranspose2d.kernel_size
       nn.ConvTranspose2d.stride nn.ConvTranspose2d.padding].
  rewrite Z.eqb_refl. cbn [negb orb Z.leb Z.ltb Z.compare].
  replace ((h - 1) * 2 - 2 * 1 + (4 - 1) + 1) with (h * 2) by lia.
  replace ((wd - 1) * 2 - 2 * 1 + (4 - 1) + 1) with (wd * 2) by lia.
  replace (h * 2 <=? 0) with false by lia.
  replace (wd * 2 <=? 0) with false by lia.
  reflexivity.
Qed.

Lemma make_norm_shape w norm n c h wd :
  recognized norm = true ->
  norm_fed norm n h wd ->
  norm_shape (make_norm w norm c) (Shape n c h wd) = Ok (Shape n c h wd).
Proof.
  intros Hrec Hfed. unfold make_norm, norm_fed in *.
  destruct (recognized_cases norm Hrec) as [-> | ->];
    cbn [String.eqb Ascii.eqb Bool.eqb] in *; cbn [norm_shape].
  - unfold nn.BatchNorm2d.out_shape, nn.BatchNorm2d.__init__.
    cbn [dimN dimC dimH dimW nn.BatchNorm2d.num_features].
    rewrite Z.eqb_refl. cbn [negb].
    replace (n * h * wd =? 1) with false by lia. reflexivity.
  - unfold nn.InstanceNorm2d.out_shape.
    cbn [dimN dimC dimH dimW].
    replace (h * wd =? 1) with false by lia. reflexivity.
Qed.

Lemma norm_fed_doubled norm n h wd : norm_fed norm n (h * 2) (wd * 2).
Proof.
  unfold norm_fed. destruct (String.eqb norm "batch"); intros E.
  - assert (n * (h * 2) * (wd * 2) = 2 * (n * h * (wd * 2))) by ring. lia.
  - assert (h * 2 * (wd * 2) = 2 * (h * (wd * 2))) by ring. lia.
Qed.

(** ** Construction-time handling of the normalisation mode *)

(** C9.  With normalisation enabled, a mode string other than ['batch'] and
    ['instance'] makes both block constructors raise: the constructor call
    itself ends in an exception, so there is no block to call [forward] on
    and no default normalisation is substituted; once the library accepts
    the convolution and dropout arguments, the exception is the
    [NotImplementedError] of the mode check.  With a recognised mode (and
    arguments the library accepts) construction succeeds and the block holds
    the normalisation layer that was named. *)
Theorem norm_mode_checked_at_construction
    (theta : params) (i o k s p d g : Z) (bias act : bool) (q : Q) (norm : string) :
  (recognized norm = false ->
     (exists e, EncoderBlock.__init__ theta i o k s p d g bias true norm act = Raise e)
     /\ (exists e, DecoderBlock.__init__ theta i o k s p bias true norm act q = Raise e)
     /\ (conv_accepts i o k g = true ->
         EncoderBlock.__init__ theta i o k s p d g bias true norm act
         = Raise (NotImplementedError "norm error"))
     /\ (conv_accepts i o k 1 = true -> dropout_accepts q = true ->
         DecoderBlock.__init__ theta i o k s p bias true norm act q
         = Raise (NotImplementedError "norm error")))
  /\ (recognized norm = true ->
     (conv_accepts i o k g = true ->
      exists b, EncoderBlock.__init__ theta i o k s p d g bias true norm act = Ok b
                /\ EncoderBlock.do_norm b = true
                /\ EncoderBlock.norm b = Some (make_norm (theta "norm") norm o))
     /\ (conv_accepts i o k 1 = true -> dropout_accepts q = true ->
         exists b, DecoderBlock.__init__ theta i o k s p bias true norm act q = Ok b
                   /\ DecoderBlock.do_norm b = true
                   /\ DecoderBlock.norm b = Some (make_norm (theta "norm") norm o))).
Proof.
  split; intros Hn.
  - repeat split.
    + apply EncoderBlock_init_raises. exact Hn.
    + apply DecoderBlock_init_raises. exact Hn.
    + intros Hc. apply EncoderBlock_init_unrecognized; assumption.
    + intros Hc Hq. apply DecoderBlock_init_unrecognized; assumption.
  - split.
    + intros Hc. eexists. split.
      * apply EncoderBlock_init_ok; [exact Hc | intros _; exact Hn].
      * split; reflexivity.
    + intros Hc Hq. eexists. split.
      * apply DecoderBlock_init_ok; [exact Hc | exact Hq | intros _; exact Hn].
      * split; reflexivity.
Qed.

(** The mode check at a misspelt mode, and at the two recognised ones. *)
Lemma norm_mode_checked_at_construction_witness :
  EncoderBlock.__init__ zero_params 3 64 4 2 1 1 1 false true "unsupported" true
  = Raise (NotImplementedError "norm error")
  /\ DecoderBlock.__init__ zero_params 512 512 4 2 1 false true "unsupported" true (1 # 2)
     = Raise (NotImplementedError "norm error")
  /\ (exists b, EncoderBlock.__init__ zero_params 3 64 4 2 1 1 1 false true "instance" true = Ok b
                /\ EncoderBlock.do_norm b = true
                /\ EncoderBlock.norm b = Some (make_norm (zero_params "norm") "instance" 64))
  /\ (exists b, DecoderBlock.__init__ zero_params 3 64 4 2 1 false true "batch" true (1 # 2) = Ok b
                /\ DecoderBlock.do_norm b = true
                /\ DecoderBlock.norm b = Some (make_norm (zero_params "norm") "batch" 64)).
Proof.
  split; [|split; [|split]].
  - apply (norm_mode_checked_at_construction zero_params 3 64 4 2 1 1 1 false true
             (1 # 2) "unsupported"); reflexivity.
  - apply (norm_mode_checked_at_construction zero_params 512 512 4 2 1 1 1 false true
             (1 # 2) "unsupported"); reflexivity.
  - apply (norm_mode_checked_at_construction zero_params 3 64 4 2 1 1 1 false true
             (1 # 2) "instance"); reflexivity.
  - apply (norm_mode_checked_at_construction zero_params 3 64 4 2 1 1 1 false true
             (1 # 2) "batch"); reflexivity.
Defined.

(** C10.  With normalisation disabled the constructors never look at the
    mode string: the outcome is the same for every string, and whenever the
    library accepts the convolution (and dropout) arguments construction
    succeeds, the block has no [norm] attribute, and a call is the pipeline
    without a normalisation step. *)
Theorem disabled_norm_mode_is_ignored
    (theta : params) (i o k s p d g : Z) (bias act : bool) (q : Q) (norm : string) :
  (forall norm',
      EncoderBlock.__init__ theta i o k s p d g bias false norm act
      = EncoderBlock.__init__ theta i o k s p d g bias false norm' act)
  /\ (forall norm',
      DecoderBlock.__init__ theta i o k s p bias false norm act q
      = DecoderBlock.__init__ theta i o k s p bias false norm' act q)
  /\ (conv_accepts i o k g = true ->
      exists b,
        EncoderBlock.__init__ theta i o k s p d g bias false norm act = Ok b
        /\ EncoderBlock.do_norm b = false
        /\ EncoderBlock.norm b = None
        /\ forall (st : store) r x,
            st !! r = Some x ->
            fetch (EncoderBlock.forward b r) st
            = encoder_pipeline act (EncoderBlock.conv b) None x)
  /\ (conv_accepts i o k 1 = true -> dropout_accepts q = true ->
      exists b,
        DecoderBlock.__init__ theta i o k s p bias false norm act q = Ok b
        /\ DecoderBlock.do_norm b = false
        /\ DecoderBlock.norm b = None
        /\ forall (st : store) r x,
            st !! r = Some x ->
            fetch (DecoderBlock.forward b r) st
            = decoder_pipeline act (DecoderBlock.convT b) None
                (if negb (Qeq_bool q 0) then Some (DecoderBlock.drop b) else None) x).
Proof.
  split; [|split; [|split]].
  - intros norm'. reflexivity.
  - intros norm'. reflexivity.
  - intros Hc. eexists. split.
    { apply EncoderBlock_init_ok; [exact Hc | discriminate]. }
    split; [reflexivity|]. split; [reflexivity|].
    intros st r x Hx.
    rewrite (EncoderBlock_fetch _ st r x); [reflexivity | | exact Hx].
    split; [reflexivity|]. split; [reflexivity | discriminate].
  - intros Hc Hq. eexists. split.
    { apply DecoderBlock_init_ok; [exact Hc | exact Hq | discriminate]. }
    split; [reflexivity|]. split; [reflexivity|].
    intros st r x Hx.
    rewrite (DecoderBlock_fetch _ st r x); [reflexivity | | exact Hx].
    split; [reflexivity | discriminate].
Qed.

(** An unrecognised mode is accepted when normalisation is off. *)
Lemma disabled_norm_mode_is_ignored_witness :
  (exists b,
      EncoderBlock.__init__ zero_params 3 64 4 2 1 1 1 false false "unsupported" false = Ok b
      /\ EncoderBlock.do_norm b = false
      /\ EncoderBlock.norm b = None
      /\ forall (st : store) r x,
          st !! r = Some x ->
          fetch (EncoderBlock.forward b r) st
          = encoder_pipeline false (EncoderBlock.conv b) None x)
  /\ (exists b,
      DecoderBlock.__init__ zero_params 128 3 4 2 1 false false "unsupported" true (1 # 2) = Ok b
      /\ DecoderBlock.do_norm b = false
      /\ DecoderBlock.norm b = None
      /\ forall (st : store) r x,
          st !! r = Some x ->
          fetch (DecoderBlock.forward b r) st
          = decoder_pipeline true (DecoderBlock.convT b) None
              (if negb (Qeq_bool (1 # 2) 0) then Some (DecoderBlock.drop b) else None) x).
Proof.
  split.
  - apply (disabled_norm_mode_is_ignored zero_params 3 64 4 2 1 1 1 false false
             (1 # 2) "unsupported"). reflexivity.
  - apply (disabled_norm_mode_is_ignored zero_params 128 3 4 2 1 1 1 false true
             (1 # 2) "unsupported"); reflexivity.
Defined.

(** ** The blocks at kernel 4, stride 2, padding 1 *)

(** C7, as the code has it.  An [EncoderBlock] with kernel 4, stride 2,
    padding 1 and dilation 1, whose other arguments the library accepts,
    called on a tensor of shape (N, Cin, H, W) with H and W positive and
    even (and, with normalisation, more than one value to take statistics
    over), returns a new tensor of shape (N, Cout, H/2, W/2).  That tensor
    is the pipeline's: leaky rectification with slope 0.2 when activation is
    on, then the convolution, then the normalisation when it is on.  The
    rectification is in place: afterwards the argument object holds the
    rectified input. *)
Theorem EncoderBlock_halves
    (theta : params) (Cin Cout g : Z) (bias do_norm act : bool) (norm : string)
    (N H W : Z) (st : store) (r : handle) (x : tensor) :
  conv_accepts Cin Cout 4 g = true ->
  (do_norm = true -> recognized norm = true) ->
  st !! r = Some x ->
  size x = Shape N Cin H W ->
  0 < H -> 0 < W -> H mod 2 = 0 -> W mod 2 = 0 ->
  (do_norm = true -> norm_fed norm N (H / 2) (W / 2)) ->
  exists b r' st' y,
    EncoderBlock.__init__ theta Cin Cout 4 2 1 1 g bias do_norm norm act = Ok b
    /\ runs (EncoderBlock.forward b r) st r' st'
    /\ st' !! r' = Some y
    /\ size y = Shape N Cout (H / 2) (W / 2)
    /\ encoder_pipeline act (EncoderBlock.conv b)
         (if do_norm then EncoderBlock.norm b else None) x = Ok y
    /\ st' !! r = Some (if act then pointwise (nn.LeakyReLU.f (2 # 10)) x else x).
Proof.
  intros Hc Hrec Hx Hsz HH HW EH EW Hfed.
  set (b := built_encoder theta Cin Cout 4 2 1 1 g bias do_norm norm act).
  set (s := Shape N Cout (H / 2) (W / 2)).
  assert (Hs : nn.Conv2d.out_shape (EncoderBlock.conv b) (size x) = Ok s).
  { rewrite Hsz. apply Conv2d_halves; assumption. }
  assert (Hn : enc_norm_ok b s).
  { unfold enc_norm_ok, b. cbn [EncoderBlock.do_norm EncoderBlock.norm].
    destruct do_norm; [|exact I].
    apply make_norm_shape; auto. }
  exists b, (enc_handle b st), (enc_store b r x s st), (enc_result b x s).
  split; [apply EncoderBlock_init_ok; assumption|].
  split; [apply runs_EncoderBlock; [exact Hx | reflexivity | exact Hs | exact Hn]|].
  split; [apply lookup_enc_result|].
  split; [apply size_enc_result|].
  split.
  - apply (encoder_pipeline_result b x s); [reflexivity | exact Hs | exact Hn].
  - apply (lookup_enc_arg b r x s st Hx).
Qed.

(** The default block on an 8x8 three-channel image. *)
Lemma EncoderBlock_halves_witness :
  exists b r' st' y,
    EncoderBlock.__init__ zero_params 3 64 4 2 1 1 1 false true "batch" true = Ok b
    /\ runs (EncoderBlock.forward b 0%nat) [zeros (Shape 1 3 8 8)] r' st'
    /\ st' !! r' = Some y
    /\ size y = Shape 1 64 (8 / 2) (8 / 2)
    /\ encoder_pipeline true (EncoderBlock.conv b)
         (if true then EncoderBlock.norm b else None) (zeros (Shape 1 3 8 8)) = Ok y
    /\ st' !! 0%nat
       = Some (if true then pointwise (nn.LeakyReLU.f (2 # 10)) (zeros (Shape 1 3 8 8))
               else zeros (Shape 1 3 8 8)).
Proof.
  apply (EncoderBlock_halves zero_params 3 64 1 false true true "batch" 1 8 8
           [zeros (Shape 1 3 8 8)] 0%nat (zeros (Shape 1 3 8 8)));
    try reflexivity; try lia.
  intros _. vm_compute. intros E. discriminate E.
Defined.

(** C7 as stated fails in two ways.  The default block,
    [EncoderBlock(3, 64)], raises on a single 2x2 image: its 1x1 result
    leaves the batch statistics one value per channel.  And with a dilation
    other than 1 the extent is not halved: [EncoderBlock(3, 64, dilation=2)]
    maps an 8x8 image to 2x2, not 4x4. *)
Lemma EncoderBlock_halving_counterexample :
  (exists b,
      EncoderBlock.__init__ zero_params 3 64 4 2 1 1 1 false true "batch" true = Ok b
      /\ call1 (EncoderBlock.forward b) (zeros (Shape 1 3 2 2))
         = Raise (ValueError "Expected more than 1 value per channel when training"))
  /\ (exists b y,
      EncoderBlock.__init__ zero_params 3 64 4 2 1 2 1 false true "batch" true = Ok b
      /\ call1 (EncoderBlock.forward b) (zeros (Shape 1 3 8 8)) = Ok y
      /\ size y = Shape 1 64 2 2
      /\ size y <> Shape 1 64 (8 / 2) (8 / 2)).
Proof.
  split.
  - eexists. split; reflexivity.
  - eexists. eexists. split; [reflexivity|].
    split; [reflexivity|]. split; [reflexivity | discriminate].
Qed.

(** C8.  A [DecoderBlock] with kernel 4, stride 2 and padding 1, whose
    arguments the library accepts, called on a tensor of shape
    (N, Cin, H, W) returns a new tensor of shape (N, Cout, H*2, W*2).  That
    tensor is the pipeline's: plain rectification when activation is on, then
    the transposed convolution, then the normalisation when it is on, then
    dropout exactly when the dropout probability is not zero.  The argument
    object is left as it was. *)
Theorem DecoderBlock_doubles
    (theta : params) (Cin Cout : Z) (bias do_norm act : bool) (norm : string) (q : Q)
    (N H W : Z) (st : store) (r : handle) (x : tensor) :
  conv_accepts Cin Cout 4 1 = true ->
  dropout_accepts q = true ->
  (do_norm = true -> recognized norm = true) ->
  st !! r = Some x ->
  size x = Shape N Cin H W ->
  0 < H -> 0 < W ->
  exists b r' st' y,
    DecoderBlock.__init__ theta Cin Cout 4 2 1 bias do_norm norm act q = Ok b
    /\ runs (DecoderBlock.forward b r) st r' st'
    /\ st' !! r' = Some y
    /\ size y = Shape N Cout (H * 2) (W * 2)
    /\ decoder_pipeline act (DecoderBlock.convT b)
         (if do_norm then DecoderBlock.norm b else None)
         (if negb (Qeq_bool q 0) then Some (DecoderBlock.drop b) else None) x = Ok y
    /\ st' !! r = Some x.
Proof.
  intros Hc Hq Hrec Hx Hsz HH HW.
  set (b := built_decoder theta Cin Cout 4 2 1 bias do_norm norm act q).
  set (s := Shape N Cout (H * 2) (W * 2)).
  assert (Hs : nn.ConvTranspose2d.out_shape (DecoderBlock.convT b) (size x) = Ok s).
  { rewrite Hsz. apply ConvTranspose2d_doubles; assumption. }
  assert (Hn : dec_norm_ok b s).
  { unfold dec_norm_ok, b. cbn [DecoderBlock.do_norm DecoderBlock.norm].
    destruct do_norm; [|exact I].
    apply make_norm_shape; [auto | apply norm_fed_doubled]. }
  exists b, (dec_handle b x s st), (dec_store b x s st), (dec_result b x s).
  split; [apply DecoderBlock_init_ok; assumption|].
  split; [apply runs_DecoderBlock; [exact Hx | reflexivity | exact Hs | exact Hn]|].
  split; [apply lookup_dec_result|].
  split; [apply size_dec_result|].
  split.
  - apply (decoder_pipeline_result b x s); [exact Hs | exact Hn].
  - apply (lookup_dec_arg b r x x s st Hx).
Qed.

(** A dropout decoder stage of the generator on a 2x2 activation. *)
Lemma DecoderBlock_doubles_witness :
  exists b r' st' y,
    DecoderBlock.__init__ zero_params 1024 512 4 2 1 false true "batch" true (1 # 2) = Ok b
    /\ runs (DecoderBlock.forward b 0%nat) [zeros (Shape 1 1024 2 2)] r' st'
    /\ st' !! r' = Some y
    /\ size y = Shape 1 512 (2 * 2) (2 * 2)
    /\ decoder_pipeline true (DecoderBlock.convT b)
         (if true then DecoderBlock.norm b else None)
         (if negb (Qeq_bool (1 # 2) 0) then Some (DecoderBlock.drop b) else None)
         (zeros (Shape 1 1024 2 2)) = Ok y
    /\ st' !! 0%nat = Some (zeros (Shape 1 1024 2 2)).
Proof.
  apply (DecoderBlock_doubles zero_params 1024 512 false true true "batch" (1 # 2)
           1 2 2 [zeros (Shape 1 1024 2 2)] 0%nat (zeros (Shape 1 1024 2 2)));
    try reflexivity; lia.
Defined.

(** ** The discriminators *)

(** One step of a sequence of blocks. *)
Ltac seq_block :=
  match goal with
  | |- fetch (bind (EncoderBlock.forward ?b ?r) ?k) ?st = _ =>
      let H := fresh "H" in
      let y := fresh "y" in
      let e := fresh "e" in
      let r' := fresh "r" in
      let st' := fresh "st" in
      let Hy := fresh "Hy" in
      match goal with
      | Hx : st !! r = Some ?x |- _ =>
          pose proof (fetch_bind_block b k st r x ltac:(auto) Hx) as H;
          destruct (block_pipeline b x) as [y|e]; cbn [result_bind];
          [destruct H as (r' & st' & Hy & ->) | exact H]
      end
  end.

(** The five blocks of the discriminator in sequence, for every pair of
    inputs, errors included. *)
Lemma Discriminator_refines D x ref :
  Forall enc_wf (Discriminator_blocks D) ->
  call2 (Discriminator.forward D) x ref
  = discriminator_pipeline (Discriminator_blocks D) x ref.
Proof.
  intros Hwf. unfold Discriminator_blocks in *.
  repeat match goal with H : Forall _ (_ :: _) |- _ => inversion_clear H end.
  unfold call2, Discriminator.forward, discriminator_pipeline, chain.
  cbn [fold_left].
  pose proof (fetch_bind_cat
                (fun c => (d1 <- EncoderBlock.forward (Discriminator.disc1 D) c ;;
                           d2 <- EncoderBlock.forward (Discriminator.disc2 D) d1 ;;
                           d3 <- EncoderBlock.forward (Discriminator.disc3 D) d2 ;;
                           d4 <- EncoderBlock.forward (Discriminator.disc4 D) d3 ;;
                           d5 <- EncoderBlock.forward (Discriminator.disc5 D) d4 ;;
                           final <- nn.Sigmoid.forward d5 ;; ret final)%store)
                [x; ref] 0%nat 1%nat x ref eq_refl eq_refl) as Hc.
  destruct (torch.cat2 x ref) as [c|e]; cbn [result_bind]; [rewrite Hc | exact Hc].
  clear Hc.
  assert (Hx : ([x; ref] ++ [c]) !! length [x; ref] = Some c) by reflexivity.
  do 5 seq_block.
  apply fetch_Sigmoid. assumption.
Qed.

Lemma Discriminator286_refines D x ref :
  Forall enc_wf (Discriminator286_blocks D) ->
  call2 (Discriminator286.forward D) x ref
  = discriminator_pipeline (Discriminator286_blocks D) x ref.
Proof.
  intros Hwf. unfold Discriminator286_blocks in *.
  repeat match goal with H : Forall _ (_ :: _) |- _ => inversion_clear H end.
  unfold call2, Discriminator286.forward, discriminator_pipeline, chain.
  cbn [fold_left].
  pose proof (fetch_bind_cat
                (fun c => (d1 <- EncoderBlock.forward (Discriminator286.disc1 D) c ;;
                           d2 <- EncoderBlock.forward (Discriminator286.disc2 D) d1 ;;
                           d3 <- EncoderBlock.forward (Discriminator286.disc3 D) d2 ;;
                           d4 <- EncoderBlock.forward (Discriminator286.disc4 D) d3 ;;
                           d5 <- EncoderBlock.forward (Discriminator286.disc5 D) d4 ;;
                           d6 <- EncoderBlock.forward (Discriminator286.disc6 D) d5 ;;
                           d7 <- EncoderBlock.forward (Discriminator286.disc7 D) d6 ;;
                           final <- nn.Sigmoid.forward d7 ;; ret final)%store)
                [x; ref] 0%nat 1%nat x ref eq_refl eq_refl) as Hc.
  destruct (torch.cat2 x ref) as [c|e]; cbn [result_bind]; [rewrite Hc | exact Hc].
  clear Hc.
  assert (Hx : ([x; ref] ++ [c]) !! length [x; ref] = Some c) by reflexivity.
  do 7 seq_block.
  apply fetch_Sigmoid. assumption.
Qed.

Ltac shape_goal := lazy; reflexivity.

Ltac norm_goal :=
  cbv beta iota delta [enc_norm_ok dec_norm_ok EncoderBlock.do_norm EncoderBlock.norm
                       DecoderBlock.do_norm DecoderBlock.norm];
  first [exact I | lazy; reflexivity].

(** One block of a pure chain whose input shape is known. *)
Ltac chain_block :=
  cbn [result_bind];
  erewrite block_pipeline_result; [ | reflexivity | shape_goal | norm_goal ].

Lemma Discriminator_init_ok theta i o bias norm :
  0 < i -> 0 < o -> recognized norm = true ->
  Discriminator.__init__ theta i o bias norm = Ok (built_discriminator theta i o bias norm).
Proof.
  intros Hi Ho Hn. unfold Discriminator.__init__.
  rewrite !EncoderBlock_init_ok
    by (first [apply conv_accepts_plain; lia | intros _; exact Hn | discriminate]).
  reflexivity.
Qed.

Lemma Discriminator286_init_ok theta i o bias norm :
  0 < i -> 0 < o -> recognized norm = true ->
  Discriminator286.__init__ theta i o bias norm
  = Ok (built_discriminator286 theta i o bias norm).
Proof.
  intros Hi Ho Hn. unfold Discriminator286.__init__.
  rewrite !EncoderBlock_init_ok
    by (first [apply conv_accepts_plain; lia | intros _; exact Hn | discriminate]).
  reflexivity.
Qed.

Lemma built_discriminator_wf theta i o bias norm :
  Forall enc_wf (Discriminator_blocks (built_discriminator theta i o bias norm)).
Proof.
  repeat (apply List.Forall_cons; [apply built_enc_wf|]). apply List.Forall_nil.
Qed.

Lemma built_discriminator286_wf theta i o bias norm :
  Forall enc_wf (Discriminator286_blocks (built_discriminator286 theta i o bias norm)).
Proof.
  repeat (apply List.Forall_cons; [apply built_enc_wf|]). apply List.Forall_nil.
Qed.

(** C3, as the code has it.  A [Discriminator] is five [EncoderBlock]s,
    applied in order to the channel concatenation of its two inputs and
    followed by a sigmoid, with channels in*2 -> 64 -> 128 -> 256 -> 512 ->
    out.  The first three blocks have stride 2 and the last two stride 1
    (which is what gives the 70x70 receptive field); the first block has
    neither normalisation nor activation, the last has no normalisation. *)
Theorem Discriminator_composition
    (theta : params) (in_channels out_channels : Z) (bias : bool) (norm : string) :
  0 < in_channels -> 0 < out_channels -> recognized norm = true ->
  exists D,
    Discriminator.__init__ theta in_channels out_channels bias norm = Ok D
    /\ map channels (Discriminator_blocks D)
       = [(in_channels * 2, 64); (64, 128); (128, 256); (256, 512);
          (512, out_channels)]
    /\ map block_stride (Discriminator_blocks D) = [2; 2; 2; 1; 1]
    /\ map EncoderBlock.do_norm (Discriminator_blocks D)
       = [false; true; true; true; false]
    /\ map EncoderBlock.do_activation (Discriminator_blocks D)
       = [false; true; true; true; true]
    /\ receptive_field (Discriminator_blocks D) = 70
    /\ forall x ref,
        call2 (Discriminator.forward D) x ref
        = discriminator_pipeline (Discriminator_blocks D) x ref.
Proof.
  intros Hi Ho Hn.
  exists (built_discriminator theta in_channels out_channels bias norm).
  split; [apply Discriminator_init_ok; assumption|].
  repeat (split; [reflexivity|]).
  intros x ref. apply Discriminator_refines. apply built_discriminator_wf.
Qed.

(** The default discriminator. *)
Lemma Discriminator_composition_witness :
  exists D,
    Discriminator.__init__ zero_params 3 1 false "batch" = Ok D
    /\ map channels (Discriminator_blocks D)
       = [(3 * 2, 64); (64, 128); (128, 256); (256, 512); (512, 1)]
    /\ map block_stride (Discriminator_blocks D) = [2; 2; 2; 1; 1]
    /\ map EncoderBlock.do_norm (Discriminator_blocks D)
       = [false; true; true; true; false]
    /\ map EncoderBlock.do_activation (Discriminator_blocks D)
       = [false; true; true; true; true]
    /\ receptive_field (Discriminator_blocks D) = 70
    /\ forall x ref,
        call2 (Discriminator.forward D) x ref
        = discriminator_pipeline (Discriminator_blocks D) x ref.
Proof.
  apply (Discriminator_composition zero_params 3 1 false "batch"); [lia | lia | reflexivity].
Defined.

(** C3 as stated fails: the third block of the default discriminator is
    strided too, so the strided blocks are not exactly the first two. *)
Lemma Discriminator_third_block_strided :
  exists D,
    Discriminator.__init__ zero_params 3 1 false "batch" = Ok D
    /\ block_stride (Discriminator.disc3 D) = 2
    /\ map block_stride (Discriminator_blocks D) <> [2; 2; 1; 1; 1].
Proof.
  eexists. split; [reflexivity|]. split; [reflexivity | discriminate].
Qed.

(** C2, as the code has it.  A [Discriminator286] is seven [EncoderBlock]s,
    applied in order to the channel concatenation of its two inputs and
    followed by a sigmoid, with channels in*2 -> 64 -> 128 -> 256 -> 512 ->
    512 -> 512 -> out.  The first five blocks have stride 2 and only the
    final two have stride 1 (which is what gives the 286x286 receptive
    field). *)
Theorem Discriminator286_composition
    (theta : params) (in_channels out_channels : Z) (bias : bool) (norm : string) :
  0 < in_channels -> 0 < out_channels -> recognized norm = true ->
  exists D,
    Discriminator286.__init__ theta in_channels out_channels bias norm = Ok D
    /\ map channels (Discriminator286_blocks D)
       = [(in_channels * 2, 64); (64, 128); (128, 256); (256, 512); (512, 512);
          (512, 512); (512, out_channels)]
    /\ map block_stride (Discriminator286_blocks D) = [2; 2; 2; 2; 2; 1; 1]
    /\ receptive_field (Discriminator286_blocks D) = 286
    /\ forall x ref,
        call2 (Discriminator286.forward D) x ref
        = discriminator_pipeline (Discriminator286_blocks D) x ref.
Proof.
  intros Hi Ho Hn.
  exists (built_discriminator286 theta in_channels out_channels bias norm).
  split; [apply Discriminator286_init_ok; assumption|].
  repeat (split; [reflexivity|]).
  intros x ref. apply Discriminator286_refines. apply built_discriminator286_wf.
Qed.

(** The default 286x286 discriminator. *)
Lemma Discriminator286_composition_witness :
  exists D,
    Discriminator286.__init__ zero_params 3 1 false "batch" = Ok D
    /\ map channels (Discriminator286_blocks D)
       = [(3 * 2, 64); (64, 128); (128, 256); (256, 512); (512, 512);
          (512, 512); (512, 1)]
    /\ map block_stride (Discriminator286_blocks D) = [2; 2; 2; 2; 2; 1; 1]
    /\ receptive_field (Discriminator286_blocks D) = 286
    /\ forall x ref,
        call2 (Discriminator286.forward D) x ref
        = discriminator_pipeline (Discriminator286_blocks D) x ref.
Proof.
  apply (Discriminator286_composition zero_params 3 1 false "batch");
    [lia | lia | reflexivity].
Defined.

(** C2 as stated fails: the fifth block of the default 286x286
    discriminator has stride 2, so only two final blocks have stride 1. *)
Lemma Discriminator286_fifth_block_strided :
  exists D,
    Discriminator286.__init__ zero_params 3 1 false "batch" = Ok D
    /\ block_stride (Discriminator286.disc5 D) = 2
    /\ map block_stride (Discriminator286_blocks D) <> [2; 2; 2; 2; 1; 1; 1].
Proof.
  eexists. split; [reflexivity|]. split; [reflexivity | discriminate].
Qed.

(** C4.  The [Discriminator] for three-channel images called on two tensors
    of shape (1, 3, 256, 256) returns a tensor of shape
    (1, out_channels, 30, 30), that is (1, 1, 30, 30) at the default
    [out_channels = 1], with every entry in [0, 1].  Its first block reads
    the concatenation of the two inputs along the channel axis, candidate
    first: channels 0..2 are the candidate, channels 3..5 the reference. *)
Theorem Discriminator_forward_256
    (theta : params) (out_channels : Z) (bias : bool) (norm : string)
    (x ref : tensor) :
  0 < out_channels -> recognized norm = true ->
  size x = Shape 1 3 256 256 -> size ref = Shape 1 3 256 256 ->
  exists D c d y,
    Discriminator.__init__ theta 3 out_channels bias norm = Ok D
    /\ call2 (Discriminator.forward D) x ref = Ok y
    /\ size y = Shape 1 out_channels 30 30
    /\ in_range 0 1 y
    /\ torch.cat2 x ref = Ok c
    /\ size c = Shape 1 6 256 256
    /\ tensor_eq (narrow_channels c 0 3) x
    /\ tensor_eq (narrow_channels c 3 3) ref
    /\ chain (Discriminator_blocks D) c = Ok d
    /\ y = nn.Sigmoid.apply d.
Proof.
  intros Ho Hn Hx Hr.
  destruct x as [sx dx], ref as [sr dr]. cbn [size] in Hx, Hr. subst sx sr.
  set (x := Tensor (Shape 1 3 256 256) dx).
  set (ref := Tensor (Shape 1 3 256 256) dr).
  set (c := Tensor (Shape 1 6 256 256) (torch.cat_data x ref)).
  assert (Hc : torch.cat2 x ref = Ok c) by reflexivity.
  destruct (cat2_tensor_eq _ _ _ Hc ltac:(cbn; lia)) as [Hs1 Hs2].
  assert (Hchain : exists d,
             chain (Discriminator_blocks (built_discriminator theta 3 out_channels bias norm)) c
             = Ok d /\ size d = Shape 1 out_channels 30 30).
  { unfold chain, Discriminator_blocks, built_discriminator.
    cbn [fold_left Discriminator.disc1 Discriminator.disc2 Discriminator.disc3
         Discriminator.disc4 Discriminator.disc5].
    destruct (recognized_cases norm Hn) as [-> | ->];
      do 5 chain_block; eexists; (split; [reflexivity | lazy; reflexivity]). }
  destruct Hchain as (d & Hd & Hsz).
  exists (built_discriminator theta 3 out_channels bias norm), c, d, (nn.Sigmoid.apply d).
  split; [apply Discriminator_init_ok; [lia | assumption | assumption]|].
  split.
  { rewrite Discriminator_refines by apply built_discriminator_wf.
    unfold discriminator_pipeline. rewrite Hc. cbn [result_bind].
    rewrite Hd. reflexivity. }
  split; [exact Hsz|].
  split; [apply Sigmoid_in_range|].
  repeat (split; [assumption || reflexivity|]). reflexivity.
Qed.

(** Two all-zero images through the default discriminator. *)
Lemma Discriminator_forward_256_witness :
  exists D c d y,
    Discriminator.__init__ zero_params 3 1 false "batch" = Ok D
    /\ call2 (Discriminator.forward D) (zeros (Shape 1 3 256 256))
             (zeros (Shape 1 3 256 256)) = Ok y
    /\ size y = Shape 1 1 30 30
    /\ in_range 0 1 y
    /\ torch.cat2 (zeros (Shape 1 3 256 256)) (zeros (Shape 1 3 256 256)) = Ok c
    /\ size c = Shape 1 6 256 256
    /\ tensor_eq (narrow_channels c 0 3) (zeros (Shape 1 3 256 256))
    /\ tensor_eq (narrow_channels c 3 3) (zeros (Shape 1 3 256 256))
    /\ chain (Discriminator_blocks D) c = Ok d
    /\ y = nn.Sigmoid.apply d.
Proof.
  apply (Discriminator_forward_256 zero_params 1 false "batch"
           (zeros (Shape 1 3 256 256)) (zeros (Shape 1 3 256 256)));
    [lia | reflexivity | reflexivity | reflexivity].
Defined.

(** The 286x286 discriminator on two (1, 3, 256, 256) tensors. *)
Lemma built_discriminator286_256 theta out_channels bias norm x ref :
  recognized norm = true ->
  size x = Shape 1 3 256 256 -> size ref = Shape 1 3 256 256 ->
  exists d,
    call2 (Discriminator286.forward (built_discriminator286 theta 3 out_channels bias norm))
          x ref = Ok (nn.Sigmoid.apply d)
    /\ size d = Shape 1 out_channels 6 6.
Proof.
  intros Hn Hx Hr.
  destruct x as [sx dx], ref as [sr dr]. cbn [size] in Hx, Hr. subst sx sr.
  set (x := Tensor (Shape 1 3 256 256) dx).
  set (ref := Tensor (Shape 1 3 256 256) dr).
  set (c := Tensor (Shape 1 6 256 256) (torch.cat_data x ref)).
  assert (Hc : torch.cat2 x ref = Ok c) by reflexivity.
  assert (Hchain : exists d,
             chain (Discriminator286_blocks
                      (built_discriminator286 theta 3 out_channels bias norm)) c
             = Ok d /\ size d = Shape 1 out_channels 6 6).
  { unfold chain, Discriminator286_blocks, built_discriminator286.
    cbn [fold_left Discriminator286.disc1 Discriminator286.disc2
         Discriminator286.disc3 Discriminator286.disc4 Discriminator286.disc5
         Discriminator286.disc6 Discriminator286.disc7].
    destruct (recognized_cases norm Hn) as [-> | ->];
      do 7 chain_block; eexists; (split; [reflexivity | lazy; reflexivity]). }
  destruct Hchain as (d & Hd & Hsz).
  exists d. split; [|exact Hsz].
  rewrite Discriminator286_refines by apply built_discriminator286_wf.
  unfold discriminator_pipeline. rewrite Hc. cbn [result_bind].
  rewrite Hd. reflexivity.
Qed.

(** C1, as the code has it.  The [Discriminator286] for three-channel images
    called on two tensors of shape (1, 3, 256, 256) returns a tensor of
    shape (1, out_channels, 6, 6), that is (1, 1, 6, 6) at the default
    [out_channels = 1], with every entry in [0, 1]: five halvings take 256
    to 8, and the two stride-1 blocks take 8 to 7 and then to 6. *)
Theorem Discriminator286_forward_256
    (theta : params) (out_channels : Z) (bias : bool) (norm : string)
    (x ref : tensor) :
  0 < out_channels -> recognized norm = true ->
  size x = Shape 1 3 256 256 -> size ref = Shape 1 3 256 256 ->
  exists D y,
    Discriminator286.__init__ theta 3 out_channels bias norm = Ok D
    /\ call2 (Discriminator286.forward D) x ref = Ok y
    /\ size y = Shape 1 out_channels 6 6
    /\ in_range 0 1 y.
Proof.
  intros Ho Hn Hx Hr.
  destruct (built_discriminator286_256 theta out_channels bias norm x ref Hn Hx Hr)
    as (d & Hcall & Hsz).
  exists (built_discriminator286 theta 3 out_channels bias norm), (nn.Sigmoid.apply d).
  split; [apply Discriminator286_init_ok; [lia | assumption | assumption]|].
  split; [exact Hcall|].
  split; [exact Hsz | apply Sigmoid_in_range].
Qed.

(** Two all-zero images through the default 286x286 discriminator. *)
Lemma Discriminator286_forward_256_witness :
  exists D y,
    Discriminator286.__init__ zero_params 3 1 false "batch" = Ok D
    /\ call2 (Discriminator286.forward D) (zeros (Shape 1 3 256 256))
             (zeros (Shape 1 3 256 256)) = Ok y
    /\ size y = Shape 1 1 6 6
    /\ in_range 0 1 y.
Proof.
  apply (Discriminator286_forward_256 zero_params 1 false "batch"
           (zeros (Shape 1 3 256 256)) (zeros (Shape 1 3 256 256)));
    [lia | reflexivity | reflexivity | reflexivity].
Defined.

(** C1 as stated fails: on two (1, 3, 256, 256) images the default
    [Discriminator286] returns a 6x6 map, not a 14x14 one. *)
Lemma Discriminator286_output_not_14 :
  exists D y,
    Discriminator286.__init__ zero_params 3 1 false "batch" = Ok D
    /\ call2 (Discriminator286.forward D) (zeros (Shape 1 3 256 256))
             (zeros (Shape 1 3 256 256)) = Ok y
    /\ size y = Shape 1 1 6 6
    /\ size y <> Shape 1 1 14 14.
Proof.
  eexists. eexists. split; [vm_compute; reflexivity|].
  split; [vm_compute; reflexivity|].
  split; [reflexivity | discriminate].
Qed.

(** ** The generator on a 256x256 image *)

Lemma Generator_init_ok theta i o bias q norm :
  0 < i -> 0 < o -> dropout_accepts q = true -> recognized norm = true ->
  Generator.__init__ theta i o bias q norm = Ok (built_generator theta i o bias q norm).
Proof.
  intros Hi Ho Hq Hn. unfold Generator.__init__.
  rewrite !EncoderBlock_init_ok
    by (first [apply conv_accepts_plain; lia | intros _; exact Hn | discriminate]).
  cbn [result_bind].
  rewrite !DecoderBlock_init_ok
    by (first [apply conv_accepts_plain; lia | exact Hq | reflexivity
              | intros _; exact Hn | discriminate]).
  reflexivity.
Qed.

Lemma Generator_init_inv theta i o bias q norm G :
  Generator.__init__ theta i o bias q norm = Ok G ->
  G = built_generator theta i o bias q norm.
Proof.
  unfold Generator.__init__, built_generator.
  repeat match goal with
         | |- context [EncoderBlock.__init__ ?t ?a ?b ?c ?d ?e ?f ?g ?h ?i ?j ?k] =>
             let H := fresh "H" in
             destruct (EncoderBlock.__init__ t a b c d e f g h i j k) eqn:H;
             cbn [result_bind]; [apply EncoderBlock_init_inv in H; subst | discriminate]
         | |- context [DecoderBlock.__init__ ?t ?a ?b ?c ?d ?e ?f ?g ?h ?i ?j] =>
             let H := fresh "H" in
             destruct (DecoderBlock.__init__ t a b c d e f g h i j) eqn:H;
             cbn [result_bind]; [apply DecoderBlock_init_inv in H; subst | discriminate]
         end.
  intros H. inversion H. reflexivity.
Qed.

Lemma Generator_init_recognized theta i o bias q norm G :
  Generator.__init__ theta i o bias q norm = Ok G -> recognized norm = true.
Proof.
  intros H. destruct (recognized norm) eqn:Hn; [reflexivity | exfalso].
  unfold Generator.__init__ in H.
  destruct (EncoderBlock.__init__ (sub theta "encoder1") _ _ _ _ _ _ _ _ _ _ _);
    cbn [result_bind] in H; [|discriminate].
  destruct (EncoderBlock.__init__ (sub theta "encoder2") _ _ _ _ _ _ _ _ _ _ _) eqn:E2;
    cbn [result_bind] in H; [|discriminate].
  destruct (EncoderBlock_init_raises (sub theta "encoder2") 64 128 4 2 1 1 1
              bias norm true Hn) as (e & He).
  rewrite He in E2. discriminate.
Qed.

Ltac tidy_enc :=
  unfold enc_handle, enc_store;
  cbn [EncoderBlock.do_norm EncoderBlock.do_activation built_encoder
       app length insert list_insert].

Ltac tidy_dec E :=
  unfold dec_handle, dec_store, dec_news, dec_drops;
  cbn [DecoderBlock.dropout_prob DecoderBlock.do_norm DecoderBlock.do_activation
       built_decoder];
  rewrite ?E; change (Qeq_bool 0 0) with true;
  cbn [negb orb andb app length Nat.pred Nat.add].

Ltac fed_goal Hn :=
  cbv beta iota delta [enc_norm_ok dec_norm_ok EncoderBlock.do_norm EncoderBlock.norm
                       DecoderBlock.do_norm DecoderBlock.norm
                       built_encoder built_decoder];
  first
    [ exact I
    | apply make_norm_shape;
      [ exact Hn
      | unfold norm_fed; destruct (String.eqb _ _); lazy; discriminate ] ].

(** Only the shape of a block's result matters for what runs next. *)
Ltac forget_result :=
  match goal with
  | |- context [enc_result ?b ?x ?s] =>
      let H := fresh "Hsz" in
      let n := fresh "t" in
      pose proof (size_enc_result b x s) as H;
      set (n := enc_result b x s) in *; clearbody n
  | |- context [dec_result ?b ?x ?s] =>
      let H := fresh "Hsz" in
      let n := fresh "t" in
      pose proof (size_dec_result b x s) as H;
      set (n := dec_result b x s) in *; clearbody n
  end.

Ltac size_goal :=
  rewrite ?size_enc_in; cbn [size];
  repeat match goal with
         | H : size ?t = _ |- context [size ?t] => rewrite H
         end;
  lazy; reflexivity.

Ltac run_encoder Hn :=
  apply after_bind;
  eapply after_EncoderBlock;
  [reflexivity | reflexivity | size_goal | fed_goal Hn | tidy_enc; forget_result].

Ltac run_decoder Hn E :=
  apply after_bind;
  eapply after_DecoderBlock;
  [reflexivity | reflexivity | size_goal | fed_goal Hn | tidy_dec E; forget_result].

Ltac run_cat :=
  apply after_bind;
  eapply after_cat; [reflexivity | reflexivity | size_goal | cbn [app length]].

Lemma built_generator_runs_256 theta out_channels bias q norm x :
  recognized norm = true ->
  size x = Shape 1 3 256 256 ->
  after (Generator.body (built_generator theta 3 out_channels bias q norm) 0%nat) [x]
    (fun l st' =>
       exists d, st' !! Generator.final l = Some (nn.Tanh.apply d)
                 /\ size d = Shape 1 out_channels 256 256).
Proof.
  intros Hn Hx. destruct x as [sx dx]. cbn [size] in Hx. subst sx.
  unfold Generator.body, built_generator.
  cbn [Generator.encoder1 Generator.encoder2 Generator.encoder3 Generator.encoder4
       Generator.encoder5 Generator.encoder6 Generator.encoder7 Generator.encoder8
       Generator.decoder1 Generator.decoder2 Generator.decoder3 Generator.decoder4
       Generator.decoder5 Generator.decoder6 Generator.decoder7 Generator.decoder8].
  destruct (Qeq_bool q 0) eqn:E.
  - do 8 run_encoder Hn.
    do 7 (run_decoder Hn E; run_cat).
    run_decoder Hn E.
    apply after_bind. eapply after_Tanh; [reflexivity|]. cbn [app length].
    apply after_ret. eexists. split; [reflexivity | assumption].
  - do 8 run_encoder Hn.
    do 7 (run_decoder Hn E; run_cat).
    run_decoder Hn E.
    apply after_bind. eapply after_Tanh; [reflexivity|]. cbn [app length].
    apply after_ret. eexists. split; [reflexivity | assumption].
Qed.

(** C5.  The [Generator] for three-channel images called on a tensor of
    shape (1, 3, 256, 256) returns a tensor of shape
    (1, out_channels, 256, 256): the spatial shape of the input and
    [out_channels] channels, (1, 3, 256, 256) at the default.  The result is
    the hyperbolic tangent of the last decoder's output, so every entry
    lies in [-1, 1]. *)
Theorem Generator_forward_256
    (theta : params) (out_channels : Z) (bias : bool) (q : Q) (norm : string)
    (x : tensor) :
  0 < out_channels -> dropout_accepts q = true -> recognized norm = true ->
  size x = Shape 1 3 256 256 ->
  exists G d y,
    Generator.__init__ theta 3 out_channels bias q norm = Ok G
    /\ call1 (Generator.forward G) x = Ok y
    /\ size y = Shape 1 out_channels 256 256
    /\ y = nn.Tanh.apply d
    /\ in_range (-1) 1 y.
Proof.
  intros Ho Hq Hn Hx.
  destruct (built_generator_runs_256 theta out_channels bias q norm x Hn Hx)
    as (l & st' & Hrun & d & Hfinal & Hsz).
  exists (built_generator theta 3 out_channels bias q norm), d, (nn.Tanh.apply d).
  split; [apply Generator_init_ok; [lia | assumption | assumption | assumption]|].
  split.
  { unfold call1, Generator.forward.
    rewrite (fetch_bind_runs _ _ _ _ _ Hrun).
    unfold fetch, ret. rewrite Hfinal. reflexivity. }
  split; [exact Hsz|]. split; [reflexivity | apply Tanh_in_range].
Qed.

(** An all-zero image through the default generator. *)
Lemma Generator_forward_256_witness :
  exists G d y,
    Generator.__init__ zero_params 3 3 false (1 # 2) "batch" = Ok G
    /\ call1 (Generator.forward G) (zeros (Shape 1 3 256 256)) = Ok y
    /\ size y = Shape 1 3 256 256
    /\ y = nn.Tanh.apply d
    /\ in_range (-1) 1 y.
Proof.
  apply (Generator_forward_256 zero_params 3 false (1 # 2) "batch"
           (zeros (Shape 1 3 256 256)));
    [lia | reflexivity | reflexivity | reflexivity].
Defined.

(** ** The generator's wiring *)

Lemma skip_joined_intro (st : store) dec input joined skip v t e j :
  st !! input = Some v ->
  nn.ConvTranspose2d.out_shape (DecoderBlock.convT dec) (size v) = Ok t ->
  dec_norm_ok dec t ->
  st !! skip = Some e ->
  st !! joined = Some j ->
  torch.cat2 (dec_result dec v t) e = Ok j ->
  0 <= nn.ConvTranspose2d.out_channels (DecoderBlock.convT dec) ->
  skip_joined st dec input joined skip.
Proof.
  intros Hv Ht Hn He Hj Hc Ho.
  assert (Hd : 0 <= dimC (size (dec_result dec v t))).
  { rewrite size_dec_result, (ConvTranspose2d_out_channels _ _ _ Ht). exact Ho. }
  exists v, (dec_result dec v t), e, j.
  split; [exact Hv|].
  split; [apply dec_pipeline_result; assumption|].
  split; [exact He|]. split; [exact Hj|]. split; [exact Hc|].
  destruct (cat2_slices _ _ _ Hc Hd) as (Hsz & _).
  split; [rewrite Hsz; reflexivity|].
  apply cat2_tensor_eq; assumption.
Qed.

Ltac tidy_enc_in H :=
  unfold enc_handle, enc_store in H;
  cbn [EncoderBlock.do_norm EncoderBlock.do_activation built_encoder
       app length insert list_insert] in H.

Ltac tidy_dec_in E H :=
  unfold dec_handle, dec_store, dec_news, dec_drops in H;
  cbn [DecoderBlock.dropout_prob DecoderBlock.do_norm DecoderBlock.do_activation
       built_decoder] in H;
  rewrite ?E in H; change (Qeq_bool 0 0) with true in H;
  cbn [negb orb andb app length Nat.pred Nat.add] in H.

Ltac inv_encoder H :=
  let H1 := fresh "H1" in
  let s := fresh "s" in
  let Hs := fresh "Hs" in
  let Hn := fresh "Hn" in
  apply runs_inv_bind in H; destruct H as (? & ? & H1 & H);
  eapply EncoderBlock_runs_inv in H1; [ | apply built_enc_wf | reflexivity ];
  destruct H1 as (s & Hs & Hn & -> & ->); tidy_enc_in H.

Ltac inv_decoder E H :=
  let H1 := fresh "H1" in
  let s := fresh "t" in
  let Hs := fresh "Ht" in
  let Hn := fresh "Hm" in
  apply runs_inv_bind in H; destruct H as (? & ? & H1 & H);
  eapply DecoderBlock_runs_inv in H1; [ | apply built_dec_wf | reflexivity ];
  destruct H1 as (s & Hs & Hn & -> & ->); tidy_dec_in E H.

Ltac inv_cat H :=
  let H1 := fresh "H1" in
  let c := fresh "c" in
  let Hc := fresh "Hc" in
  apply runs_inv_bind in H; destruct H as (? & ? & H1 & H);
  apply cat_runs_inv with (1 := eq_refl) (2 := eq_refl) in H1;
  destruct H1 as (c & Hc & -> & ->); cbn [app length] in H.

Ltac skip_goal :=
  eapply skip_joined_intro;
  [ reflexivity | eassumption | eassumption | reflexivity | reflexivity
  | eassumption | cbn; lia ].

(** C6.  On a (1, 3, 256, 256) input [Generator.forward] runs to its end,
    and whenever it does, on any input, the store it leaves shows the wiring
    of the U-Net.  The eight encoder blocks are applied one after the other.
    For k = 1..7 the object [decode_k] is the concatenation along the
    channel axis of the output of decoder block k (its leading channels) and
    the object [encode_(8-k)] (the remaining channels), in that order;
    decoder block 1 reads [encode8] itself, decoder block k+1 reads
    [decode_k], and decoder block 8 is followed by the tanh.  The objects
    [encode1] .. [encode7] hold, by then, the encoder outputs as rectified in
    place by the encoder block that follows ([LeakyReLU(0.2, True)]);
    [encode8] holds the eighth output as it was returned. *)
Theorem Generator_skip_wiring
    (theta : params) (in_channels out_channels : Z) (bias : bool) (q : Q)
    (norm : string) (G : Generator.t) (x : tensor) :
  Generator.__init__ theta in_channels out_channels bias q norm = Ok G ->
  (in_channels = 3 -> size x = Shape 1 3 256 256 ->
   exists l st', runs (Generator.body G 0%nat) [x] l st')
  /\ forall (l : Generator.locals) (st' : store),
      runs (Generator.body G 0%nat) [x] l st' ->
      (exists R1 R2 R3 R4 R5 R6 R7 R8,
          encoder_outputs
            [Generator.encoder1 G; Generator.encoder2 G; Generator.encoder3 G;
             Generator.encoder4 G; Generator.encoder5 G; Generator.encoder6 G;
             Generator.encoder7 G; Generator.encoder8 G] x
          = Ok [R1; R2; R3; R4; R5; R6; R7; R8]
          /\ map (fun r => st' !! r)
               [Generator.encode1 l; Generator.encode2 l; Generator.encode3 l;
                Generator.encode4 l; Generator.encode5 l; Generator.encode6 l;
                Generator.encode7 l; Generator.encode8 l]
             = map Some
                 [rectified R1; rectified R2; rectified R3; rectified R4;
                  rectified R5; rectified R6; rectified R7; R8])
      /\ skip_joined st' (Generator.decoder1 G)
           (Generator.encode8 l) (Generator.decode1 l) (Generator.encode7 l)
      /\ skip_joined st' (Generator.decoder2 G)
           (Generator.decode1 l) (Generator.decode2 l) (Generator.encode6 l)
      /\ skip_joined st' (Generator.decoder3 G)
           (Generator.decode2 l) (Generator.decode3 l) (Generator.encode5 l)
      /\ skip_joined st' (Generator.decoder4 G)
           (Generator.decode3 l) (Generator.decode4 l) (Generator.encode4 l)
      /\ skip_joined st' (Generator.decoder5 G)
           (Generator.decode4 l) (Generator.decode5 l) (Generator.encode3 l)
      /\ skip_joined st' (Generator.decoder6 G)
           (Generator.decode5 l) (Generator.decode6 l) (Generator.encode2 l)
      /\ skip_joined st' (Generator.decoder7 G)
           (Generator.decode6 l) (Generator.decode7 l) (Generator.encode1 l)
      /\ (exists v d,
             st' !! Generator.decode7 l = Some v
             /\ dec_pipeline (Generator.decoder8 G) v = Ok d
             /\ st' !! Generator.decode8 l = Some d
             /\ st' !! Generator.final l = Some (nn.Tanh.apply d)).
Proof.
  intros HG. pose proof (Generator_init_recognized _ _ _ _ _ _ _ HG) as Hrec.
  apply Generator_init_inv in HG. subst G. split.
  { intros -> Hx.
    destruct (built_generator_runs_256 theta out_channels bias q norm x Hrec Hx)
      as (l & st' & Hrun & _).
    exists l, st'. exact Hrun. }
  intros l st' H.
  unfold Generator.body, built_generator in H.
  unfold built_generator.
  cbn [Generator.encoder1 Generator.encoder2 Generator.encoder3 Generator.encoder4
       Generator.encoder5 Generator.encoder6 Generator.encoder7 Generator.encoder8
       Generator.decoder1 Generator.decoder2 Generator.decoder3 Generator.decoder4
       Generator.decoder5 Generator.decoder6 Generator.decoder7 Generator.decoder8]
    in *.
  destruct (Qeq_bool q 0) eqn:E.
  all: do 8 inv_encoder H.
  all: inv_decoder E H; inv_cat H.
  all: do 6 (inv_decoder E H; inv_cat H).
  all: inv_decoder E H.
  all: apply runs_inv_bind in H; destruct H as (? & ? & H1 & H);
    apply Tanh_runs_inv with (1 := eq_refl) in H1; destruct H1 as [-> ->];
    cbn [app length] in H; unfold runs, ret in H; injection H as <- <-.
  all: cbn [Generator.encode1 Generator.encode2 Generator.encode3 Generator.encode4
            Generator.encode5 Generator.encode6 Generator.encode7 Generator.encode8
            Generator.decode1 Generator.decode2 Generator.decode3 Generator.decode4
            Generator.decode5 Generator.decode6 Generator.decode7 Generator.decode8
            Generator.final].
  all: split;
    [ do 8 eexists; split;
      [ cbn [encoder_outputs];
        repeat (erewrite block_pipeline_result;
                [ | reflexivity | eassumption | eassumption ];
                cbn [result_bind]);
        reflexivity
      | reflexivity ]
    | ].
  all: do 7 (split; [skip_goal|]).
  all: eexists; eexists; split; [reflexivity|];
    split; [eapply dec_pipeline_result; eassumption|];
    split; reflexivity.
Qed.

(** The wiring of the default generator on an all-zero 256x256 image. *)
Lemma Generator_skip_wiring_witness :
  exists l st',
    runs (Generator.body (built_generator zero_params 3 3 false (1 # 2) "batch") 0%nat)
         [zeros (Shape 1 3 256 256)] l st'
    /\ skip_joined st' (built_decoder (sub zero_params "decoder1") 512 512 4 2 1
                          false true "batch" true 0)
         (Generator.encode8 l) (Generator.decode1 l) (Generator.encode7 l)
    /\ skip_joined st' (built_decoder (sub zero_params "decoder7") 256 64 4 2 1
                          false true "batch" true 0)
         (Generator.decode6 l) (Generator.decode7 l) (Generator.encode1 l).
Proof.
  assert (Hrun : exists l st',
             runs (Generator.body
                     (built_generator zero_params 3 3 false (1 # 2) "batch") 0%nat)
                  [zeros (Shape 1 3 256 256)] l st')
    by (eexists; eexists; unfold runs; vm_compute; reflexivity).
  destruct Hrun as (l & st' & Hrun).
  exists l, st'. split; [exact Hrun|].
  split;
    apply (Generator_skip_wiring zero_params 3 3 false (1 # 2) "batch"
             (built_generator zero_params 3 3 false (1 # 2) "batch")
             (zeros (Shape 1 3 256 256)) eq_refl); exact Hrun.
Defined.

(** ** The generator's constructor *)

Lemma Dropout2d_init_rejects w p :
  dropout_accepts p = false ->
  nn.Dropout2d.__init__ w p
  = Raise (ValueError "dropout probability has to be between 0 and 1").
Proof. unfold dropout_accepts, nn.Dropout2d.__init__. intros ->. reflexivity. Qed.

Lemma DecoderBlock_init_bad_dropout theta i o k s p bias do_norm norm act q :
  conv_accepts i o k 1 = true ->
  dropout_accepts q = false ->
  DecoderBlock.__init__ theta i o k s p bias do_norm norm act q
  = Raise (ValueError "dropout probability has to be between 0 and 1").
Proof.
  intros Hc Hq. unfold DecoderBlock.__init__.
  rewrite (ConvTranspose2d_init_ok _ _ _ _ _ _ _ Hc). cbn [result_bind].
  rewrite (Dropout2d_init_rejects _ _ Hq). reflexivity.
Qed.

(** X1.  A [Generator] holds eight encoder blocks with channels
    in -> 64 -> 128 -> 256 -> 512 -> 512 -> 512 -> 512 -> 512 and eight
    decoder blocks with channels 512 -> 512, 1024 -> 512 (three times),
    1024 -> 256, 512 -> 128, 256 -> 64 and 128 -> out, all with kernel 4,
    stride 2 and padding 1.  The first encoder has neither normalisation nor
    activation, the last encoder and the last decoder have no normalisation.
    Only the second, third and fourth decoder are given the dropout
    probability; the others keep 0.  From the second decoder on, a decoder
    reads as many channels as the decoder before it and the encoder paired
    with it write together. *)
Theorem Generator_composition
    (theta : params) (in_channels out_channels : Z) (bias : bool) (q : Q)
    (norm : string) :
  0 < in_channels -> 0 < out_channels ->
  dropout_accepts q = true -> recognized norm = true ->
  exists G,
    Generator.__init__ theta in_channels out_channels bias q norm = Ok G
    /\ map channels (Generator_encoders G)
       = [(in_channels, 64); (64, 128); (128, 256); (256, 512); (512, 512);
          (512, 512); (512, 512); (512, 512)]
    /\ map EncoderBlock.do_norm (Generator_encoders G)
       = [false; true; true; true; true; true; true; false]
    /\ map EncoderBlock.do_activation (Generator_encoders G)
       = [false; true; true; true; true; true; true; true]
    /\ map dec_channels (Generator_decoders G)
       = [(512, 512); (1024, 512); (1024, 512); (1024, 512); (1024, 256);
          (512, 128); (256, 64); (128, out_channels)]
    /\ map DecoderBlock.do_norm (Generator_decoders G)
       = [true; true; true; true; true; true; true; false]
    /\ map DecoderBlock.do_activation (Generator_decoders G)
       = [true; true; true; true; true; true; true; true]
    /\ map DecoderBlock.dropout_prob (Generator_decoders G)
       = [0%Q; q; q; q; 0%Q; 0%Q; 0%Q; 0%Q]
    /\ Forall (fun b => enc_geometry b = (4, 2, 1)) (Generator_encoders G)
    /\ Forall (fun b => dec_geometry b = (4, 2, 1)) (Generator_decoders G)
    /\ map fst (map dec_channels (drop 1 (Generator_decoders G)))
       = zip_with Z.add
           (map snd (map dec_channels (take 7 (Generator_decoders G))))
           (reverse (map snd (map channels (take 7 (Generator_encoders G))))).
Proof.
  intros Hi Ho Hq Hn.
  exists (built_generator theta in_channels out_channels bias q norm).
  split; [apply Generator_init_ok; assumption|].
  repeat (split; [reflexivity|]).
  split; [repeat constructor|].
  split; [repeat constructor|].
  reflexivity.
Qed.

(** The default generator. *)
Lemma Generator_composition_witness :
  exists G,
    Generator.__init__ zero_params 3 3 false (1 # 2) "batch" = Ok G
    /\ map channels (Generator_encoders G)
       = [(3, 64); (64, 128); (128, 256); (256, 512); (512, 512);
          (512, 512); (512, 512); (512, 512)]
    /\ map EncoderBlock.do_norm (Generator_encoders G)
       = [false; true; true; true; true; true; true; false]
    /\ map EncoderBlock.do_activation (Generator_encoders G)
       = [false; true; true; true; true; true; true; true]
    /\ map dec_channels (Generator_decoders G)
       = [(512, 512); (1024, 512); (1024, 512); (1024, 512); (1024, 256);
          (512, 128); (256, 64); (128, 3)]
    /\ map DecoderBlock.do_norm (Generator_decoders G)
       = [true; true; true; true; true; true; true; false]
    /\ map DecoderBlock.do_activation (Generator_decoders G)
       = [true; true; true; true; true; true; true; true]
    /\ map DecoderBlock.dropout_prob (Generator_decoders G)
       = [0%Q; 1 # 2; 1 # 2; 1 # 2; 0%Q; 0%Q; 0%Q; 0%Q]
    /\ Forall (fun b => enc_geometry b = (4, 2, 1)) (Generator_encoders G)
    /\ Forall (fun b => dec_geometry b = (4, 2, 1)) (Generator_decoders G)
    /\ map fst (map dec_channels (drop 1 (Generator_decoders G)))
       = zip_with Z.add
           (map snd (map dec_channels (take 7 (Generator_decoders G))))
           (reverse (map snd (map channels (take 7 (Generator_encoders G))))).
Proof.
  apply (Generator_composition zero_params 3 3 false (1 # 2) "batch");
    [lia | lia | reflexivity | reflexivity].
Defined.

(** X2.  The generator's constructor builds its blocks in order, so the
    first failing block decides the exception.  With a positive input
    channel count, an unrecognised normalisation mode raises the
    [NotImplementedError] of the second encoder, whatever the dropout
    probability and the output channel count are; with a recognised mode, a
    dropout probability outside [0, 1] raises the [ValueError] of the second
    decoder, the first block that is given it. *)
Theorem Generator_init_errors
    (theta : params) (in_channels out_channels : Z) (bias : bool) (q : Q)
    (norm : string) :
  0 < in_channels ->
  (recognized norm = false ->
   Generator.__init__ theta in_channels out_channels bias q norm
   = Raise (NotImplementedError "norm error"))
  /\ (recognized norm = true -> dropout_accepts q = false ->
      Generator.__init__ theta in_channels out_channels bias q norm
      = Raise (ValueError "dropout probability has to be between 0 and 1")).
Proof.
  intros Hi. split.
  - intros Hn. unfold Generator.__init__.
    rewrite EncoderBlock_init_ok by (first [apply conv_accepts_plain; lia | discriminate]).
    cbn [result_bind].
    rewrite EncoderBlock_init_unrecognized
      by (first [exact Hn | apply conv_accepts_plain; lia]).
    reflexivity.
  - intros Hn Hq. unfold Generator.__init__.
    rewrite !EncoderBlock_init_ok
      by (first [apply conv_accepts_plain; lia | intros _; exact Hn | discriminate]).
    cbn [result_bind].
    rewrite DecoderBlock_init_ok
      by (first [apply conv_accepts_plain; lia | reflexivity | intros _; exact Hn]).
    cbn [result_bind].
    rewrite DecoderBlock_init_bad_dropout
      by (first [apply conv_accepts_plain; lia | exact Hq]).
    reflexivity.
Qed.

(** A misspelt mode, and a dropout probability of 3/2. *)
Lemma Generator_init_errors_witness :
  Generator.__init__ zero_params 3 3 false (3 # 2) "layer"
  = Raise (NotImplementedError "norm error")
  /\ Generator.__init__ zero_params 3 3 false (3 # 2) "batch"
     = Raise (ValueError "dropout probability has to be between 0 and 1").
Proof.
  split.
  - apply (Generator_init_errors zero_params 3 3 false (3 # 2) "layer"); [lia | reflexivity].
  - apply (Generator_init_errors zero_params 3 3 false (3 # 2) "batch");
      [lia | reflexivity | reflexivity].
Defined.

(** ** The discriminators' constructors *)

Lemma Discriminator_init_inv theta i o bias norm D :
  Discriminator.__init__ theta i o bias norm = Ok D ->
  D = built_discriminator theta i o bias norm.
Proof.
  unfold Discriminator.__init__, built_discriminator.
  repeat match goal with
         | |- context [EncoderBlock.__init__ ?t ?a ?b ?c ?d ?e ?f ?g ?h ?i ?j ?k] =>
             let H := fresh "H" in
             destruct (EncoderBlock.__init__ t a b c d e f g h i j k) eqn:H;
             cbn [result_bind]; [apply EncoderBlock_init_inv in H; subst | discriminate]
         end.
  intros H. inversion H. reflexivity.
Qed.

Lemma Discriminator286_init_inv theta i o bias norm D :
  Discriminator286.__init__ theta i o bias norm = Ok D ->
  D = built_discriminator286 theta i o bias norm.
Proof.
  unfold Discriminator286.__init__, built_discriminator286.
  repeat match goal with
         | |- context [EncoderBlock.__init__ ?t ?a ?b ?c ?d ?e ?f ?g ?h ?i ?j ?k] =>
             let H := fresh "H" in
             destruct (EncoderBlock.__init__ t a b c d e f g h i j k) eqn:H;
             cbn [result_bind]; [apply EncoderBlock_init_inv in H; subst | discriminate]
         end.
  intros H. inversion H. reflexivity.
Qed.

(** X3.  Both discriminator constructors pass the mode string to their
    second block, which has normalisation enabled: with a positive input
    channel count an unrecognised mode raises [NotImplementedError] at
    construction, whatever the output channel count is (the last block,
    the only one that receives it, is never reached). *)
Theorem Discriminators_init_check_mode
    (theta : params) (in_channels out_channels : Z) (bias : bool) (norm : string) :
  0 < in_channels -> recognized norm = false ->
  Discriminator.__init__ theta in_channels out_channels bias norm
  = Raise (NotImplementedError "norm error")
  /\ Discriminator286.__init__ theta in_channels out_channels bias norm
     = Raise (NotImplementedError "norm error").
Proof.
  intros Hi Hn. split.
  - unfold Discriminator.__init__.
    rewrite EncoderBlock_init_ok by (first [apply conv_accepts_plain; lia | discriminate]).
    cbn [result_bind].
    rewrite EncoderBlock_init_unrecognized
      by (first [exact Hn | apply conv_accepts_plain; lia]).
    reflexivity.
  - unfold Discriminator286.__init__.
    rewrite EncoderBlock_init_ok by (first [apply conv_accepts_plain; lia | discriminate]).
    cbn [result_bind].
    rewrite EncoderBlock_init_unrecognized
      by (first [exact Hn | apply conv_accepts_plain; lia]).
    reflexivity.
Qed.

(** A misspelt mode. *)
Lemma Discriminators_init_check_mode_witness :
  Discriminator.__init__ zero_params 3 1 false "layer"
  = Raise (NotImplementedError "norm error")
  /\ Discriminator286.__init__ zero_params 3 1 false "layer"
     = Raise (NotImplementedError "norm error").
Proof.
  apply (Discriminators_init_check_mode zero_params 3 1 false "layer"); [lia | reflexivity].
Defined.

(** ** Order of the decoder block's construction checks *)

(** X4.  [DecoderBlock.__init__] creates its dropout layer before it looks
    at the normalisation mode: once the transposed convolution is accepted,
    a dropout probability outside [0, 1] raises the dropout layer's
    [ValueError], whether normalisation is enabled or not and whatever the
    mode string is. *)
Theorem DecoderBlock_dropout_checked_first
    (theta : params) (i o k s p : Z) (bias do_norm act : bool) (norm : string) (q : Q) :
  conv_accepts i o k 1 = true ->
  dropout_accepts q = false ->
  DecoderBlock.__init__ theta i o k s p bias do_norm norm act q
  = Raise (ValueError "dropout probability has to be between 0 and 1").
Proof.
  intros Hc Hq. unfold DecoderBlock.__init__.
  rewrite (ConvTranspose2d_init_ok _ _ _ _ _ _ _ Hc). cbn [result_bind].
  unfold nn.Dropout2d.__init__. fold (dropout_accepts q). rewrite Hq. reflexivity.
Qed.

(** A probability of 3/2 together with a misspelt mode. *)
Lemma DecoderBlock_dropout_checked_first_witness :
  DecoderBlock.__init__ zero_params 1024 512 4 2 1 false true "layer" true (3 # 2)
  = Raise (ValueError "dropout probability has to be between 0 and 1").
Proof.
  apply (DecoderBlock_dropout_checked_first zero_params 1024 512 4 2 1 false true true
           "layer" (3 # 2)); reflexivity.
Defined.

(** ** Block calls as pipelines, for every configuration *)

(** X5.  A call of any constructed [EncoderBlock], on any tensor, returns
    what the pipeline returns: the leaky rectification with slope 0.2 when
    activation is on, then the convolution, then the normalisation when it
    is on.  When a step of the pipeline raises, the call raises the same
    exception. *)
Theorem EncoderBlock_forward_refines
    (theta : params) (i o k s p d g : Z) (bias do_norm act : bool) (norm : string)
    (b : EncoderBlock.t) (st : store) (r : handle) (x : tensor) :
  EncoderBlock.__init__ theta i o k s p d g bias do_norm norm act = Ok b ->
  st !! r = Some x ->
  fetch (EncoderBlock.forward b r) st
  = encoder_pipeline act (EncoderBlock.conv b)
      (if do_norm then EncoderBlock.norm b else None) x.
Proof.
  intros Hb Hx. apply EncoderBlock_init_inv in Hb. subst b.
  rewrite (EncoderBlock_fetch _ st r x (built_enc_wf _ _ _ _ _ _ _ _ _ _ _ _) Hx).
  reflexivity.
Qed.

(** The default block on an 8x8 image, and on a 2x2 image, where the
    normalisation raises. *)
Lemma EncoderBlock_forward_refines_witness :
  fetch (EncoderBlock.forward
           (built_encoder zero_params 3 64 4 2 1 1 1 false true "batch" true) 0%nat)
        [zeros (Shape 1 3 8 8)]
  = encoder_pipeline true
      (EncoderBlock.conv (built_encoder zero_params 3 64 4 2 1 1 1 false true "batch" true))
      (if true
       then EncoderBlock.norm
              (built_encoder zero_params 3 64 4 2 1 1 1 false true "batch" true)
       else None)
      (zeros (Shape 1 3 8 8))
  /\ fetch (EncoderBlock.forward
              (built_encoder zero_params 3 64 4 2 1 1 1 false true "batch" true) 0%nat)
           [zeros (Shape 1 3 2 2)]
     = encoder_pipeline true
         (EncoderBlock.conv
            (built_encoder zero_params 3 64 4 2 1 1 1 false true "batch" true))
         (if true
          then EncoderBlock.norm
                 (built_encoder zero_params 3 64 4 2 1 1 1 false true "batch" true)
          else None)
         (zeros (Shape 1 3 2 2)).
Proof.
  split.
  - apply (EncoderBlock_forward_refines zero_params 3 64 4 2 1 1 1 false true true "batch"
             _ [zeros (Shape 1 3 8 8)] 0%nat (zeros (Shape 1 3 8 8)) eq_refl eq_refl).
  - apply (EncoderBlock_forward_refines zero_params 3 64 4 2 1 1 1 false true true "batch"
             _ [zeros (Shape 1 3 2 2)] 0%nat (zeros (Shape 1 3 2 2)) eq_refl eq_refl).
Defined.

(** X6.  A call of any constructed [DecoderBlock], on any tensor, returns
    what the pipeline returns: the rectification when activation is on,
    then the transposed convolution, then the normalisation when it is on,
    then dropout when the dropout probability is not zero.  When a step of
    the pipeline raises, the call raises the same exception. *)
Theorem DecoderBlock_forward_refines
    (theta : params) (i o k s p : Z) (bias do_norm act : bool) (norm : string) (q : Q)
    (b : DecoderBlock.t) (st : store) (r : handle) (x : tensor) :
  DecoderBlock.__init__ theta i o k s p bias do_norm norm act q = Ok b ->
  st !! r = Some x ->
  fetch (DecoderBlock.forward b r) st
  = decoder_pipeline act (DecoderBlock.convT b)
      (if do_norm then DecoderBlock.norm b else None)
      (if negb (Qeq_bool q 0) then Some (DecoderBlock.drop b) else None) x.
Proof.
  intros Hb Hx. apply DecoderBlock_init_inv in Hb. subst b.
  rewrite (DecoderBlock_fetch _ st r x (built_dec_wf _ _ _ _ _ _ _ _ _ _ _) Hx).
  reflexivity.
Qed.

(** A dropout decoder stage of the generator on a 2x2 activation. *)
Lemma DecoderBlock_forward_refines_witness :
  fetch (DecoderBlock.forward
           (built_decoder zero_params 1024 512 4 2 1 false true "batch" true (1 # 2))
           0%nat)
        [zeros (Shape 1 1024 2 2)]
  = decoder_pipeline true
      (DecoderBlock.convT
         (built_decoder zero_params 1024 512 4 2 1 false true "batch" true (1 # 2)))
      (if true
       then DecoderBlock.norm
              (built_decoder zero_params 1024 512 4 2 1 false true "batch" true (1 # 2))
       else None)
      (if negb (Qeq_bool (1 # 2) 0)
       then Some (DecoderBlock.drop
                    (built_decoder zero_params 1024 512 4 2 1 false true "batch" true
                       (1 # 2)))
       else None)
      (zeros (Shape 1 1024 2 2)).
Proof.
  apply (DecoderBlock_forward_refines zero_params 1024 512 4 2 1 false true true "batch"
           (1 # 2) _ [zeros (Shape 1 1024 2 2)] 0%nat (zeros (Shape 1 1024 2 2))
           eq_refl eq_refl).
Defined.

(** ** Which tensor objects a call changes *)




























(** ** Shape rules for every extent *)

(** Linear arithmetic with floor division by constants. *)
Ltac div_lia := Z.to_euclidean_division_equations; lia.

(** Kernel 4, stride 2, padding 1, dilation 1 maps an extent h >= 2 to
    floor(h / 2). *)
Lemma Conv2d_k4s2p1 w i o g bias n h wd :
  2 <= h -> 2 <= wd ->
  nn.Conv2d.out_shape (nn.Conv2d.Build i o 4 2 1 1 g bias w) (Shape n i h wd)
  = Ok (Shape n o (h / 2) (wd / 2)).
Proof.
  intros Hh Hw.
  unfold nn.Conv2d.out_shape, nn.Conv2d.fits, nn.Conv2d.out_size.
  cbn [dimN dimC dimH dimW nn.Conv2d.in_channels nn.Conv2d.out_channels
       nn.Conv2d.kernel_size nn.Conv2d.stride nn.Conv2d.padding nn.Conv2d.dilation].
  rewrite Z.eqb_refl. cbn [negb orb Z.leb Z.ltb Z.compare].
  replace (1 * (4 - 1) + 1 <=? h + 2 * 1) with true by lia.
  replace (1 * (4 - 1) + 1 <=? wd + 2 * 1) with true by lia.
  cbn [andb negb].
  do 2 f_equal; div_lia.
Qed.

Lemma Conv2d_k4s2p1_inv w i o g bias s s' :
  nn.Conv2d.out_shape (nn.Conv2d.Build i o 4 2 1 1 g bias w) s = Ok s' ->
  dimC s = i /\ 2 <= dimH s /\ 2 <= dimW s
  /\ s' = Shape (dimN s) o (dimH s / 2) (dimW s / 2).
Proof.
  unfold nn.Conv2d.out_shape, nn.Conv2d.fits, nn.Conv2d.out_size.
  cbn [nn.Conv2d.in_channels nn.Conv2d.out_channels
       nn.Conv2d.kernel_size nn.Conv2d.stride nn.Conv2d.padding nn.Conv2d.dilation].
  destruct (dimC s =? i) eqn:Ec; cbn [negb]; [|discriminate].
  cbn [orb Z.leb Z.ltb Z.compare].
  destruct (1 * (4 - 1) + 1 <=? dimH s + 2 * 1) eqn:Eh; cbn [andb negb]; [|discriminate].
  destruct (1 * (4 - 1) + 1 <=? dimW s + 2 * 1) eqn:Ew; cbn [andb negb]; [|discriminate].
  intros E. injection E as <-.
  split; [lia|]. split; [lia|]. split; [lia|].
  do 2 f_equal; div_lia.
Qed.

(** Kernel 4, stride 1, padding 1, dilation 1 maps an extent h >= 2 to h - 1. *)
Lemma Conv2d_k4s1p1 w i o g bias n h wd :
  2 <= h -> 2 <= wd ->
  nn.Conv2d.out_shape (nn.Conv2d.Build i o 4 1 1 1 g bias w) (Shape n i h wd)
  = Ok (Shape n o (h - 1) (wd - 1)).
Proof.
  intros Hh Hw.
  unfold nn.Conv2d.out_shape, nn.Conv2d.fits, nn.Conv2d.out_size.
  cbn [dimN dimC dimH dimW nn.Conv2d.in_channels nn.Conv2d.out_channels
       nn.Conv2d.kernel_size nn.Conv2d.stride nn.Conv2d.padding nn.Conv2d.dilation].
  rewrite Z.eqb_refl. cbn [negb orb Z.leb Z.ltb Z.compare].
  replace (1 * (4 - 1) + 1 <=? h + 2 * 1) with true by lia.
  replace (1 * (4 - 1) + 1 <=? wd + 2 * 1) with true by lia.
  cbn [andb negb]. rewrite !Z.div_1_r.
  do 2 f_equal; lia.
Qed.

Lemma Conv2d_k4s1p1_inv w i o g bias s s' :
  nn.Conv2d.out_shape (nn.Conv2d.Build i o 4 1 1 1 g bias w) s = Ok s' ->
  dimC s = i /\ 2 <= dimH s /\ 2 <= dimW s
  /\ s' = Shape (dimN s) o (dimH s - 1) (dimW s - 1).
Proof.
  unfold nn.Conv2d.out_shape, nn.Conv2d.fits, nn.Conv2d.out_size.
  cbn [nn.Conv2d.in_channels nn.Conv2d.out_channels
       nn.Conv2d.kernel_size nn.Conv2d.stride nn.Conv2d.padding nn.Conv2d.dilation].
  destruct (dimC s =? i) eqn:Ec; cbn [negb]; [|discriminate].
  cbn [orb Z.leb Z.ltb Z.compare].
  destruct (1 * (4 - 1) + 1 <=? dimH s + 2 * 1) eqn:Eh; cbn [andb negb]; [|discriminate].
  destruct (1 * (4 - 1) + 1 <=? dimW s + 2 * 1) eqn:Ew; cbn [andb negb]; [|discriminate].
  intros E. injection E as <-. rewrite !Z.div_1_r.
  split; [lia|]. split; [lia|]. split; [lia|].
  do 2 f_equal; lia.
Qed.

Lemma ConvTranspose2d_k4s2p1_inv w i o bias s s' :
  nn.ConvTranspose2d.out_shape (nn.ConvTranspose2d.Build i o 4 2 1 bias w) s = Ok s' ->
  dimC s = i /\ 0 < dimH s /\ 0 < dimW s
  /\ s' = Shape (dimN s) o (dimH s * 2) (dimW s * 2).
Proof.
  unfold nn.ConvTranspose2d.out_shape, nn.ConvTranspose2d.out_size.
  cbn [nn.ConvTranspose2d.in_channels nn.ConvTranspose2d.out_channels
       nn.ConvTranspose2d.kernel_size nn.ConvTranspose2d.stride
       nn.ConvTranspose2d.padding].
  destruct (dimC s =? i) eqn:Ec; cbn [negb]; [|discriminate].
  cbn [orb Z.leb Z.ltb Z.compare].
  destruct ((dimH s - 1) * 2 - 2 * 1 + (4 - 1) + 1 <=? 0) eqn:Eh; cbn [orb];
    [discriminate|].
  destruct ((dimW s - 1) * 2 - 2 * 1 + (4 - 1) + 1 <=? 0) eqn:Ew; [discriminate|].
  intros E. injection E as <-.
  split; [lia|]. split; [lia|]. split; [lia|].
  do 2 f_equal; lia.
Qed.

Lemma cat_shape_eq n c h w n' c' h' w' :
  n = n' -> h = h' -> w = w' ->
  torch.cat_shape (Shape n c h w) (Shape n' c' h' w') = Ok (Shape n (c + c') h w).
Proof.
  intros <- <- <-. unfold torch.cat_shape. cbn [dimN dimC dimH dimW].
  rewrite !Z.eqb_refl. reflexivity.
Qed.

Lemma cat_shape_inv s t u :
  torch.cat_shape s t = Ok u ->
  dimN s = dimN t /\ dimH s = dimH t /\ dimW s = dimW t
  /\ u = Shape (dimN s) (dimC s + dimC t) (dimH s) (dimW s).
Proof.
  unfold torch.cat_shape.
  destruct (dimN s =? dimN t) eqn:En; cbn [andb negb]; [|discriminate].
  destruct (dimH s =? dimH t) eqn:Eh; cbn [andb negb]; [|discriminate].
  destruct (dimW s =? dimW t) eqn:Ew; cbn [andb negb]; [|discriminate].
  intros E. injection E as <-. repeat split; lia.
Qed.

Lemma cat2_inv a b c :
  torch.cat2 a b = Ok c ->
  dimN (size a) = dimN (size b) /\ dimH (size a) = dimH (size b)
  /\ dimW (size a) = dimW (size b)
  /\ size c = Shape (dimN (size a)) (dimC (size a) + dimC (size b))
                    (dimH (size a)) (dimW (size a)).
Proof.
  unfold torch.cat2.
  destruct (torch.cat_shape (size a) (size b)) as [u|e] eqn:E; cbn [result_bind];
    [|discriminate].
  intros H. injection H as <-. cbn [size].
  destruct (cat_shape_inv _ _ _ E) as (? & ? & ? & ->). auto.
Qed.

Lemma cat2_pair x ref N cx cr H W c :
  size x = Shape N cx H W -> size ref = Shape N cr H W -> cx + cr = c ->
  torch.cat2 x ref = Ok (Tensor (Shape N c H W) (torch.cat_data x ref)).
Proof.
  intros Hx Hr <-. unfold torch.cat2. rewrite Hx, Hr.
  rewrite cat_shape_eq by reflexivity. reflexivity.
Qed.

Lemma cat2_mismatch a b :
  dimN (size a) <> dimN (size b) \/ dimH (size a) <> dimH (size b)
  \/ dimW (size a) <> dimW (size b) ->
  torch.cat2 a b
  = Raise (RuntimeError "Sizes of tensors must match except in dimension 1").
Proof.
  intros H. unfold torch.cat2, torch.cat_shape.
  destruct (dimN (size a) =? dimN (size b)) eqn:En;
    destruct (dimH (size a) =? dimH (size b)) eqn:Eh;
    destruct (dimW (size a) =? dimW (size b)) eqn:Ew;
    cbn [andb negb result_bind]; try reflexivity.
  exfalso. lia.
Qed.

(** With a batch and at least two rows and columns the normalisation
    layers have more than one value to take statistics over. *)
Lemma norm_fed_big norm n h w : 1 <= n -> 2 <= h -> 2 <= w -> norm_fed norm n h w.
Proof.
  intros Hn Hh Hw. unfold norm_fed. destruct (String.eqb norm "batch"); nia.
Qed.

Lemma fetch_inv (m : M handle) (st : store) y :
  fetch m st = Ok y -> exists r st', runs m st r st' /\ st' !! r = Some y.
Proof.
  unfold fetch, runs. destruct (m st) as [[r st']|e]; [|discriminate].
  destruct (st' !! r) as [z|] eqn:E; [|discriminate].
  intros H. injection H as <-. eauto.
Qed.

(** A block without activation and normalisation is its convolution, which
    checks the channel count first. *)
Lemma first_block_wrong_channels theta i o k s p d g bias norm x :
  dimC (size x) <> i ->
  block_pipeline (built_encoder theta i o k s p d g bias false norm false) x
  = Raise (RuntimeError "input channels do not match the weight").
Proof.
  intros Hc. unfold block_pipeline, encoder_pipeline, nn.Conv2d.apply, nn.Conv2d.out_shape.
  cbn [EncoderBlock.do_activation EncoderBlock.do_norm EncoderBlock.conv built_encoder
       nn.Conv2d.in_channels].
  replace (dimC (size x) =? i) with false by lia. reflexivity.
Qed.

(** What a completed shape check says, read off as arithmetic facts. *)
Ltac conv_fact :=
  match goal with
  | Hs : nn.Conv2d.out_shape _ _ = Ok ?s |- _ =>
      rewrite ?size_enc_in, ?size_enc_result in Hs;
      cbn [size EncoderBlock.conv built_encoder] in Hs;
      first [apply Conv2d_k4s2p1_inv in Hs | apply Conv2d_k4s1p1_inv in Hs];
      let Fc := fresh "Fc" in
      let Fh := fresh "Fh" in
      let Fw := fresh "Fw" in
      destruct Hs as (Fc & Fh & Fw & Hs);
      cbn [dimN dimC dimH dimW] in Fc, Fh, Fw, Hs; subst s
  end.

Ltac convT_fact :=
  match goal with
  | Hs : nn.ConvTranspose2d.out_shape _ _ = Ok ?s |- _ =>
      rewrite ?size_enc_in, ?size_enc_result in Hs;
      cbn [size DecoderBlock.convT built_decoder] in Hs;
      apply ConvTranspose2d_k4s2p1_inv in Hs;
      let Fc := fresh "Fc" in
      let Fh := fresh "Fh" in
      let Fw := fresh "Fw" in
      destruct Hs as (Fc & Fh & Fw & Hs);
      cbn [dimN dimC dimH dimW] in Fc, Fh, Fw, Hs; subst s
  end.

Ltac cat_fact :=
  match goal with
  | Hc : torch.cat2 _ ?e = Ok ?c |- _ =>
      apply cat2_inv in Hc;
      rewrite ?size_dec_result, ?size_enc_in, ?size_enc_result in Hc;
      let Fn := fresh "Fn" in
      let Fh := fresh "Fh" in
      let Fw := fresh "Fw" in
      let sc := fresh "sc" in
      let dc := fresh "dc" in
      destruct Hc as (Fn & Fh & Fw & Hc);
      destruct c as [sc dc];
      cbn [size dimN dimC dimH dimW] in Fn, Fh, Fw, Hc; subst sc
  end.

Ltac drop_norm_facts :=
  repeat match goal with
         | H : enc_norm_ok _ _ |- _ => clear H
         | H : dec_norm_ok _ _ |- _ => clear H
         end.

(** ** The generator on every image size *)

Section GeneratorShape.
Variables (N H W : Z).
Hypotheses (HN : 1 <= N) (HH : 256 <= H) (HW : 256 <= W).
Hypotheses (RH : H mod 256 <= 1) (RW : W mod 256 <= 1).

Ltac arith := clear - HN HH HW RH RW; div_lia.

Ltac sizes :=
  rewrite ?size_enc_in; cbn [size];
  repeat match goal with
         | H : size ?t = _ |- context [size ?t] => rewrite H
         end;
  cbn [EncoderBlock.conv DecoderBlock.convT built_encoder built_decoder].

Ltac fed_sym Hn :=
  cbv beta iota delta [enc_norm_ok dec_norm_ok EncoderBlock.do_norm EncoderBlock.norm
                       DecoderBlock.do_norm DecoderBlock.norm
                       built_encoder built_decoder];
  first
    [ exact I
    | apply make_norm_shape; [ exact Hn | apply norm_fed_big; arith ] ].

Ltac enc_sym Hn :=
  apply after_bind;
  eapply after_EncoderBlock;
  [ reflexivity | reflexivity | sizes; apply Conv2d_k4s2p1; arith
  | fed_sym Hn | tidy_enc; forget_result ].

Ltac dec_sym Hn E :=
  apply after_bind;
  eapply after_DecoderBlock;
  [ reflexivity | reflexivity | sizes; apply ConvTranspose2d_doubles; arith
  | fed_sym Hn | tidy_dec E; forget_result ].

Ltac cat_sym :=
  apply after_bind;
  eapply after_cat;
  [ reflexivity | reflexivity | sizes; apply cat_shape_eq; [reflexivity | arith | arith]
  | cbn [app length] ].

Lemma built_generator_runs theta i o bias q norm x :
  recognized norm = true ->
  size x = Shape N i H W ->
  after (Generator.body (built_generator theta i o bias q norm) 0%nat) [x]
    (fun l st' =>
       exists d, st' !! Generator.final l = Some (nn.Tanh.apply d)
                 /\ size d = Shape N o (256 * (H / 256)) (256 * (W / 256))).
Proof.
  intros Hn Hx. destruct x as [sx dx]. cbn [size] in Hx. subst sx.
  unfold Generator.body, built_generator.
  cbn [Generator.encoder1 Generator.encoder2 Generator.encoder3 Generator.encoder4
       Generator.encoder5 Generator.encoder6 Generator.encoder7 Generator.encoder8
       Generator.decoder1 Generator.decoder2 Generator.decoder3 Generator.decoder4
       Generator.decoder5 Generator.decoder6 Generator.decoder7 Generator.decoder8].
  destruct (Qeq_bool q 0) eqn:E.
  - do 8 enc_sym Hn.
    do 7 (dec_sym Hn E; cat_sym).
    dec_sym Hn E.
    apply after_bind. eapply after_Tanh; [reflexivity|]. cbn [app length].
    apply after_ret. eexists. split; [reflexivity|].
    match goal with H : size ?t = _ |- size ?t = _ => rewrite H end.
    f_equal; arith.
  - do 8 enc_sym Hn.
    do 7 (dec_sym Hn E; cat_sym).
    dec_sym Hn E.
    apply after_bind. eapply after_Tanh; [reflexivity|]. cbn [app length].
    apply after_ret. eexists. split; [reflexivity|].
    match goal with H : size ?t = _ |- size ?t = _ => rewrite H end.
    f_equal; arith.
Qed.

End GeneratorShape.

(** X12.  A [Generator] called on a batch of N >= 1 images with the
    channel count it was built for, whose height and width are at least 256
    and are a multiple of 256 or one more than a multiple of 256, returns a
    tensor of shape (N, out_channels, 256 * floor(H / 256),
    256 * floor(W / 256)) with every entry in [-1, 1]: the spatial shape of
    the input when H and W are multiples of 256, and one row or column less
    when they are one more. *)
Theorem Generator_forward_shape
    (theta : params) (in_channels out_channels : Z) (bias : bool) (q : Q)
    (norm : string) (N H W : Z) (x : tensor) :
  0 < in_channels -> 0 < out_channels ->
  dropout_accepts q = true -> recognized norm = true ->
  1 <= N -> 256 <= H -> 256 <= W -> H mod 256 <= 1 -> W mod 256 <= 1 ->
  size x = Shape N in_channels H W ->
  exists G d y,
    Generator.__init__ theta in_channels out_channels bias q norm = Ok G
    /\ call1 (Generator.forward G) x = Ok y
    /\ size y = Shape N out_channels (256 * (H / 256)) (256 * (W / 256))
    /\ y = nn.Tanh.apply d
    /\ in_range (-1) 1 y.
Proof.
  intros Hi Ho Hq Hn HN HH HW RH RW Hx.
  destruct (built_generator_runs N H W HN HH HW RH RW theta in_channels out_channels
              bias q norm x Hn Hx)
    as (l & st' & Hrun & d & Hfinal & Hsz).
  exists (built_generator theta in_channels out_channels bias q norm), d, (nn.Tanh.apply d).
  split; [apply Generator_init_ok; assumption|].
  split.
  { unfold call1, Generator.forward.
    rewrite (fetch_bind_runs _ _ _ _ _ Hrun).
    unfold fetch, ret. rewrite Hfinal. reflexivity. }
  split; [exact Hsz|]. split; [reflexivity | apply Tanh_in_range].
Qed.

(** Four one-channel images of 512 rows and 257 columns through a generator
    with instance normalisation. *)
Lemma Generator_forward_shape_witness :
  exists G d y,
    Generator.__init__ zero_params 1 3 true (1 # 2) "instance" = Ok G
    /\ call1 (Generator.forward G) (zeros (Shape 4 1 512 257)) = Ok y
    /\ size y = Shape 4 3 (256 * (512 / 256)) (256 * (257 / 256))
    /\ y = nn.Tanh.apply d
    /\ in_range (-1) 1 y.
Proof.
  apply (Generator_forward_shape zero_params 1 3 true (1 # 2) "instance" 4 512 257
           (zeros (Shape 4 1 512 257)));
    first [reflexivity | lia | (vm_compute; discriminate)].
Defined.

(** X13.  Whenever [Generator.forward] returns, its input had the channel
    count the generator was built for and a height and a width that are at
    least 256 and a multiple of 256 or one more; the result then has shape
    (N, out_channels, 256 * floor(H / 256), 256 * floor(W / 256)) and every
    entry in [-1, 1].  On any other input the call raises: on images smaller
    than 256x256 the eighth encoder cannot be applied, and on other sizes a
    skip concatenation finds extents that differ. *)
Theorem Generator_forward_requires
    (theta : params) (in_channels out_channels : Z) (bias : bool) (q : Q)
    (norm : string) (G : Generator.t) (x y : tensor) :
  Generator.__init__ theta in_channels out_channels bias q norm = Ok G ->
  call1 (Generator.forward G) x = Ok y ->
  dimC (size x) = in_channels
  /\ 256 <= dimH (size x) /\ dimH (size x) mod 256 <= 1
  /\ 256 <= dimW (size x) /\ dimW (size x) mod 256 <= 1
  /\ size y = Shape (dimN (size x)) out_channels
                    (256 * (dimH (size x) / 256)) (256 * (dimW (size x) / 256))
  /\ in_range (-1) 1 y.
Proof.
  intros HG Hcall. apply Generator_init_inv in HG. subst G.
  apply fetch_inv in Hcall. destruct Hcall as (r & st' & H & Hy).
  unfold Generator.forward in H.
  apply runs_inv_bind in H. destruct H as (l & st1 & H & Hret).
  unfold runs, ret in Hret. injection Hret as <- <-.
  unfold Generator.body, built_generator in H.
  cbn [Generator.encoder1 Generator.encoder2 Generator.encoder3 Generator.encoder4
       Generator.encoder5 Generator.encoder6 Generator.encoder7 Generator.encoder8
       Generator.decoder1 Generator.decoder2 Generator.decoder3 Generator.decoder4
       Generator.decoder5 Generator.decoder6 Generator.decoder7 Generator.decoder8]
    in *.
  destruct x as [[xn xc xh xw] dx]. cbn [size dimN dimC dimH dimW].
  destruct (Qeq_bool q 0) eqn:E.
  all: do 8 (inv_encoder H; conv_fact).
  all: do 7 (inv_decoder E H; convT_fact; inv_cat H; cat_fact).
  all: inv_decoder E H; convT_fact.
  all: apply runs_inv_bind in H; destruct H as (? & ? & H1 & H);
    apply Tanh_runs_inv with (1 := eq_refl) in H1; destruct H1 as [-> ->];
    cbn [app length] in H; unfold runs, ret in H; injection H as <- <-.
  all: cbn [Generator.final] in Hy; cbv [lookup list_lookup] in Hy;
    injection Hy as <-.
  all: drop_norm_facts.
  all: split; [lia|].
  all: do 4 (split; [div_lia|]).
  all: split; [|apply Tanh_in_range].
  all: cbn [nn.Tanh.apply pointwise size]; rewrite size_dec_result.
  all: f_equal; div_lia.
Qed.

(** The default generator on an all-zero 256x256 image. *)
Lemma Generator_forward_requires_witness :
  exists y,
    call1 (Generator.forward (built_generator zero_params 3 3 false (1 # 2) "batch"))
          (zeros (Shape 1 3 256 256)) = Ok y
    /\ dimC (size (zeros (Shape 1 3 256 256))) = 3
    /\ 256 <= dimH (size (zeros (Shape 1 3 256 256)))
    /\ dimH (size (zeros (Shape 1 3 256 256))) mod 256 <= 1
    /\ 256 <= dimW (size (zeros (Shape 1 3 256 256)))
    /\ dimW (size (zeros (Shape 1 3 256 256))) mod 256 <= 1
    /\ size y = Shape (dimN (size (zeros (Shape 1 3 256 256)))) 3
                      (256 * (dimH (size (zeros (Shape 1 3 256 256))) / 256))
                      (256 * (dimW (size (zeros (Shape 1 3 256 256))) / 256))
    /\ in_range (-1) 1 y.
Proof.
  assert (Hcall : exists y,
             call1 (Generator.forward
                      (built_generator zero_params 3 3 false (1 # 2) "batch"))
                   (zeros (Shape 1 3 256 256)) = Ok y)
    by (eexists; vm_compute; reflexivity).
  destruct Hcall as (y & Hcall). exists y. split; [exact Hcall|].
  apply (Generator_forward_requires zero_params 3 3 false (1 # 2) "batch"
           (built_generator zero_params 3 3 false (1 # 2) "batch")
           (zeros (Shape 1 3 256 256)) y eq_refl Hcall).
Defined.

(** X14.  [Generator.forward] on a tensor whose channel count is not the
    one the generator was built for raises the [RuntimeError] of the first
    convolution's channel check, whatever the other extents are. *)
Theorem Generator_rejects_wrong_channels
    (theta : params) (in_channels out_channels : Z) (bias : bool) (q : Q)
    (norm : string) (G : Generator.t) (x : tensor) :
  Generator.__init__ theta in_channels out_channels bias q norm = Ok G ->
  dimC (size x) <> in_channels ->
  call1 (Generator.forward G) x
  = Raise (RuntimeError "input channels do not match the weight").
Proof.
  intros HG Hc. apply Generator_init_inv in HG. subst G.
  unfold call1, Generator.forward, Generator.body, built_generator.
  cbn [Generator.encoder1].
  apply fetch_bind_raise. unfold bind at 1.
  pose proof (EncoderBlock_total
                (built_encoder (sub theta "encoder1") in_channels 64 4 2 1 1 1 bias
                   false "batch" false)
                [x] 0%nat x (built_enc_wf _ _ _ _ _ _ _ _ _ _ _ _) eq_refl) as Ht.
  rewrite first_block_wrong_channels in Ht by exact Hc.
  rewrite Ht. reflexivity.
Qed.

(** A one-channel image given to the default generator. *)
Lemma Generator_rejects_wrong_channels_witness :
  call1 (Generator.forward (built_generator zero_params 3 3 false (1 # 2) "batch"))
        (zeros (Shape 1 1 256 256))
  = Raise (RuntimeError "input channels do not match the weight").
Proof.
  apply (Generator_rejects_wrong_channels zero_params 3 3 false (1 # 2) "batch"
           (built_generator zero_params 3 3 false (1 # 2) "batch")
           (zeros (Shape 1 1 256 256)) eq_refl).
  cbn. lia.
Defined.

(** ** The discriminators on every image size *)

Section DiscriminatorShape.
Variables (N H W : Z).
Hypothesis (HN : 1 <= N).

Ltac sizes :=
  cbn [size]; rewrite ?size_enc_result;
  cbn [EncoderBlock.conv built_encoder].

Ltac chain_sym Hn arith :=
  cbn [result_bind];
  erewrite block_pipeline_result;
  [ | reflexivity
    | sizes; first [apply Conv2d_k4s2p1 | apply Conv2d_k4s1p1]; arith
    | cbv beta iota delta [enc_norm_ok EncoderBlock.do_norm EncoderBlock.norm
                           built_encoder];
      first [exact I | apply make_norm_shape; [exact Hn | apply norm_fed_big; arith]] ].

Lemma built_discriminator_chain theta i o bias norm dc :
  24 <= H -> 24 <= W ->
  recognized norm = true ->
  exists d,
    chain (Discriminator_blocks (built_discriminator theta i o bias norm))
          (Tensor (Shape N (i * 2) H W) dc) = Ok d
    /\ size d = Shape N o (H / 8 - 2) (W / 8 - 2).
Proof.
  intros HH HW Hn.
  unfold chain, Discriminator_blocks, built_discriminator.
  cbn [fold_left Discriminator.disc1 Discriminator.disc2 Discriminator.disc3
       Discriminator.disc4 Discriminator.disc5].
  do 5 chain_sym Hn ltac:(clear - HN HH HW; div_lia).
  eexists. split; [reflexivity|].
  rewrite size_enc_result. f_equal; clear - HH HW; div_lia.
Qed.

Lemma built_discriminator286_chain theta i o bias norm dc :
  96 <= H -> 96 <= W ->
  recognized norm = true ->
  exists d,
    chain (Discriminator286_blocks (built_discriminator286 theta i o bias norm))
          (Tensor (Shape N (i * 2) H W) dc) = Ok d
    /\ size d = Shape N o (H / 32 - 2) (W / 32 - 2).
Proof.
  intros HH HW Hn.
  unfold chain, Discriminator286_blocks, built_discriminator286.
  cbn [fold_left Discriminator286.disc1 Discriminator286.disc2
       Discriminator286.disc3 Discriminator286.disc4 Discriminator286.disc5
       Discriminator286.disc6 Discriminator286.disc7].
  do 7 chain_sym Hn ltac:(clear - HN HH HW; div_lia).
  eexists. split; [reflexivity|].
  rewrite size_enc_result. f_equal; clear - HH HW; div_lia.
Qed.

End DiscriminatorShape.

(** One block of a chain that returned. *)
Ltac chain_inv H :=
  match type of H with
  | context [block_pipeline ?b ?x] =>
      let y := fresh "y" in
      let E := fresh "E" in
      let s := fresh "s" in
      let Hs := fresh "Hs" in
      destruct (block_pipeline b x) as [y|] eqn:E; cbn [result_bind] in H;
      [ | discriminate H ];
      apply block_pipeline_inv in E; [ | apply built_enc_wf ];
      destruct E as (s & Hs & _ & ->);
      conv_fact
  end.

(** X15.  A [Discriminator] called on two batches of N >= 1 images of the
    same height H >= 24 and width W >= 24, whose channel counts add up to
    twice the count it was built for, returns a map of shape
    (N, out_channels, floor(H / 8) - 2, floor(W / 8) - 2) with every entry
    in [0, 1]: three halvings and two blocks that take one row and one column
    each. *)
Theorem Discriminator_forward_shape
    (theta : params) (in_channels out_channels : Z) (bias : bool) (norm : string)
    (N H W cx cr : Z) (x ref : tensor) :
  0 < in_channels -> 0 < out_channels -> recognized norm = true ->
  1 <= N -> 24 <= H -> 24 <= W ->
  size x = Shape N cx H W -> size ref = Shape N cr H W ->
  cx + cr = in_channels * 2 ->
  exists D y,
    Discriminator.__init__ theta in_channels out_channels bias norm = Ok D
    /\ call2 (Discriminator.forward D) x ref = Ok y
    /\ size y = Shape N out_channels (H / 8 - 2) (W / 8 - 2)
    /\ in_range 0 1 y.
Proof.
  intros Hi Ho Hn HN HH HW Hx Hr Hc.
  destruct (built_discriminator_chain N H W HN theta in_channels out_channels bias norm
              (torch.cat_data x ref) HH HW Hn) as (d & Hd & Hsz).
  exists (built_discriminator theta in_channels out_channels bias norm),
         (nn.Sigmoid.apply d).
  split; [apply Discriminator_init_ok; assumption|].
  split.
  { rewrite Discriminator_refines by apply built_discriminator_wf.
    unfold discriminator_pipeline.
    rewrite (cat2_pair x ref N cx cr H W _ Hx Hr Hc). cbn [result_bind].
    rewrite Hd. reflexivity. }
  split; [exact Hsz | apply Sigmoid_in_range].
Qed.

(** Two batches of two 70x100 images through the default discriminator. *)
Lemma Discriminator_forward_shape_witness :
  exists D y,
    Discriminator.__init__ zero_params 3 1 false "batch" = Ok D
    /\ call2 (Discriminator.forward D) (zeros (Shape 2 3 70 100))
             (zeros (Shape 2 3 70 100)) = Ok y
    /\ size y = Shape 2 1 (70 / 8 - 2) (100 / 8 - 2)
    /\ in_range 0 1 y.
Proof.
  apply (Discriminator_forward_shape zero_params 3 1 false "batch" 2 70 100 3 3
           (zeros (Shape 2 3 70 100)) (zeros (Shape 2 3 70 100)));
    first [reflexivity | lia].
Defined.

(** X16.  A [Discriminator286] called on two batches of N >= 1 images of the
    same height H >= 96 and width W >= 96, whose channel counts add up to
    twice the count it was built for, returns a map of shape
    (N, out_channels, floor(H / 32) - 2, floor(W / 32) - 2) with every entry
    in [0, 1]. *)
Theorem Discriminator286_forward_shape
    (theta : params) (in_channels out_channels : Z) (bias : bool) (norm : string)
    (N H W cx cr : Z) (x ref : tensor) :
  0 < in_channels -> 0 < out_channels -> recognized norm = true ->
  1 <= N -> 96 <= H -> 96 <= W ->
  size x = Shape N cx H W -> size ref = Shape N cr H W ->
  cx + cr = in_channels * 2 ->
  exists D y,
    Discriminator286.__init__ theta in_channels out_channels bias norm = Ok D
    /\ call2 (Discriminator286.forward D) x ref = Ok y
    /\ size y = Shape N out_channels (H / 32 - 2) (W / 32 - 2)
    /\ in_range 0 1 y.
Proof.
  intros Hi Ho Hn HN HH HW Hx Hr Hc.
  destruct (built_discriminator286_chain N H W HN theta in_channels out_channels bias
              norm (torch.cat_data x ref) HH HW Hn) as (d & Hd & Hsz).
  exists (built_discriminator286 theta in_channels out_channels bias norm),
         (nn.Sigmoid.apply d).
  split; [apply Discriminator286_init_ok; assumption|].
  split.
  { rewrite Discriminator286_refines by apply built_discriminator286_wf.
    unfold discriminator_pipeline.
    rewrite (cat2_pair x ref N cx cr H W _ Hx Hr Hc). cbn [result_bind].
    rewrite Hd. reflexivity. }
  split; [exact Hsz | apply Sigmoid_in_range].
Qed.

(** Two 286x286 images through the default 286x286 discriminator. *)
Lemma Discriminator286_forward_shape_witness :
  exists D y,
    Discriminator286.__init__ zero_params 3 1 false "batch" = Ok D
    /\ call2 (Discriminator286.forward D) (zeros (Shape 1 3 286 286))
             (zeros (Shape 1 3 286 286)) = Ok y
    /\ size y = Shape 1 1 (286 / 32 - 2) (286 / 32 - 2)
    /\ in_range 0 1 y.
Proof.
  apply (Discriminator286_forward_shape zero_params 3 1 false "batch" 1 286 286 3 3
           (zeros (Shape 1 3 286 286)) (zeros (Shape 1 3 286 286)));
    first [reflexivity | lia].
Defined.

(** X17.  Whenever [Discriminator.forward] returns, its two inputs agreed in
    batch size, height and width, their channel counts added up to twice the
    count the discriminator was built for, and height and width were at
    least 24; the result then has shape
    (N, out_channels, floor(H / 8) - 2, floor(W / 8) - 2) and every entry in
    [0, 1].  On any other pair the call raises. *)
Theorem Discriminator_forward_requires
    (theta : params) (in_channels out_channels : Z) (bias : bool) (norm : string)
    (D : Discriminator.t) (x ref y : tensor) :
  Discriminator.__init__ theta in_channels out_channels bias norm = Ok D ->
  call2 (Discriminator.forward D) x ref = Ok y ->
  dimN (size x) = dimN (size ref)
  /\ dimH (size x) = dimH (size ref)
  /\ dimW (size x) = dimW (size ref)
  /\ dimC (size x) + dimC (size ref) = in_channels * 2
  /\ 24 <= dimH (size x) /\ 24 <= dimW (size x)
  /\ size y = Shape (dimN (size x)) out_channels
                    (dimH (size x) / 8 - 2) (dimW (size x) / 8 - 2)
  /\ in_range 0 1 y.
Proof.
  intros HD H. apply Discriminator_init_inv in HD. subst D.
  rewrite Discriminator_refines in H by apply built_discriminator_wf.
  unfold discriminator_pipeline in H.
  destruct (torch.cat2 x ref) as [c|] eqn:Hc; cbn [result_bind] in H; [|discriminate].
  unfold chain, Discriminator_blocks, built_discriminator in H.
  cbn [fold_left Discriminator.disc1 Discriminator.disc2 Discriminator.disc3
       Discriminator.disc4 Discriminator.disc5 result_bind] in H.
  destruct x as [[xn xc xh xw] dx], ref as [[rn rc rh rw] dr].
  cat_fact.
  do 5 chain_inv H.
  injection H as <-.
  cbn [size dimN dimC dimH dimW] in *.
  do 4 (split; [lia|]). do 2 (split; [div_lia|]).
  split; [|apply Sigmoid_in_range].
  cbn [nn.Sigmoid.apply pointwise size]. rewrite size_enc_result.
  f_equal; div_lia.
Qed.

(** The default discriminator on two all-zero 256x256 images. *)
Lemma Discriminator_forward_requires_witness :
  exists y,
    call2 (Discriminator.forward (built_discriminator zero_params 3 1 false "batch"))
          (zeros (Shape 1 3 256 256)) (zeros (Shape 1 3 256 256)) = Ok y
    /\ size y = Shape 1 1 (256 / 8 - 2) (256 / 8 - 2)
    /\ in_range 0 1 y.
Proof.
  assert (Hcall : exists y,
             call2 (Discriminator.forward
                      (built_discriminator zero_params 3 1 false "batch"))
                   (zeros (Shape 1 3 256 256)) (zeros (Shape 1 3 256 256)) = Ok y)
    by (eexists; vm_compute; reflexivity).
  destruct Hcall as (y & Hcall). exists y. split; [exact Hcall|].
  apply (Discriminator_forward_requires zero_params 3 1 false "batch"
           (built_discriminator zero_params 3 1 false "batch")
           (zeros (Shape 1 3 256 256)) (zeros (Shape 1 3 256 256)) y eq_refl Hcall).
Defined.

(** X18.  Whenever [Discriminator286.forward] returns, its two inputs agreed
    in batch size, height and width, their channel counts added up to twice
    the count the discriminator was built for, and height and width were at
    least 96; the result then has shape
    (N, out_channels, floor(H / 32) - 2, floor(W / 32) - 2) and every entry
    in [0, 1].  On any other pair the call raises. *)
Theorem Discriminator286_forward_requires
    (theta : params) (in_channels out_channels : Z) (bias : bool) (norm : string)
    (D : Discriminator286.t) (x ref y : tensor) :
  Discriminator286.__init__ theta in_channels out_channels bias norm = Ok D ->
  call2 (Discriminator286.forward D) x ref = Ok y ->
  dimN (size x) = dimN (size ref)
  /\ dimH (size x) = dimH (size ref)
  /\ dimW (size x) = dimW (size ref)
  /\ dimC (size x) + dimC (size ref) = in_channels * 2
  /\ 96 <= dimH (size x) /\ 96 <= dimW (size x)
  /\ size y = Shape (dimN (size x)) out_channels
                    (dimH (size x) / 32 - 2) (dimW (size x) / 32 - 2)
  /\ in_range 0 1 y.
Proof.
  intros HD H. apply Discriminator286_init_inv in HD. subst D.
  rewrite Discriminator286_refines in H by apply built_discriminator286_wf.
  unfold discriminator_pipeline in H.
  destruct (torch.cat2 x ref) as [c|] eqn:Hc; cbn [result_bind] in H; [|discriminate].
  unfold chain, Discriminator286_blocks, built_discriminator286 in H.
  cbn [fold_left Discriminator286.disc1 Discriminator286.disc2 Discriminator286.disc3
       Discriminator286.disc4 Discriminator286.disc5 Discriminator286.disc6
       Discriminator286.disc7 result_bind] in H.
  destruct x as [[xn xc xh xw] dx], ref as [[rn rc rh rw] dr].
  cat_fact.
  do 7 chain_inv H.
  injection H as <-.
  cbn [size dimN dimC dimH dimW] in *.
  do 4 (split; [lia|]). do 2 (split; [div_lia|]).
  split; [|apply Sigmoid_in_range].
  cbn [nn.Sigmoid.apply pointwise size]. rewrite size_enc_result.
  f_equal; div_lia.
Qed.

(** The default 286x286 discriminator on two all-zero 256x256 images. *)
Lemma Discriminator286_forward_requires_witness :
  exists y,
    call2 (Discriminator286.forward (built_discriminator286 zero_params 3 1 false "batch"))
          (zeros (Shape 1 3 256 256)) (zeros (Shape 1 3 256 256)) = Ok y
    /\ size y = Shape 1 1 (256 / 32 - 2) (256 / 32 - 2)
    /\ in_range 0 1 y.
Proof.
  assert (Hcall : exists y,
             call2 (Discriminator286.forward
                      (built_discriminator286 zero_params 3 1 false "batch"))
                   (zeros (Shape 1 3 256 256)) (zeros (Shape 1 3 256 256)) = Ok y)
    by (eexists; vm_compute; reflexivity).
  destruct Hcall as (y & Hcall). exists y. split; [exact Hcall|].
  apply (Discriminator286_forward_requires zero_params 3 1 false "batch"
           (built_discriminator286 zero_params 3 1 false "batch")
           (zeros (Shape 1 3 256 256)) (zeros (Shape 1 3 256 256)) y eq_refl Hcall).
Defined.

(** X19.  Both discriminators, called on two tensors that differ in batch
    size, height or width, raise the [RuntimeError] of the concatenation,
    before any block is applied. *)
Theorem Discriminators_reject_mismatched_pair
    (theta : params) (in_channels out_channels : Z) (bias : bool) (norm : string)
    (D : Discriminator.t) (D' : Discriminator286.t) (x ref : tensor) :
  Discriminator.__init__ theta in_channels out_channels bias norm = Ok D ->
  Discriminator286.__init__ theta in_channels out_channels bias norm = Ok D' ->
  dimN (size x) <> dimN (size ref) \/ dimH (size x) <> dimH (size ref)
  \/ dimW (size x) <> dimW (size ref) ->
  call2 (Discriminator.forward D) x ref
  = Raise (RuntimeError "Sizes of tensors must match except in dimension 1")
  /\ call2 (Discriminator286.forward D') x ref
     = Raise (RuntimeError "Sizes of tensors must match except in dimension 1").
Proof.
  intros HD HD' Hne.
  apply Discriminator_init_inv in HD. apply Discriminator286_init_inv in HD'. subst.
  rewrite Discriminator_refines by apply built_discriminator_wf.
  rewrite Discriminator286_refines by apply built_discriminator286_wf.
  unfold discriminator_pipeline. rewrite (cat2_mismatch x ref Hne). split; reflexivity.
Qed.

(** A 256x256 image paired with a 128x128 image. *)
Lemma Discriminators_reject_mismatched_pair_witness :
  call2 (Discriminator.forward (built_discriminator zero_params 3 1 false "batch"))
        (zeros (Shape 1 3 256 256)) (zeros (Shape 1 3 128 128))
  = Raise (RuntimeError "Sizes of tensors must match except in dimension 1")
  /\ call2 (Discriminator286.forward (built_discriminator286 zero_params 3 1 false "batch"))
           (zeros (Shape 1 3 256 256)) (zeros (Shape 1 3 128 128))
     = Raise (RuntimeError "Sizes of tensors must match except in dimension 1").
Proof.
  apply (Discriminators_reject_mismatched_pair zero_params 3 1 false "batch"
           (built_discriminator zero_params 3 1 false "batch")
           (built_discriminator286 zero_params 3 1 false "batch")
           (zeros (Shape 1 3 256 256)) (zeros (Shape 1 3 128 128)) eq_refl eq_refl).
  right. left. cbn. lia.
Defined.

(** X20.  Both discriminators, called on two tensors that agree in batch
    size, height and width but whose channel counts do not add up to twice
    the count the discriminator was built for, raise the [RuntimeError] of
    the first convolution's channel check. *)
Theorem Discriminators_reject_wrong_channels
    (theta : params) (in_channels out_channels : Z) (bias : bool) (norm : string)
    (D : Discriminator.t) (D' : Discriminator286.t) (x ref : tensor) :
  Discriminator.__init__ theta in_channels out_channels bias norm = Ok D ->
  Discriminator286.__init__ theta in_channels out_channels bias norm = Ok D' ->
  dimN (size x) = dimN (size ref) -> dimH (size x) = dimH (size ref) ->
  dimW (size x) = dimW (size ref) ->
  dimC (size x) + dimC (size ref) <> in_channels * 2 ->
  call2 (Discriminator.forward D) x ref
  = Raise (RuntimeError "input channels do not match the weight")
  /\ call2 (Discriminator286.forward D') x ref
     = Raise (RuntimeError "input channels do not match the weight").
Proof.
  intros HD HD' En Eh Ew Hc.
  apply Discriminator_init_inv in HD. apply Discriminator286_init_inv in HD'. subst.
  rewrite Discriminator_refines by apply built_discriminator_wf.
  rewrite Discriminator286_refines by apply built_discriminator286_wf.
  unfold discriminator_pipeline.
  destruct x as [[xn xc xh xw] dx], ref as [[rn rc rh rw] dr].
  cbn [size dimN dimC dimH dimW] in *. subst rn rh rw.
  rewrite (cat2_pair (Tensor (Shape xn xc xh xw) dx) (Tensor (Shape xn rc xh xw) dr)
             xn xc rc xh xw (xc + rc) eq_refl eq_refl eq_refl).
  cbn [result_bind].
  unfold chain, Discriminator_blocks, Discriminator286_blocks, built_discriminator,
    built_discriminator286.
  cbn [fold_left Discriminator.disc1 Discriminator286.disc1 result_bind].
  rewrite !first_block_wrong_channels by (cbn [size dimC]; exact Hc).
  split; reflexivity.
Qed.

(** A three-channel image paired with a one-channel image. *)
Lemma Discriminators_reject_wrong_channels_witness :
  call2 (Discriminator.forward (built_discriminator zero_params 3 1 false "batch"))
        (zeros (Shape 1 3 256 256)) (zeros (Shape 1 1 256 256))
  = Raise (RuntimeError "input channels do not match the weight")
  /\ call2 (Discriminator286.forward (built_discriminator286 zero_params 3 1 false "batch"))
           (zeros (Shape 1 3 256 256)) (zeros (Shape 1 1 256 256))
     = Raise (RuntimeError "input channels do not match the weight").
Proof.
  apply (Discriminators_reject_wrong_channels zero_params 3 1 false "batch"
           (built_discriminator zero_params 3 1 false "batch")
           (built_discriminator286 zero_params 3 1 false "batch")
           (zeros (Shape 1 3 256 256)) (zeros (Shape 1 1 256 256)) eq_refl eq_refl);
    first [reflexivity | (cbn; lia)].
Defined.

(** ** An encoder block followed by a decoder block *)

(** X21.  An [EncoderBlock] and a [DecoderBlock] with kernel 4, stride 2
    and padding 1, the decoder reading the channels the encoder writes,
    called one after the other on a tensor of shape (N, Cin, H, W) with
    H, W >= 2 return a tensor of shape (N, Cout, H - H mod 2, W - W mod 2):
    the decoder restores an even extent and leaves an odd extent one
    short. *)
Theorem encoder_then_decoder_extent
    (theta theta' : params) (Cin Cmid Cout g : Z)
    (bias bias' do_norm do_norm' act act' : bool) (norm norm' : string) (q : Q)
    (N H W : Z) (st : store) (r : handle) (x : tensor) :
  conv_accepts Cin Cmid 4 g = true ->
  conv_accepts Cmid Cout 4 1 = true ->
  dropout_accepts q = true ->
  (do_norm = true -> recognized norm = true) ->
  (do_norm' = true -> recognized norm' = true) ->
  st !! r = Some x ->
  size x = Shape N Cin H W ->
  2 <= H -> 2 <= W ->
  (do_norm = true -> norm_fed norm N (H / 2) (W / 2)) ->
  exists e d y,
    EncoderBlock.__init__ theta Cin Cmid 4 2 1 1 g bias do_norm norm act = Ok e
    /\ DecoderBlock.__init__ theta' Cmid Cout 4 2 1 bias' do_norm' norm' act' q = Ok d
    /\ fetch (m <- EncoderBlock.forward e r ;; DecoderBlock.forward d m)%store st = Ok y
    /\ size y = Shape N Cout (H - H mod 2) (W - W mod 2).
Proof.
  intros Hc Hc' Hq Hrec Hrec' Hx Hsz HH HW Hfed.
  set (e := built_encoder theta Cin Cmid 4 2 1 1 g bias do_norm norm act).
  set (d := built_decoder theta' Cmid Cout 4 2 1 bias' do_norm' norm' act' q).
  set (s := Shape N Cmid (H / 2) (W / 2)).
  set (t := Shape N Cout (H / 2 * 2) (W / 2 * 2)).
  assert (Hs : nn.Conv2d.out_shape (EncoderBlock.conv e) (size x) = Ok s).
  { rewrite Hsz. apply Conv2d_k4s2p1; assumption. }
  assert (Hn : enc_norm_ok e s).
  { unfold enc_norm_ok, e. cbn [EncoderBlock.do_norm EncoderBlock.norm built_encoder].
    destruct do_norm; [|exact I]. apply make_norm_shape; auto. }
  assert (Ht : nn.ConvTranspose2d.out_shape (DecoderBlock.convT d)
                 (size (enc_result e x s)) = Ok t).
  { rewrite size_enc_result. apply ConvTranspose2d_doubles; div_lia. }
  assert (Hm : dec_norm_ok d t).
  { unfold dec_norm_ok, d. cbn [DecoderBlock.do_norm DecoderBlock.norm built_decoder].
    destruct do_norm'; [|exact I].
    apply make_norm_shape; [auto | apply norm_fed_doubled]. }
  exists e, d, (dec_result d (enc_result e x s) t).
  split; [apply EncoderBlock_init_ok; assumption|].
  split; [apply DecoderBlock_init_ok; assumption|].
  split.
  - rewrite (fetch_bind_runs _ _ _ _ _
               (runs_EncoderBlock e st r x s Hx eq_refl Hs Hn)).
    unfold fetch.
    rewrite (runs_DecoderBlock d _ _ _ t (lookup_enc_result e r x s st) eq_refl Ht Hm).
    rewrite lookup_dec_result. reflexivity.
  - rewrite size_dec_result. unfold t. f_equal; div_lia.
Qed.

(** The default encoder block and a dropout decoder block on a 9x8 image. *)
Lemma encoder_then_decoder_extent_witness :
  exists e d y,
    EncoderBlock.__init__ zero_params 3 64 4 2 1 1 1 false true "batch" true = Ok e
    /\ DecoderBlock.__init__ zero_params 64 3 4 2 1 false true "batch" true (1 # 2) = Ok d
    /\ fetch (m <- EncoderBlock.forward e 0%nat ;; DecoderBlock.forward d m)%store
             [zeros (Shape 1 3 9 8)] = Ok y
    /\ size y = Shape 1 3 (9 - 9 mod 2) (8 - 8 mod 2).
Proof.
  apply (encoder_then_decoder_extent zero_params zero_params 3 64 3 1 false false
           true true true true "batch" "batch" (1 # 2) 1 9 8
           [zeros (Shape 1 3 9 8)] 0%nat (zeros (Shape 1 3 9 8)));
    first [reflexivity | lia | (intros _; vm_compute; discriminate)].
Defined.

(** ** The shape of a block's result, for every configuration *)







(** X24.  An [EncoderBlock] with kernel 4, stride 2, padding 1 and
    normalisation enabled raises the normalisation layer's [ValueError] when
    its convolution leaves a 1x1 map (input height and width 2 or 3): for
    every batch size with instance normalisation, and for a single image
    with batch normalisation.  This is the block the generator's eighth
    encoder would be if it had normalisation. *)
Theorem EncoderBlock_norm_needs_two_values
    (theta : params) (Cin Cout g : Z) (bias act : bool) (norm : string)
    (N H W : Z) (st : store) (r : handle) (x : tensor) :
  conv_accepts Cin Cout 4 g = true ->
  recognized norm = true ->
  st !! r = Some x ->
  size x = Shape N Cin H W ->
  2 <= H <= 3 -> 2 <= W <= 3 ->
  (norm = "batch" -> N = 1) ->
  exists b,
    EncoderBlock.__init__ theta Cin Cout 4 2 1 1 g bias true norm act = Ok b
    /\ fetch (EncoderBlock.forward b r) st = Raise (starved norm).
Proof.
  intros Hc Hrec Hx Hsz HH HW HN.
  exists (built_encoder theta Cin Cout 4 2 1 1 g bias true norm act).
  split; [apply EncoderBlock_init_ok; [exact Hc | intros _; exact Hrec]|].
  rewrite (EncoderBlock_fetch _ st r x (built_enc_wf _ _ _ _ _ _ _ _ _ _ _ _) Hx).
  unfold block_pipeline, encoder_pipeline, nn.Conv2d.apply.
  cbn [EncoderBlock.do_activation EncoderBlock.do_norm EncoderBlock.conv
       EncoderBlock.norm built_encoder].
  assert (Hs : size (if act then pointwise (nn.LeakyReLU.f (2 # 10)) x else x)
               = Shape N Cin H W) by (destruct act; exact Hsz).
  rewrite Hs, Conv2d_k4s2p1 by lia. cbn [result_bind].
  assert (EH : H / 2 = 1) by div_lia.
  assert (EW : W / 2 = 1) by div_lia.
  rewrite EH, EW. unfold starved, make_norm.
  destruct (recognized_cases norm Hrec) as [-> | ->];
    cbn [String.eqb Ascii.eqb Bool.eqb norm_apply].
  - unfold nn.BatchNorm2d.apply, nn.BatchNorm2d.out_shape, nn.BatchNorm2d.__init__.
    cbn [size dimN dimC dimH dimW nn.BatchNorm2d.num_features].
    rewrite Z.eqb_refl, (HN eq_refl). reflexivity.
  - unfold nn.InstanceNorm2d.apply, nn.InstanceNorm2d.out_shape.
    cbn [size dimN dimC dimH dimW]. reflexivity.
Qed.

(** The generator's eighth encoder with batch normalisation turned on, on
    the 2x2 activation it receives for a single 256x256 image. *)
Lemma EncoderBlock_norm_needs_two_values_witness :
  exists b,
    EncoderBlock.__init__ zero_params 512 512 4 2 1 1 1 false true "batch" true = Ok b
    /\ fetch (EncoderBlock.forward b 0%nat) [zeros (Shape 1 512 2 2)]
       = Raise (starved "batch").
Proof.
  apply (EncoderBlock_norm_needs_two_values zero_params 512 512 1 false true "batch"
           1 2 2 [zeros (Shape 1 512 2 2)] 0%nat (zeros (Shape 1 512 2 2)));
    first [reflexivity | lia].
Defined.
